(** * Excel MCP employee classification agent: reconciliation core

    A shallow embedding of [agent/employee_agent.py] (the oracle client
    [llm_decide] and the orchestrator [run_agent]), of
    [mcp_server/tools.py] with [mcp_server/schema.py] (the record-store
    adapter and its maintenance tools) and of [utils/config_loader.py],
    followed by the properties of the update-reconciliation engine and of
    the code around it.

    Conventions of the embedding.
    - A Python scalar is a [value]; a finite float is represented by the
      rational number it denotes, [nan] by its own constructor.
    - A string is the sequence of bytes of its UTF-8 encoding; [str.strip]
      removes the characters of one, two and three bytes for which
      [str.isspace] holds.
    - A dict is an association list in insertion order with unique keys;
      a JSON document is read as far as the agent reads it, an object with
      scalar members or something else.
    - The spreadsheet is a [DataFrame]: a list of column names and a grid
      of cells addressed by position, as [df.iloc] addresses it. The
      workbook holds the frame that was handed to [df.to_excel] last, and
      reading it is taken to return that grid. pandas returns it cell by
      cell for the texts of the enumerations and the other cells it has
      read from a workbook before; it returns an empty or missing cell as
      NaN and a float without fraction as an integer, and the properties
      that compare what a call wrote with what the next call reads are
      stated for the former.
    - A backup may fail, a save may fail, and [time.sleep] fails on a
      negative delay.
    - Everything outside the repository (the chat-completion endpoint, the
      MCP transport, the file system, the clock, pandas' date parser and
      Python's float printer and parser) is an explicit parameter: the
      record [runtime] for library functions, the record [environment] for
      what the outside world answers. *)

From Stdlib Require Import ZArith QArith_base List Lia Bool Ascii String.
From stdpp Require Import base list strings pretty.
From Equations Require Import Equations.

(** ** Python strings *)

(** A string is held as the bytes of its UTF-8 encoding, which is what a
    string literal of this file denotes. Equality, prefixes, suffixes and
    slices by an ASCII marker are the same on the bytes as on the
    characters; only [str.strip] looks at characters, and it is defined
    below on their encodings. *)

(** [str.isspace] on a character of one byte: tab to carriage return, the
    four separators 0x1c-0x1f and the blank. *)
Definition is_space (c : ascii) : bool :=
  let n := nat_of_ascii c in
  ((9 <=? n)%nat && (n <=? 13)%nat) || ((28 <=? n)%nat && (n <=? 32)%nat).

(** [str.isspace] on a character of two bytes: U+0085 (C2 85) and the
    no-break space U+00A0 (C2 A0). *)
Definition is_space2 (a b : ascii) : bool :=
  (nat_of_ascii a =? 194)%nat
  && ((nat_of_ascii b =? 133)%nat || (nat_of_ascii b =? 160)%nat).

(** [str.isspace] on a character of three bytes: U+1680 (E1 9A 80),
    U+2000 to U+200A (E2 80 80 to E2 80 8A), U+2028 and U+2029 (E2 80 A8,
    E2 80 A9), U+202F (E2 80 AF), U+205F (E2 81 9F) and U+3000 (E3 80 80).
    With the characters above these are the 29 characters for which
    [str.isspace] holds. *)
Definition is_space3 (a b c : ascii) : bool :=
  let a := nat_of_ascii a in
  let b := nat_of_ascii b in
  let c := nat_of_ascii c in
  ((a =? 225) && (b =? 154) && (c =? 128))%nat
  || ((a =? 226) && (b =? 128)
      && (((128 <=? c) && (c <=? 138)) || (c =? 168) || (c =? 169) || (c =? 175)))%nat
  || ((a =? 226) && (b =? 129) && (c =? 159))%nat
  || ((a =? 227) && (b =? 128) && (c =? 128))%nat.

(** Dropping from the front of [l] every character of one, two or three
    bytes that [p1], [p2] or [p3] accepts. *)
Fixpoint drop_chars (p1 : ascii -> bool) (p2 : ascii -> ascii -> bool)
    (p3 : ascii -> ascii -> ascii -> bool) (l : list ascii) : list ascii :=
  match l with
  | [] => []
  | a :: l1 =>
      if p1 a then drop_chars p1 p2 p3 l1
      else match l1 with
           | [] => l
           | b :: l2 =>
               if p2 a b then drop_chars p1 p2 p3 l2
               else match l2 with
                    | [] => l
                    | c :: l3 => if p3 a b c then drop_chars p1 p2 p3 l3 else l
                    end
           end
  end.

(** [s.lstrip()] on the bytes of [s]. *)
Definition drop_spaces (l : list ascii) : list ascii :=
  drop_chars is_space is_space2 is_space3 l.

(** [s.rstrip()] on the bytes of [s] in reverse order, where the bytes
    of a character come last byte first. *)
Definition drop_spaces_rev (l : list ascii) : list ascii :=
  drop_chars is_space (fun b a => is_space2 a b) (fun c b a => is_space3 a b c) l.

(** [s.strip()] on the bytes of [s]. *)
Definition strip_chars (l : list ascii) : list ascii :=
  rev (drop_spaces_rev (rev (drop_spaces l))).

Definition strip (s : string) : string :=
  string_of_list_ascii (strip_chars (list_ascii_of_string s)).

(** [s.startswith(p)] *)
Fixpoint startswith (p s : string) : bool :=
  match p, s with
  | EmptyString, _ => true
  | String a p', String b s' => if Ascii.eqb a b then startswith p' s' else false
  | String _ _, EmptyString => false
  end.

Definition str_rev (s : string) : string :=
  string_of_list_ascii (rev (list_ascii_of_string s)).

(** [s.endswith(p)] *)
Definition endswith (p s : string) : bool := startswith (str_rev p) (str_rev s).

(** [s[n:]] *)
Fixpoint str_drop (n : nat) (s : string) : string :=
  match n, s with
  | O, _ => s
  | S n', String _ s' => str_drop n' s'
  | S _, EmptyString => EmptyString
  end.

(** [s[:-n]] for [n > 0] *)
Definition str_drop_end (n : nat) (s : string) : string :=
  str_rev (str_drop n (str_rev s)).

(** ** Python scalars *)

Inductive pyfloat :=
| NaN
| Fin (q : Q).

Inductive value :=
| VNone
| VBool (b : bool)
| VInt (n : Z)
| VFloat (f : pyfloat)
| VStr (s : string).

(** Truth value of a scalar, as [if v:] and [not v] test it. *)
Definition truthy (v : value) : bool :=
  match v with
  | VNone => false
  | VBool b => b
  | VInt n => negb (n =? 0)%Z
  | VFloat NaN => true
  | VFloat (Fin q) => negb (Qnum q =? 0)%Z
  | VStr s => negb (String.eqb s "")
  end.

(** [pd.isna(v)] on a scalar. *)
Definition isna (v : value) : bool :=
  match v with
  | VNone => true
  | VFloat NaN => true
  | _ => false
  end.

(** ** Python dicts *)

Definition dict := list (string * value).

(** [d.get(k, default)] *)
Fixpoint dget (k : string) (default : value) (d : dict) : value :=
  match d with
  | [] => default
  | (k', v) :: d' => if String.eqb k k' then v else dget k default d'
  end.

(** [k in d] *)
Fixpoint dmem (k : string) (d : dict) : bool :=
  match d with
  | [] => false
  | (k', _) :: d' => String.eqb k k' || dmem k d'
  end.

(** [d[k] = v]: replaces the value of an existing key in place, appends a
    new key. *)
Fixpoint dset (k : string) (v : value) (d : dict) : dict :=
  match d with
  | [] => [(k, v)]
  | (k', v') :: d' => if String.eqb k k' then (k, v) :: d' else (k', v') :: dset k v d'
  end.

(** The result of [json.loads] as far as the agent reads it: an object with
    scalar members, or any other document. *)
Inductive json :=
| JObject (d : dict)
| JOther.

(** Library functions of the Python runtime that the code calls and that
    are not part of the repository. *)
Record runtime := {
  (** [repr] of a finite float *)
  float_repr : Q -> string;
  (** [float(s)] on a string; [None] when it raises [ValueError] *)
  float_of_str : string -> option pyfloat;
  (** [pd.to_datetime(s).date()] as a day number; [None] when it raises *)
  to_datetime_date : string -> option Z;
  (** [datetime.isoformat()] of a timestamp *)
  isoformat : Z -> string;
  (** [json.loads(s)]; [None] when it raises [JSONDecodeError] *)
  json_loads : string -> option json
}.

(** [str(v)] *)
Definition py_str (R : runtime) (v : value) : string :=
  match v with
  | VNone => "None"
  | VBool true => "True"
  | VBool false => "False"
  | VInt n => pretty n
  | VFloat NaN => "nan"
  | VFloat (Fin q) => float_repr R q
  | VStr s => s
  end.

(** [float(v)]; [None] when it raises [TypeError] or [ValueError]. *)
Definition py_float (R : runtime) (v : value) : option pyfloat :=
  match v with
  | VNone => None
  | VBool b => Some (Fin (inject_Z (if b then 1 else 0)))
  | VInt n => Some (Fin (inject_Z n))
  | VFloat f => Some f
  | VStr s => float_of_str R s
  end.

(** [round(x, 1)] on the rational a float denotes: the nearest tenth, a
    tie going to the even one. The code rounds quotients [days / 365.25]
    only, and those are never at a tie, so the rounding error of the float
    division cannot change the tenth. *)
Definition round_half_even (n : Z) (d : positive) : Z :=
  let q := (n / Zpos d)%Z in
  let r := (n mod Zpos d)%Z in
  match (2 * r ?= Zpos d)%Z with
  | Lt => q
  | Gt => (q + 1)%Z
  | Eq => if Z.even q then q else (q + 1)%Z
  end.

Definition py_round1 (x : Q) : Q :=
  Qmake (round_half_even (10 * Qnum x) (Qden x)) 10.

(** ** mcp_server/schema.py *)

Definition DROPDOWNS : list (string * list string) :=
  [ ("Department", ["Web"; "AI"; "HR"; "Finance"; "Operations"]);
    ("Designation", ["Intern"; "Junior"; "Senior"; "Lead"]);
    ("Salary_Band", ["L1"; "L2"; "L3"]);
    ("Skill_Level", ["Beginner"; "Intermediate"; "Expert"]);
    ("Promotion_Eligibility", ["Yes"; "No"]);
    ("Is_Processed", ["Yes"; "No"]) ].

(** [DROPDOWNS[col]], [None] when [col not in DROPDOWNS]. *)
Fixpoint dropdown (col : string) (table : list (string * list string)) : option (list string) :=
  match table with
  | [] => None
  | (c, allowed) :: table' => if String.eqb col c then Some allowed else dropdown col table'
  end.

(** [val in allowed] for a list of strings: only a string equal to one of
    them is a member. *)
Definition value_in (val : value) (allowed : list string) : bool :=
  match val with
  | VStr s => existsb (String.eqb s) allowed
  | _ => false
  end.

(** ** The record store *)

(** A cell of the frame: a scalar or a timestamp object. *)
Inductive cell :=
| Val (v : value)
| Timestamp (t : Z).

Record DataFrame := {
  columns : list string;
  rows : list (list cell)
}.

(** [df.columns.get_loc(col)] *)
Fixpoint get_loc (col : string) (cols : list string) : option nat :=
  match cols with
  | [] => None
  | c :: cols' => if String.eqb col c then Some 0%nat else S <$> get_loc col cols'
  end.

(** [df.iloc[r, j] = c] *)
Definition iloc_set (r j : nat) (c : cell) (df : DataFrame) : DataFrame :=
  {| columns := columns df; rows := alter (<[j := c]>) r (rows df) |}.

(** [df.iloc[r, df.columns.get_loc(col)]], read. *)
Definition cell_at (df : DataFrame) (r : nat) (col : string) : option cell :=
  j ← get_loc col (columns df); row ← rows df !! r; row !! j.

(** [if col not in df.columns: df[col] = default] *)
Definition ensure_column (col : string) (default : cell) (df : DataFrame) : DataFrame :=
  match get_loc col (columns df) with
  | Some _ => df
  | None => {| columns := columns df ++ [col];
               rows := (fun row => row ++ [default]) <$> rows df |}
  end.

(** Every row has one cell per column and no column name repeats. *)
Definition wf_frame (df : DataFrame) : Prop :=
  NoDup (columns df) ∧ Forall (fun row => length row = length (columns df)) (rows df).

(** [convert_to_json_serializable] *)
Definition convert_to_json_serializable (R : runtime) (c : cell) : value :=
  match c with
  | Val v => if isna v then VNone else v
  | Timestamp t => VStr (isoformat R t)
  end.

(** One element of the [employees] list. *)
Record employee := {
  row_id : Z;
  data : dict
}.

(** [row.to_dict()] with every value converted. [df.iterrows()] takes the
    row from one array for the whole frame: in a frame whose columns are
    all numeric and not all of integers an integer cell arrives as the
    float of the same value. The embedding hands every cell out as it is
    stored, which is what the code does in every frame that has a column
    of text. *)
Definition row_dict (R : runtime) (cols : list string) (row : list cell) : dict :=
  zip cols (convert_to_json_serializable R <$> row).

(** ** The outside world *)

Record stats := {
  total : nat;
  success : nat;
  failed : nat;
  skipped : nat
}.

Inductive event :=
| EvRequest (employee_row : dict)   (* [client.chat.completions.create] *)
| EvSleep (secs : Z)                (* [time.sleep] *)
| EvRoundTrip (tool : string)       (* one MCP request of the session *)
| EvBackup                          (* [create_backup] *)
| EvSave (ok : bool)                (* [df.to_excel], succeeded or not *)
| EvFatal                           (* "Fatal error in agent" *)
| EvSummary (st : stats) (elapsed : Z).

(** What the surroundings answer during one run. *)
Record environment := {
  (** the [n]-th chat completion: [None] when the request raises, the
      message content otherwise *)
  completion : nat -> option string;
  (** whether the [n]-th MCP round trip gets through *)
  transport_ok : nat -> bool;
  (** whether the [n]-th [df.to_excel] succeeds *)
  save_ok : nat -> bool;
  (** whether a backup taken after the given number of events gets its
      copy: the workbook exists and [shutil.copy2] succeeds *)
  backup_ok : nat -> bool;
  (** [datetime.now().date()] as a day number *)
  today : Z;
  (** [datetime.now()] *)
  now : Z;
  (** [time.time()] after a given number of events *)
  wall : nat -> Z
}.

(** The configuration values the modelled code reads. *)
Record config := {
  max_retries : nat;      (* openai.max_retries, default 3 *)
  retry_delay : Z;        (* openai.retry_delay, default 2 *)
  backup_enabled : bool   (* processing.backup_before_update, default True *)
}.

Definition default_config : config :=
  {| max_retries := 3; retry_delay := 2; backup_enabled := true |}.

(** The workbook ([None]: it cannot be read) and what has happened so far,
    newest event first. *)
Record world := {
  file : option DataFrame;
  trace : list event
}.

Definition emit (e : event) (w : world) : world :=
  {| file := file w; trace := e :: trace w |}.

Definition write_file (df : DataFrame) (w : world) : world :=
  {| file := Some df; trace := trace w |}.

Fixpoint count_events (p : event -> bool) (t : list event) : nat :=
  match t with
  | [] => 0
  | e :: t' => (if p e then 1 else 0) + count_events p t'
  end.

Definition is_request (e : event) : bool := match e with EvRequest _ => true | _ => false end.
Definition is_sleep (e : event) : bool := match e with EvSleep _ => true | _ => false end.
Definition is_round_trip (e : event) : bool := match e with EvRoundTrip _ => true | _ => false end.
Definition is_save (e : event) : bool := match e with EvSave _ => true | _ => false end.

(** ** Exceptions and the state-and-exception monad *)

Inductive exn :=
| FileError                                (* [pd.read_excel] failed *)
| InvalidRowId (row : Z)                   (* ValueError: invalid row_id *)
| InvalidValue (col : string) (val : value) (* ValueError: value not allowed *)
| SaveError                                (* [df.to_excel] failed *)
| APIError                                 (* the completion request failed *)
| JSONDecodeError
| AttributeError                           (* [.get] on something not a dict *)
| ConversionError                          (* [float(...)] failed *)
| SleepError                               (* ValueError: negative sleep length *)
| McpError.                                (* the MCP session failed *)

Inductive result (A : Type) :=
| Ok (a : A)
| Raise (e : exn).
Arguments Ok {A} a.
Arguments Raise {A} e.

Definition M (A : Type) : Type := world -> result A * world.

Definition ret {A} (a : A) : M A := fun w => (Ok a, w).
Definition raise {A} (e : exn) : M A := fun w => (Raise e, w).
Definition bind {A B} (m : M A) (f : A -> M B) : M B :=
  fun w => match m w with
           | (Ok a, w') => f a w'
           | (Raise e, w') => (Raise e, w')
           end.

Declare Scope py_scope.
Delimit Scope py_scope with py.
Notation "x <~ m ;; k" := (bind m (fun x => k))
  (at level 100, m at next level, right associativity) : py_scope.
Notation "m ;;; k" := (bind m (fun _ => k))
  (at level 100, right associativity) : py_scope.

(** What [session.call_tool] returns: the tool's value, or [isError] when
    the tool raised on the server. *)
Inductive CallToolResult (A : Type) :=
| ToolOk (payload : A)
| ToolError (e : exn).
Arguments ToolOk {A} payload.
Arguments ToolError {A} e.

(** What one pass through the [try] body yields before any handler runs. *)
Inductive attempt :=
| Parsed (decision : json)
| Unparseable
| RequestFailed.

(** How the loop counts a row. *)
Inductive row_outcome :=
| Updated       (* the tool call returned without [isError] *)
| Rejected      (* the tool call returned [isError] *)
| Skipped.      (* "No updates needed" *)

Section Program.

Variable R : runtime.
Variable E : environment.
Variable C : config.

Local Open Scope py_scope.

(** ** mcp_server/tools.py *)

(** [pd.read_excel(EXCEL_PATH)] *)
Definition read_excel : M DataFrame :=
  fun w => match file w with
           | Some df => (Ok df, w)
           | None => (Raise FileError, w)
           end.

(** [df.to_excel(EXCEL_PATH, index=False)] followed by
    [_reapply_data_validation], which changes no cell and swallows its own
    errors. A failed save leaves the workbook as it was. After a save that
    succeeds the workbook holds the frame as it was handed over; what
    [pd.read_excel] makes of its empty texts and whole floats is not
    modelled. *)
Definition to_excel (df : DataFrame) : M unit :=
  fun w => if save_ok E (count_events is_save (trace w))
           then (Ok tt, write_file df (emit (EvSave true) w))
           else (Raise SaveError, emit (EvSave false) w).

(** [create_backup]: copies the workbook when it exists. A copy that
    fails is caught there and reported by returning [None], on which
    [update_employee_row] goes on without a backup; nothing is raised. The
    copy is of the file as it stands, whether [pd.read_excel] can read it
    or not. *)
Definition create_backup : M unit :=
  fun w => if backup_ok E (length (trace w))
           then (Ok tt, emit EvBackup w)
           else (Ok tt, w).

(** The list [get_all_employees] builds: one entry per row, its position
    as [row_id]. *)
Definition employees_of (df : DataFrame) : list employee :=
  imap (fun i row => {| row_id := Z.of_nat i; data := row_dict R (columns df) row |}) (rows df).

Definition get_all_employees : M (list employee) :=
  df <~ read_excel ;;
  ret (employees_of df).

(** "Ensure required columns exist" *)
Definition ensure_required_columns (df : DataFrame) : DataFrame :=
  let df := ensure_column "Is_Processed" (Val (VStr "No")) df in
  let df := ensure_column "AI_Decision_Reason" (Val (VStr "")) df in
  let df := ensure_column "Confidence_Score" (Val (VFloat (Fin (inject_Z 0)))) df in
  let df := ensure_column "Last_Processed_On" (Val VNone) df in
  let df := ensure_column "Processing_Version" (Val VNone) df in
  ensure_column "Rule_Applied" (Val VNone) df.

(** The validation loop: the first pair it rejects, if any. *)
Fixpoint validate_updates (updates : dict) : option exn :=
  match updates with
  | [] => None
  | (col, val) :: rest =>
      match dropdown col DROPDOWNS with
      | Some allowed =>
          if truthy val && negb (String.eqb (strip (py_str R val)) "")
          then if value_in val allowed then validate_updates rest
               else Some (InvalidValue col val)
          else validate_updates rest
      | None => validate_updates rest
      end
  end.

(** [df.iloc[r, df.columns.get_loc(col)] = c] for a column that exists;
    nothing for one that does not. *)
Definition set_cell (r : nat) (col : string) (c : cell) (df : DataFrame) : DataFrame :=
  match get_loc col (columns df) with
  | Some j => iloc_set r j c df
  | None => df
  end.

(** The write loop: "Only update columns that have non-empty values". *)
Fixpoint apply_updates (r : nat) (updates : dict) (df : DataFrame) : DataFrame :=
  match updates with
  | [] => df
  | (col, val) :: rest =>
      apply_updates r rest (if truthy val then set_cell r col (Val val) df else df)
  end.

(** The four audit assignments that follow the write loop. *)
Definition stamp_audit (r : nat) (reason : string) (confidence : pyfloat) (df : DataFrame)
  : DataFrame :=
  let df := set_cell r "Is_Processed" (Val (VStr "Yes")) df in
  let df := set_cell r "AI_Decision_Reason" (Val (VStr reason)) df in
  let df := set_cell r "Confidence_Score" (Val (VFloat confidence)) df in
  set_cell r "Last_Processed_On" (Timestamp (now E)) df.

Definition update_employee_row (row : Z) (updates : dict) (reason : string)
    (confidence : pyfloat) : M unit :=
  (if backup_enabled C then create_backup else ret tt) ;;;
  df <~ read_excel ;;
  if (row <? 0)%Z || (Z.of_nat (length (rows df)) <=? row)%Z
  then raise (InvalidRowId row)
  else
    let df := ensure_required_columns df in
    match validate_updates updates with
    | Some e => raise e
    | None =>
        let df := apply_updates (Z.to_nat row) updates df in
        let df := stamp_audit (Z.to_nat row) reason confidence df in
        to_excel df
    end.

(** ** The MCP session between agent and server *)

(** One request of the session; it raises in the agent when the transport
    fails, and then the server runs nothing. *)
Definition round_trip {A} (name : string) (server : M A) : M (CallToolResult A) :=
  fun w =>
    let n := count_events is_round_trip (trace w) in
    let w := emit (EvRoundTrip name) w in
    if transport_ok E n
    then match server w with
         | (Ok a, w') => (Ok (ToolOk a), w')
         | (Raise e, w') => (Ok (ToolError e), w')
         end
    else (Raise McpError, w).

(** mcp_server/server.py: the two tools the agent calls. *)
Definition fetch_all_employees : M (CallToolResult (list employee)) :=
  round_trip "fetch_all_employees" get_all_employees.

Definition apply_employee_update (row : Z) (updates : dict) (reason : string)
    (confidence : pyfloat) : M (CallToolResult unit) :=
  round_trip "apply_employee_update" (update_employee_row row updates reason confidence).

(** ** agent/employee_agent.py: the oracle client *)

(** "Strip markdown code blocks if present" *)
Definition strip_code_fence (content : string) : string :=
  let content := strip content in
  let content :=
    if startswith "```json" content then str_drop 7 content
    else if startswith "```" content then str_drop 3 content
    else content in
  let content := if endswith "```" content then str_drop_end 3 content else content in
  strip content.

Definition request_decision (employee_row : dict) (w : world) : attempt * world :=
  let n := count_events is_request (trace w) in
  let w := emit (EvRequest employee_row) w in
  match completion E n with
  | None => (RequestFailed, w)
  | Some content =>
      match json_loads R (strip_code_fence content) with
      | Some decision => (Parsed decision, w)
      | None => (Unparseable, w)
      end
  end.

(** [time.sleep(secs)]: it raises [ValueError] on a negative length and
    has not slept then. *)
Definition sleep (secs : Z) : M unit :=
  fun w => if (secs <? 0)%Z then (Raise SleepError, w) else (Ok tt, emit (EvSleep secs) w).

(** [llm_decide(employee_row, retry_count)]. The inner handler (for
    [JSONDecodeError]) stands inside the outer [try], so what it raises,
    out of its [time.sleep] or out of its recursive call, reaches the
    outer handler; what the outer handler raises leaves the function. *)
Equations? llm_decide (employee_row : dict) (retry_count : nat) (w : world)
  : result json * world by wf (max_retries C - retry_count) lt :=
llm_decide employee_row retry_count w :=
  let tried :=
    match request_decision employee_row w with
    | (Parsed decision, w1) => (Ok decision, w1)
    | (Unparseable, w1) =>
        match lt_dec retry_count (max_retries C) with
        | left _ =>
            match sleep (retry_delay C) w1 with
            | (Ok _, w1') => llm_decide employee_row (S retry_count) w1'
            | (Raise e, w1') => (Raise e, w1')
            end
        | right _ => (Raise JSONDecodeError, w1)
        end
    | (RequestFailed, w1) => (Raise APIError, w1)
    end in
  match tried with
  | (Ok decision, w2) => (Ok decision, w2)
  | (Raise e, w2) =>
      match lt_dec retry_count (max_retries C) with
      | left _ =>
          match sleep (retry_delay C) w2 with
          | (Ok _, w2') => llm_decide employee_row (S retry_count) w2'
          | (Raise e', w2') => (Raise e', w2')
          end
      | right _ => (Raise e, w2)
      end
  end.
Proof. all: lia. Qed.

(** ** agent/employee_agent.py: one row of [run_agent] *)

(** "Calculate Experience_Years from DOJ". The record reaches the agent as
    JSON, so [doj] is a scalar; of the [isinstance] chain only the string
    branch can assign [doj_date]. *)
Definition calculated_experience (doj : value) : option pyfloat :=
  if truthy doj then
    match doj with
    | VStr s =>
        match to_datetime_date R s with
        | Some doj_date =>
            let days := (today E - doj_date)%Z in
            Some (Fin (py_round1 (Qdiv (inject_Z days) (36525 # 100))))
        | None => None
        end
    | _ => None
    end
  else None.

(** The state of [updates] and [needs_update] after the experience block. *)
Definition stage_experience (data : dict) : dict * bool :=
  match calculated_experience (dget "DOJ" VNone data) with
  | Some x => (dset "Experience_Years" (VFloat x) [], true)
  | None => ([], false)
  end.

(** [experience_for_decision], written back into [data] when not [None]. *)
Definition data_for_decision (data : dict) : dict :=
  let experience_for_decision :=
    match calculated_experience (dget "DOJ" VNone data) with
    | Some x => VFloat x
    | None => dget "Experience_Years" VNone data
    end in
  match experience_for_decision with
  | VNone => data
  | v => dset "Experience_Years" v data
  end.

(** [str(decision.get(key, default)).strip()] *)
Definition decision_get (decision : json) (key : string) (default : value) : M value :=
  match decision with
  | JObject d => ret (dget key default d)
  | JOther => raise AttributeError
  end.

Definition decision_text (decision : json) (key : string) : M string :=
  v <~ decision_get decision key (VStr "") ;;
  ret (strip (py_str R v)).

(** The test of the first branch on the current value. *)
Definition is_blank (current : value) : bool :=
  negb (truthy current) || isna current || String.eqb (strip (py_str R current)) "".

(** One of the three "Check Department / Designation / Salary_Band" blocks. *)
Definition merge_field (col : string) (data : dict) (decided : string)
    (st : dict * bool) : dict * bool :=
  let current := dget col VNone data in
  if is_blank current && negb (String.eqb decided "") then
    (dset col (VStr decided) (fst st), true)
  else if truthy current && negb (String.eqb decided "")
          && negb (String.eqb (strip (py_str R current)) (strip decided)) then
    (dset col (VStr decided) (fst st), true)
  else st.

Definition stage_classification (data : dict) (dept designation salary_band : string)
    (st : dict * bool) : dict * bool :=
  let st := merge_field "Department" data dept st in
  let st := merge_field "Designation" data designation st in
  merge_field "Salary_Band" data salary_band st.

Definition system_columns : list string :=
  [ "Is_Processed"; "AI_Decision_Reason"; "Confidence_Score"; "Last_Processed_On";
    "Processing_Version"; "Rule_Applied"; "Emp_ID"; "Name"; "DOJ"; "Role"; "Status" ].

(** The comprehensive scan: the columns it reports as empty with nothing
    to fill them. *)
Fixpoint scan_empty_columns (items : dict) (updates : dict) : list string :=
  match items with
  | [] => []
  | (col_name, col_value) :: rest =>
      if existsb (String.eqb col_name) system_columns then scan_empty_columns rest updates
      else if (isna col_value || String.eqb (strip (py_str R col_value)) "")
              && negb (dmem col_name updates)
           then col_name :: scan_empty_columns rest updates
           else scan_empty_columns rest updates
  end.

(** The body of the per-row [try]. The comprehensive scan stands between
    the staging and the skip test; it writes debug lines and nothing else,
    so the body has no step for it. *)
Definition process_row (item : employee) : M row_outcome :=
  let st := stage_experience (data item) in
  let data := data_for_decision (data item) in
  decision <~ llm_decide data 0 ;;
  dept <~ decision_text decision "Department" ;;
  designation <~ decision_text decision "Designation" ;;
  salary_band <~ decision_text decision "Salary_Band" ;;
  let st := stage_classification data dept designation salary_band st in
  if negb (snd st) && match fst st with [] => true | _ => false end
  then ret Skipped
  else
    reason <~ decision_get decision "Reason" (VStr "") ;;
    confidence <~ decision_get decision "Confidence" (VFloat (Fin (inject_Z 0))) ;;
    match py_float R confidence with
    | None => raise ConversionError
    | Some confidence =>
        result <~ apply_employee_update (row_id item) (fst st) (py_str R reason) confidence ;;
        match result with
        | ToolError _ => ret Rejected
        | ToolOk _ => ret Updated
        end
    end.

(** [stats["success"] += 1], [stats["failed"] += 1], [stats["skipped"] += 1] *)
Definition add_success (st : stats) : stats :=
  {| total := total st; success := S (success st); failed := failed st; skipped := skipped st |}.
Definition add_failed (st : stats) : stats :=
  {| total := total st; success := success st; failed := S (failed st); skipped := skipped st |}.
Definition add_skipped (st : stats) : stats :=
  {| total := total st; success := success st; failed := failed st; skipped := S (skipped st) |}.

(** The counter a row ends in; [except Exception] counts it as failed. *)
Definition count_row (o : result row_outcome) (st : stats) : stats :=
  match o with
  | Ok Updated => add_success st
  | Ok Skipped => add_skipped st
  | Ok Rejected | Raise _ => add_failed st
  end.

(** One iteration of the loop, with its [except Exception]. *)
Definition process_employee (item : employee) (acc : stats * world) : stats * world :=
  let '(o, w) := process_row item (snd acc) in
  (count_row o (fst acc), w).

(** [for idx, item in enumerate(employees, 1)] *)
Fixpoint process_all (employees : list employee) (acc : stats * world) : stats * world :=
  match employees with
  | [] => acc
  | item :: rest => process_all rest (process_employee item acc)
  end.

(** ** agent/employee_agent.py: [run_agent] *)

Definition initial_stats : stats :=
  {| total := 0; success := 0; failed := 0; skipped := 0 |}.

Definition set_total (n : nat) (st : stats) : stats :=
  {| total := n; success := success st; failed := failed st; skipped := skipped st |}.

(** Opening the session: [stdio_client], [initialize], [list_tools]. *)
Definition open_session : M unit :=
  _ <~ round_trip "initialize" (ret tt) ;;
  _ <~ round_trip "list_tools" (ret tt) ;;
  ret tt.

(** The body of the outer [try], with the [stats] it leaves behind. *)
Definition agent_body (w : world) : result unit * stats * world :=
  match open_session w with
  | (Raise e, w) => (Raise e, initial_stats, w)
  | (Ok _, w) =>
      match fetch_all_employees w with
      | (Raise e, w) => (Raise e, initial_stats, w)
      | (Ok result, w) =>
          let employees :=
            match result with
            | ToolError _ => []
            | ToolOk employees => employees
            end in
          let st := set_total (length employees) initial_stats in
          if (total st =? 0)%nat then (Ok tt, st, w)
          else let '(st, w) := process_all employees (st, w) in (Ok tt, st, w)
      end
  end.

(** [run_agent]: the body, the outer [except] that logs and re-raises, and
    the [finally] that prints the summary. *)
Definition run_agent (w : world) : result unit * world :=
  let start_time := wall E (length (trace w)) in
  let '(r, st, w) := agent_body w in
  let w := match r with Raise _ => emit EvFatal w | Ok _ => w end in
  let elapsed_time := (wall E (length (trace w)) - start_time)%Z in
  (r, emit (EvSummary st elapsed_time) w).

(** main.py: the exit status of the process. *)
Definition main (w : world) : Z * world :=
  match run_agent w with
  | (Ok _, w) => (0%Z, w)
  | (Raise _, w) => (1%Z, w)
  end.

End Program.

(** * The rest of the code *)

(** ** mcp_server/tools.py: the tools the agent does not call *)

(** What the two maintenance tools return: [{"status": "success", ...}]
    with the number its message reports, or [{"status": "error", ...}]. *)
Inductive tool_status :=
| StatusSuccess (count : nat)
| StatusError.

(** [series.fillna(default)] on one cell. *)
Definition fillna (default : value) (c : cell) : cell :=
  match c with
  | Val v => if isna v then Val default else c
  | Timestamp _ => c
  end.

(** [c != s] for a string [s]: only the string [s] itself is equal. *)
Definition cell_ne (c : cell) (s : string) : bool :=
  match c with
  | Val (VStr s') => negb (String.eqb s' s)
  | _ => true
  end.

(** [df[col] = c] for a scalar [c]: every cell of a column that exists, a
    new last column otherwise. *)
Definition set_column (col : string) (c : cell) (df : DataFrame) : DataFrame :=
  match get_loc col (columns df) with
  | Some j => {| columns := columns df; rows := (fun row => <[j := c]> row) <$> rows df |}
  | None => {| columns := columns df ++ [col];
               rows := (fun row => row ++ [c]) <$> rows df |}
  end.

(** [try: ... except Exception as e: return {"status": "error", ...}] *)
Definition caught (body : M tool_status) (w : world) : tool_status * world :=
  match body w with
  | (Ok status, w') => (status, w')
  | (Raise _, w') => (StatusError, w')
  end.

Section Maintenance.

Variable R : runtime.
Variable E : environment.
Variable C : config.

(** [Timestamp.date()] as a day number. *)
Variable timestamp_date : Z -> Z.

Local Open Scope py_scope.

(** The rows [get_unprocessed_employees] keeps, each with its position in
    the whole frame: all of them without an Is_Processed column,
    [df[df["Is_Processed"].fillna("No") != "Yes"]] with one. A frame read
    by pandas has a cell for every column; a missing one counts as NaN. *)
Definition unprocessed_rows (df : DataFrame) : list (nat * list cell) :=
  match get_loc "Is_Processed" (columns df) with
  | None => imap pair (rows df)
  | Some j =>
      List.filter
        (fun ir => cell_ne (fillna (VStr "No") (default (Val VNone) (snd ir !! j))) "Yes")
        (imap pair (rows df))
  end.

Definition get_unprocessed_employees : M (list employee) :=
  df <~ read_excel ;;
  ret ((fun ir => {| row_id := Z.of_nat (fst ir); data := row_dict R (columns df) (snd ir) |})
         <$> unprocessed_rows df).

(** The date the loop of [update_experience_from_doj] has in [doj] when it
    reaches "Calculate years of experience"; [None] where it goes on to the
    next row: a missing value, a string the parser rejects (with
    [ValueError] or [TypeError], as pandas' parser does), a scalar that is
    neither a string nor a timestamp. *)
Definition doj_date (doj : cell) : option Z :=
  match doj with
  | Val v =>
      if isna v then None
      else match v with
           | VStr s => to_datetime_date R s
           | _ => None
           end
  | Timestamp t => Some (timestamp_date t)
  end.

(** [round((today - doj).days / 365.25, 1)] *)
Definition experience_years (doj : Z) : pyfloat :=
  Fin (py_round1 (Qdiv (inject_Z (today E - doj)) (36525 # 100))).

(** One pass of [for row_idx in range(len(df))], on the frame and
    [updated_count]. *)
Definition refresh_row (doj_col_idx exp_col_idx : nat) (acc : DataFrame * nat) (row_idx : nat)
  : DataFrame * nat :=
  match (rows (fst acc) !! row_idx ≫= fun row => row !! doj_col_idx) ≫= doj_date with
  | Some doj =>
      (iloc_set row_idx exp_col_idx (Val (VFloat (experience_years doj))) (fst acc),
       S (snd acc))
  | None => acc
  end.

Definition update_experience_from_doj : world -> tool_status * world :=
  caught (
    (if backup_enabled C then create_backup E else ret tt) ;;;
    df <~ read_excel ;;
    match get_loc "DOJ" (columns df) with
    | None => ret StatusError
    | Some _ =>
        let df := ensure_column "Experience_Years" (Val (VFloat (Fin (inject_Z 0)))) df in
        match get_loc "DOJ" (columns df), get_loc "Experience_Years" (columns df) with
        | Some doj_col_idx, Some exp_col_idx =>
            let acc := foldl (refresh_row doj_col_idx exp_col_idx) (df, 0)
                             (seq 0 (length (rows df))) in
            to_excel E (fst acc) ;;;
            ret (StatusSuccess (snd acc))
        | _, _ => ret StatusError   (* [get_loc] raises, the outer handler returns *)
        end
    end).

Definition reset_processed_flag_for_reprocessing : world -> tool_status * world :=
  caught (
    (if backup_enabled C then create_backup E else ret tt) ;;;
    df <~ read_excel ;;
    let df := ensure_column "Is_Processed" (Val (VStr "No")) df in
    let df := set_column "Is_Processed" (Val (VStr "No")) df in
    let reset_count := length (rows df) in
    to_excel E df ;;;
    ret (StatusSuccess reset_count)).

(** mcp_server/server.py: the other three tools. A maintenance tool
    returns its status dict, so the call never has [isError]. *)
Definition fetch_unprocessed : M (CallToolResult (list employee)) :=
  round_trip E "fetch_unprocessed" get_unprocessed_employees.

Definition update_experience : M (CallToolResult tool_status) :=
  round_trip E "update_experience"
    (fun w => let '(status, w') := update_experience_from_doj w in (Ok status, w')).

Definition reset_processed_flag : M (CallToolResult tool_status) :=
  round_trip E "reset_processed_flag"
    (fun w => let '(status, w') := reset_processed_flag_for_reprocessing w in (Ok status, w')).

End Maintenance.

(** ** utils/config_loader.py *)

(** What [yaml.safe_load] returns, and what the configuration is made of:
    scalars, lists and mappings with string keys in insertion order. *)
#[local] Unset Elimination Schemes.
Inductive yaml :=
| YScalar (v : value)
| YList (items : list yaml)
| YDict (entries : list (string * yaml)).
#[local] Set Elimination Schemes.

(** [d.get(k)] and [d[k] = v] on a mapping. *)
Fixpoint yget (k : string) (d : list (string * yaml)) : option yaml :=
  match d with
  | [] => None
  | (k', v) :: d' => if String.eqb k k' then Some v else yget k d'
  end.

Fixpoint yset (k : string) (v : yaml) (d : list (string * yaml)) : list (string * yaml) :=
  match d with
  | [] => [(k, v)]
  | (k', v') :: d' => if String.eqb k k' then (k, v) :: d' else (k', v') :: yset k v d'
  end.

(** Truth value of a document, as [yaml.safe_load(f) or {}] tests it. *)
Definition yaml_truthy (y : yaml) : bool :=
  match y with
  | YScalar v => truthy v
  | YList items => match items with [] => false | _ => true end
  | YDict entries => match entries with [] => false | _ => true end
  end.

(** What one pass of the loop of [_merge_dicts] stores under [key]:
    the merge of [result[key]] and [value] when both are mappings, [value]
    otherwise. *)
Fixpoint merged (current : option yaml) (value : yaml) {struct value} : yaml :=
  match current, value with
  | Some (YDict base), YDict override =>
      YDict ((fix loop (result : list (string * yaml)) (items : list (string * yaml)) :=
                match items with
                | [] => result
                | (key, value) :: items' =>
                    loop (yset key (merged (yget key result) value) result) items'
                end) base override)
  | _, _ => value
  end.

Definition _merge_dicts (base override : list (string * yaml)) : list (string * yaml) :=
  foldl (fun result kv => yset (fst kv) (merged (yget (fst kv) result) (snd kv)) result)
        base override.

(** The configuration file as [load_config] meets it. *)
Inductive config_file :=
| NoFile                      (* [config_file.exists()] is false *)
| Unloadable                  (* [open] or [yaml.safe_load] raises *)
| Loaded (document : yaml).

(** The two environment variables [load_config] reads. *)
Record getenv := {
  EXCEL_PATH : option string;
  OPENAI_MODEL : option string
}.

Definition default_config_dict : list (string * yaml) :=
  [ ("excel_path", YScalar (VStr "data/employees_mcp.xlsx"));
    ("openai", YDict [ ("model", YScalar (VStr "gpt-4o-mini"));
                       ("temperature", YScalar (VInt 0));
                       ("max_retries", YScalar (VInt 3));
                       ("retry_delay", YScalar (VInt 2)) ]);
    ("processing", YDict [ ("batch_size", YScalar (VInt 10));
                           ("backup_before_update", YScalar (VBool true));
                           ("backup_directory", YScalar (VStr "backups")) ]);
    ("logging", YDict [ ("level", YScalar (VStr "INFO"));
                        ("file", YScalar (VStr "logs/mcp_server.log"));
                        ("console", YScalar (VBool true)) ]);
    ("rules", YDict [ ("designation", YDict [ ("intern_max_years", YScalar (VInt 2));
                                              ("junior_max_years", YScalar (VInt 4));
                                              ("senior_max_years", YScalar (VInt 7));
                                              ("lead_min_years", YScalar (VInt 8)) ]);
                      ("salary_band", YDict [ ("l1_max_years", YScalar (VInt 3));
                                              ("l2_max_years", YScalar (VInt 6));
                                              ("l3_min_years", YScalar (VInt 7)) ]) ]) ].

(** [os.getenv(name)] as a condition: set and not empty. *)
Definition env_set (v : option string) : option string :=
  match v with
  | Some s => if String.eqb s "" then None else Some s
  | None => None
  end.

(** [load_config]; [None] when it raises: the assignment
    [config["openai"]["model"] = ...] on something that takes no item
    assignment. *)
Definition load_config (file : config_file) (env : getenv) : option (list (string * yaml)) :=
  let config :=
    match file with
    | NoFile => default_config_dict
    | Unloadable => default_config_dict
    | Loaded document =>
        let file_config := if yaml_truthy document then document else YDict [] in
        match file_config with
        | YDict override => _merge_dicts default_config_dict override
        | _ => default_config_dict   (* [override.items()] raises, the handler warns *)
        end
    end in
  let config :=
    match env_set (EXCEL_PATH env) with
    | Some path => yset "excel_path" (YScalar (VStr path)) config
    | None => config
    end in
  match env_set (OPENAI_MODEL env) with
  | Some model =>
      match yget "openai" config with
      | Some (YDict openai) =>
          Some (yset "openai" (YDict (yset "model" (YScalar (VStr model)) openai)) config)
      | _ => None
      end
  | None => Some config
  end.

(** [config.get(section, {}).get(key, default)], the way the modules read
    their settings; [None] when the section is no mapping and [.get]
    raises. *)
Definition setting (section key : string) (default : yaml) (config : list (string * yaml))
  : option yaml :=
  match yget section config with
  | None => Some default
  | Some (YDict entries) =>
      Some (match yget key entries with Some v => v | None => default end)
  | Some _ => None
  end.

(** * Vocabulary of the properties and of the examples *)

(** ** Trimming *)

(** [l] starts with no character that [drop_chars] drops. *)
Definition kept (p1 : ascii -> bool) (p2 : ascii -> ascii -> bool)
    (p3 : ascii -> ascii -> ascii -> bool) (l : list ascii) : Prop :=
  match l with
  | [] => True
  | a :: l1 =>
      p1 a = false /\
      match l1 with
      | [] => True
      | b :: l2 =>
          p2 a b = false /\
          match l2 with
          | [] => True
          | c :: _ => p3 a b c = false
          end
      end
  end.

(** The no-break space U+00A0 and the em space U+2003, as their bytes. *)
Definition no_break_space : string :=
  String (ascii_of_nat 194) (String (ascii_of_nat 160) "").

Definition em_space : string :=
  String (ascii_of_nat 226) (String (ascii_of_nat 128) (String (ascii_of_nat 131) "")).

(** ** Reading dicts and frames *)

(** [d.get(k)] as an option: [None] for a key that is not there. *)
Fixpoint dfind (k : string) (d : dict) : option value :=
  match d with
  | [] => None
  | (k', v) :: d' => if String.eqb k k' then Some v else dfind k d'
  end.

(** The value the write loop leaves in column [col]: the last pair for
    [col] whose value is truthy. *)
Fixpoint last_write (col : string) (updates : dict) : option value :=
  match updates with
  | [] => None
  | (c, v) :: rest =>
      match last_write col rest with
      | Some v' => Some v'
      | None => if String.eqb c col && truthy v then Some v else None
      end
  end.

(** The columns the audit assignments write. *)
Definition audit_columns : list string :=
  ["Is_Processed"; "AI_Decision_Reason"; "Confidence_Score"; "Last_Processed_On"].

(** The columns "Ensure required columns exist" creates when missing. *)
Definition required_audit_columns : list string :=
  [ "Is_Processed"; "AI_Decision_Reason"; "Confidence_Score"; "Last_Processed_On";
    "Processing_Version"; "Rule_Applied" ].

(** The frame a successful [update_employee_row] writes. *)
Definition updated_frame (E : environment) (row : Z) (updates : dict) (reason : string)
    (confidence : pyfloat) (df : DataFrame) : DataFrame :=
  stamp_audit E (Z.to_nat row) reason confidence
    (apply_updates (Z.to_nat row) updates (ensure_required_columns df)).

(** The value the agent sees for column [col] of row [r]. *)
Definition field (R : runtime) (df : DataFrame) (r : nat) (col : string) : value :=
  match cell_at df r col with
  | Some c => convert_to_json_serializable R c
  | None => VNone
  end.

(** ** Counting events *)

(** The world after a sleep of [secs] seconds. *)
Definition slept (secs : Z) (w : world) : world := emit (EvSleep secs) w.

(** The world after the backup step of a tool: one more event when
    backups are enabled and the copy succeeds. *)
Definition backed_up (E : environment) (C : config) (w : world) : world :=
  if backup_enabled C && backup_ok E (length (trace w)) then emit EvBackup w else w.

(** How many requests to the oracle, sleeps, MCP round trips and attempts
    to save the trace of [w] holds. *)
Definition requests (w : world) : nat := count_events is_request (trace w).
Definition sleeps (w : world) : nat := count_events is_sleep (trace w).
Definition round_trips (w : world) : nat := count_events is_round_trip (trace w).
Definition saves (w : world) : nat := count_events is_save (trace w).

(** [w'] comes after [w] by requests to the oracle and sleeps alone: the
    workbook is the same and no other event happened. *)
Definition oracle_only (w w' : world) : Prop :=
  file w' = file w /\ round_trips w' = round_trips w /\ saves w' = saves w.

(** The rows a run has counted. *)
Definition counted (st : stats) : nat := success st + failed st + skipped st.

(** ** The oracle client *)

(** What the [n]-th request yields. *)
Definition nth_attempt (R : runtime) (E : environment) (n : nat) : attempt :=
  match completion E n with
  | None => RequestFailed
  | Some content =>
      match json_loads R (strip_code_fence content) with
      | Some decision => Parsed decision
      | None => Unparseable
      end
  end.

(** Every request from [w] up to [w'] failed, and one sleep went before
    each request but the first. *)
Definition all_failed (R : runtime) (E : environment) (w w' : world) : Prop :=
  requests w < requests w' /\
  sleeps w' + requests w + 1 = sleeps w + requests w' /\
  forall n d, requests w <= n < requests w' -> nth_attempt R E n <> Parsed d.

(** What a call of [llm_decide] that starts in [w] has done when it ends
    in [w'] with [r]: a returned decision is the one the last request
    parsed, every request before it failed, and a raise means that every
    request failed. *)
Definition llm_decide_post (R : runtime) (E : environment) (w : world) (r : result json) (w' : world) : Prop :=
  match r with
  | Ok decision =>
      requests w < requests w' /\
      sleeps w' + requests w + 1 = sleeps w + requests w' /\
      (forall n d, requests w <= n < pred (requests w') -> nth_attempt R E n <> Parsed d) /\
      nth_attempt R E (pred (requests w')) = Parsed decision
  | Raise _ => all_failed R E w w'
  end.

(** ** Reconciliation *)

Definition classification_columns : list string :=
  ["Department"; "Designation"; "Salary_Band"].

(** The text the agent takes from the decision for [key]. *)
Definition decided (R : runtime) (d : dict) (key : string) : string :=
  strip (py_str R (dget key (VStr "") d)).

(** [updates] and [needs_update] of a row when the loop reaches the skip
    test, for the record [data] and the decision object [d]. *)
Definition staged (R : runtime) (E : environment) (data d : dict) : dict * bool :=
  stage_classification R (data_for_decision R E data)
    (decided R d "Department") (decided R d "Designation") (decided R d "Salary_Band")
    (stage_experience R E data).

(** Whether a block stages its field. *)
Definition stages (R : runtime) (current : value) (decision : string) : bool :=
  negb (String.eqb decision "") &&
  (is_blank R current || negb (String.eqb (strip (py_str R current)) (strip decision))).


(** ** The per-field policy in the words of the specification *)

(** The reading of "empty" in the specification: null, NaN, or
    whitespace-only after trimming. *)
Definition spec_empty (R : runtime) (v : value) : bool :=
  isna v || String.eqb (strip (py_str R v)) "".

(** The per-field policy as the specification words it. *)
Definition spec_merge_field (R : runtime) (col : string) (data : dict) (decision : string)
    (st : dict * bool) : dict * bool :=
  let current := dget col VNone data in
  if spec_empty R current && negb (String.eqb decision "") then
    (dset col (VStr decision) (fst st), true)
  else if negb (spec_empty R current) && negb (String.eqb decision "")
          && negb (String.eqb (strip (py_str R current)) (strip decision)) then
    (dset col (VStr decision) (fst st), true)
  else st.

(** ** A runtime and surroundings for the examples *)

(** Decimal digits. *)
Definition digit (c : ascii) : option Z :=
  let n := nat_of_ascii c in
  if (48 <=? n)%nat && (n <=? 57)%nat then Some (Z.of_nat (n - 48)) else None.

Fixpoint number (cs : list ascii) (acc : Z) : option Z :=
  match cs with
  | [] => Some acc
  | c :: cs' => match digit c with
                | Some d => number cs' (10 * acc + d)%Z
                | None => None
                end
  end.

(** The day number of a civil date, counted from 1970-01-01. *)
Definition days_from_civil (y m d : Z) : Z :=
  let y := if (m <=? 2)%Z then (y - 1)%Z else y in
  let era := (y / 400)%Z in
  let yoe := (y - era * 400)%Z in
  let doy := ((153 * (if (2 <? m)%Z then m - 3 else m + 9) + 2) / 5 + d - 1)%Z in
  let doe := (yoe * 365 + yoe / 4 - yoe / 100 + doy)%Z in
  (era * 146097 + doe - 719468)%Z.

(** Dates written [YYYY-MM-DD], alone or followed by a time. *)
Definition iso_date (s : string) : option Z :=
  match list_ascii_of_string s with
  | y1 :: y2 :: y3 :: y4 :: "-"%char :: m1 :: m2 :: "-"%char :: d1 :: d2 :: rest =>
      match number [y1; y2; y3; y4] 0, number [m1; m2] 0, number [d1; d2] 0 with
      | Some y, Some m, Some d =>
          if (1 <=? m)%Z && (m <=? 12)%Z && (1 <=? d)%Z && (d <=? 31)%Z
             && match rest with
                | [] => true
                | c :: _ => Ascii.eqb c "T" || Ascii.eqb c " "
                end
          then Some (days_from_civil y m d) else None
      | _, _, _ => None
      end
  | _ => None
  end.

(** Floats with one decimal, printed as Python prints them. *)
Definition one_decimal (q : Q) : string :=
  let t := round_half_even (10 * Qnum q) (Qden q) in
  (if (t <? 0)%Z then "-" else "") +:+ pretty (Z.abs t / 10)%Z +:+ "." +:+ pretty (Z.abs t mod 10)%Z.

(** An example runtime: ISO dates, one-decimal floats, and a decoder that
    knows the given answers and rejects every other text. *)
Definition example_runtime (answers : list (string * json)) : runtime :=
  {| float_repr := one_decimal;
     float_of_str := fun _ => None;
     to_datetime_date := iso_date;
     isoformat := fun t => pretty t;
     json_loads := fun s =>
       snd <$> List.find (fun a => String.eqb s (fst a)) answers |}.

(** Surroundings in which every request gets the same answer, the
    transport works and the workbook can be copied and saved. *)
Definition steady (answer : option string) (today_is : Z) : environment :=
  {| completion := fun _ => answer;
     transport_ok := fun _ => true;
     save_ok := fun _ => true;
     backup_ok := fun _ => true;
     today := today_is;
     now := 0;
     wall := fun n => Z.of_nat n |}.

(** [wf_frame] as a test. *)
Definition wf_frameb (df : DataFrame) : bool :=
  bool_decide (NoDup (columns df))
  && forallb (fun row => (length row =? length (columns df))%nat) (rows df).

(** ** Example data *)

(** A workbook with the columns of the real one that matter here, and its
    rows. *)
Definition example_columns : list string :=
  [ "Name"; "DOJ"; "Experience_Years"; "Department"; "Designation"; "Salary_Band";
    "Is_Processed"; "AI_Decision_Reason"; "Confidence_Score"; "Last_Processed_On";
    "Processing_Version"; "Rule_Applied" ].

Definition example_row (doj experience department designation band processed : value)
  : list cell :=
  [ Val (VStr "Asha"); Val doj; Val experience; Val department; Val designation; Val band;
    Val processed; Val (VStr ""); Val (VFloat (Fin (0 # 1))); Val VNone; Val VNone; Val VNone ].

Definition example_world (table : list (list cell)) : world :=
  {| file := Some {| columns := example_columns; rows := table |}; trace := [] |}.

(** Two decisions of the oracle, the second with a department outside
    the enumeration. *)
Definition senior_web : dict :=
  [ ("Department", VStr "Web"); ("Designation", VStr "Senior"); ("Salary_Band", VStr "L2");
    ("Reason", VStr "8 yrs exp"); ("Confidence", VFloat (Fin (9 # 10))) ].

Definition senior_marketing : dict :=
  [ ("Department", VStr "Marketing"); ("Designation", VStr "Senior");
    ("Salary_Band", VStr "L2"); ("Reason", VStr "8 yrs exp");
    ("Confidence", VFloat (Fin (9 # 10))) ].

Definition example_R : runtime :=
  example_runtime [("web", JObject senior_web); ("marketing", JObject senior_marketing)].

(** 2024-01-01 *)
Definition example_today : Z := 19723.

Definition answering (content : string) : environment := steady (Some content) example_today.

(** The first record of a workbook, as the fetch tool returns it. *)
Definition first_employee (w : world) : employee :=
  match file w with
  | Some df => List.hd {| row_id := 0; data := [] |} (employees_of example_R df)
  | None => {| row_id := 0; data := [] |}
  end.

(** A record that agrees with [senior_web] and has no join date; the same
    with a join date; a record that needs filling. *)
Definition settled_without_date : world :=
  example_world [example_row VNone (VFloat (Fin (70 # 10)))
                   (VStr "Web") (VStr "Senior") (VStr "L2") (VStr "No")].

Definition settled_with_date : world :=
  example_world [example_row (VStr "2017-01-01") (VFloat (Fin (70 # 10)))
                   (VStr "Web") (VStr "Senior") (VStr "L2") (VStr "Yes")].

(** An oracle whose every answer fails to parse. *)
Definition babbling : environment := steady (Some "I think Web") example_today.

Definition unsettled : world :=
  example_world [example_row (VStr "2017-01-01") VNone
                   (VStr "") (VStr "Junior") (VStr "") (VStr "No")].

(** ** The maintenance tools *)

(** The columns "Ensure required columns exist" creates, each with the
    value it fills the new column with. *)
Definition required_defaults : list (string * cell) :=
  [ ("Is_Processed", Val (VStr "No")); ("AI_Decision_Reason", Val (VStr ""));
    ("Confidence_Score", Val (VFloat (Fin (inject_Z 0)))); ("Last_Processed_On", Val VNone);
    ("Processing_Version", Val VNone); ("Rule_Applied", Val VNone) ].

(** The date [update_experience_from_doj] works with in row [r]. *)
Definition joined_on (R : runtime) (timestamp_date : Z -> Z) (df : DataFrame) (r : nat)
  : option Z :=
  cell_at df r "DOJ" ≫= doj_date R timestamp_date.

(** A row after its pass through the loop of [update_experience_from_doj],
    and the frame after the whole loop. *)
Definition refreshed_row (R : runtime) (E : environment) (timestamp_date : Z -> Z)
    (doj_col_idx exp_col_idx : nat) (row : list cell) : list cell :=
  match row !! doj_col_idx ≫= doj_date R timestamp_date with
  | Some doj => <[exp_col_idx := Val (VFloat (experience_years E doj))]> row
  | None => row
  end.

Definition refreshed (R : runtime) (E : environment) (timestamp_date : Z -> Z)
    (doj_col_idx exp_col_idx : nat) (df : DataFrame) : DataFrame :=
  {| columns := columns df;
     rows := refreshed_row R E timestamp_date doj_col_idx exp_col_idx <$> rows df |}.

(** How many backups the trace of [w] holds. *)
Definition is_backup (e : event) : bool := match e with EvBackup => true | _ => false end.
Definition backups (w : world) : nat := count_events is_backup (trace w).

(** How many times the workbook has been written: the saves that
    succeeded. *)
Definition is_written (e : event) : bool := match e with EvSave true => true | _ => false end.
Definition written (w : world) : nat := count_events is_written (trace w).

(** ** What a row adds to the trace *)

(** The trace of [w'] is that of [w] with events in front that all
    satisfy [P]. *)
Definition grown_by (P : event -> Prop) (w w' : world) : Prop :=
  exists added, trace w' = added ++ trace w /\ Forall P added.

(** The events the body of the loop can add for [item]. *)
Definition row_event (R : runtime) (E : environment) (C : config) (item : employee)
    (e : event) : Prop :=
  match e with
  | EvRequest employee_row => employee_row = data_for_decision R E (data item)
  | EvSleep secs => secs = retry_delay C
  | EvRoundTrip tool => tool = "apply_employee_update"
  | EvBackup => backup_enabled C = true
  | EvSave _ => True
  | EvFatal => False
  | EvSummary _ _ => False
  end.

(** ** More example data *)

(** A workbook with two records, the first processed, the second not. *)
Definition mixed_frame : DataFrame :=
  {| columns := example_columns;
     rows := [ example_row (VStr "2017-01-01") (VFloat (Fin (70 # 10)))
                 (VStr "Web") (VStr "Senior") (VStr "L2") (VStr "Yes");
               example_row (VStr "2020-06-01") VNone
                 (VStr "") (VStr "Junior") (VStr "") (VStr "No") ] |}.

Definition mixed : world := {| file := Some mixed_frame; trace := [] |}.

(** A workbook without audit columns: a join date as text, one as a
    timestamp, one missing. *)
Definition bare_frame : DataFrame :=
  {| columns := ["Name"; "DOJ"; "Department"];
     rows := [ [Val (VStr "Asha"); Val (VStr "2017-01-01"); Val (VStr "")];
               [Val (VStr "Ravi"); Timestamp 1483228800; Val (VStr "Web")];
               [Val (VStr "Mina"); Val (VFloat NaN); Val (VStr "HR")] ] |}.

Definition bare : world := {| file := Some bare_frame; trace := [] |}.

(** A clock on which every timestamp falls on 2017-01-01, and a runtime
    that prints timestamps accordingly. *)
Definition new_year_2017 (t : Z) : Z := 17167.

Definition new_year_runtime : runtime :=
  {| float_repr := one_decimal;
     float_of_str := fun _ => None;
     to_datetime_date := iso_date;
     isoformat := fun _ => "2017-01-01T00:00:00";
     json_loads := fun _ => None |}.

(** The default configuration with a delay of minus one second. *)
Definition negative_delay : config :=
  {| max_retries := 3; retry_delay := -1; backup_enabled := true |}.

(** A configuration file that sets the model and nothing else, and an
    environment that overrides both variables. *)
Definition model_only : list (string * yaml) :=
  [ ("openai", YDict [ ("model", YScalar (VStr "gpt-4o")) ]) ].

Definition both_overrides : getenv :=
  {| EXCEL_PATH := Some "data/staff.xlsx"; OPENAI_MODEL := Some "gpt-4.1" |}.

(** * Properties *)

(** ** Strings *)

Section Drop_chars.

Variable p1 : ascii -> bool.
Variable p2 : ascii -> ascii -> bool.
Variable p3 : ascii -> ascii -> ascii -> bool.

Lemma drop_chars_kept_eq l : kept p1 p2 p3 l -> drop_chars p1 p2 p3 l = l.
Proof.
  destruct l as [|a [|b [|c l3]]]; cbn [kept drop_chars]; [reflexivity|..].
  - now intros [-> _].
  - now intros (-> & -> & _).
  - now intros (-> & -> & ->).
Qed.

(** Either nothing is dropped, or a first character is and the rest is
    treated in the same way. *)
Lemma drop_chars_cases l :
  kept p1 p2 p3 l \/
  exists front rest, l = front ++ rest /\ length rest < length l /\
    drop_chars p1 p2 p3 l = drop_chars p1 p2 p3 rest.
Proof.
  destruct l as [|a l1]; [now left|].
  destruct (p1 a) eqn:H1.
  { right. exists [a], l1. cbn [drop_chars]. rewrite H1.
    split; [reflexivity|]. split; [simpl; lia | reflexivity]. }
  destruct l1 as [|b l2]; [left; cbn [kept]; auto|].
  destruct (p2 a b) eqn:H2.
  { right. exists [a; b], l2. cbn [drop_chars]. rewrite H1, H2.
    split; [reflexivity|]. split; [simpl; lia | reflexivity]. }
  destruct l2 as [|c l3]; [left; cbn [kept]; auto|].
  destruct (p3 a b c) eqn:H3.
  { right. exists [a; b; c], l3. cbn [drop_chars]. rewrite H1, H2, H3.
    split; [reflexivity|]. split; [simpl; lia | reflexivity]. }
  left. cbn [kept]. auto.
Qed.

Lemma length_drop_chars l : length (drop_chars p1 p2 p3 l) <= length l.
Proof.
  induction l as [l IH] using (induction_ltof1 _ (@length ascii)). unfold ltof in IH.
  destruct (drop_chars_cases l) as [Hk|(front & rest & _ & Hlt & ->)].
  - now rewrite (drop_chars_kept_eq l Hk).
  - specialize (IH rest Hlt). lia.
Qed.

Lemma drop_chars_kept l : drop_chars p1 p2 p3 l = l <-> kept p1 p2 p3 l.
Proof.
  split; [|apply drop_chars_kept_eq].
  destruct (drop_chars_cases l) as [Hk|(front & rest & _ & Hlt & Heq)]; [trivial|].
  intros Hl. pose proof (length_drop_chars rest). rewrite <- Heq, Hl in *. lia.
Qed.

Lemma drop_chars_idem l :
  drop_chars p1 p2 p3 (drop_chars p1 p2 p3 l) = drop_chars p1 p2 p3 l.
Proof.
  induction l as [l IH] using (induction_ltof1 _ (@length ascii)). unfold ltof in IH.
  destruct (drop_chars_cases l) as [Hk|(front & rest & _ & Hlt & ->)].
  - now rewrite !(drop_chars_kept_eq l Hk).
  - now apply IH.
Qed.

(** What is dropped is dropped from the front. *)
Lemma drop_chars_suffix l : exists front, l = front ++ drop_chars p1 p2 p3 l.
Proof.
  induction l as [l IH] using (induction_ltof1 _ (@length ascii)). unfold ltof in IH.
  destruct (drop_chars_cases l) as [Hk|(front & rest & -> & Hlt & ->)].
  - exists []. now rewrite (drop_chars_kept_eq l Hk).
  - destruct (IH rest Hlt) as [front' Hrest]. exists (front ++ front').
    now rewrite <- app_assoc, <- Hrest.
Qed.

(** A list that starts with no character to drop has only such
    prefixes. *)
Lemma kept_prefix l rest : kept p1 p2 p3 (l ++ rest) -> kept p1 p2 p3 l.
Proof.
  destruct l as [|a [|b [|c l3]]]; cbn [kept app]; try tauto; destruct rest; tauto.
Qed.

End Drop_chars.

Lemma strip_chars_idem l : strip_chars (strip_chars l) = strip_chars l.
Proof.
  unfold strip_chars, drop_spaces, drop_spaces_rev.
  set (lead := drop_chars is_space is_space2 is_space3).
  set (trail := drop_chars is_space (fun b a => is_space2 a b)
                  (fun c b a => is_space3 a b c)).
  destruct (drop_chars_suffix is_space (fun b a => is_space2 a b)
              (fun c b a => is_space3 a b c) (rev (lead l))) as [back Hback].
  fold trail in Hback.
  assert (Hfix : lead (rev (trail (rev (lead l)))) = rev (trail (rev (lead l)))).
  { apply drop_chars_kept. apply (kept_prefix _ _ _ _ (rev back)).
    rewrite <- rev_app_distr, <- Hback, rev_involutive.
    apply drop_chars_kept. apply drop_chars_idem. }
  rewrite Hfix, rev_involutive. unfold trail. now rewrite drop_chars_idem.
Qed.

Lemma strip_idem s : strip (strip s) = strip s.
Proof.
  unfold strip. now rewrite list_ascii_of_string_of_list_ascii, strip_chars_idem.
Qed.

(** ** Dicts *)

Lemma dfind_dset_eq k v d : dfind k (dset k v d) = Some v.
Proof.
  induction d as [|[k' v'] d IH]; simpl.
  - now rewrite String.eqb_refl.
  - destruct (String.eqb k k') eqn:Hk; simpl; rewrite ?String.eqb_refl, ?Hk; auto.
Qed.

Lemma dfind_dset_ne k k' v d : k <> k' -> dfind k' (dset k v d) = dfind k' d.
Proof.
  intros Hne. induction d as [|[k0 v0] d IH]; simpl.
  - destruct (String.eqb_spec k' k); congruence.
  - destruct (String.eqb_spec k k0) as [->|Hk0]; simpl.
    + destruct (String.eqb_spec k' k0); congruence.
    + now rewrite IH.
Qed.

Lemma dget_dfind k default d :
  dget k default d = match dfind k d with Some v => v | None => default end.
Proof.
  induction d as [|[k' v'] d IH]; simpl; [reflexivity|].
  now destruct (String.eqb k k').
Qed.

Lemma dget_dset_ne k k' v default d :
  k <> k' -> dget k' default (dset k v d) = dget k' default d.
Proof. intros Hne. now rewrite !dget_dfind, dfind_dset_ne. Qed.

Lemma dmem_dfind k d : dmem k d = match dfind k d with Some _ => true | None => false end.
Proof.
  induction d as [|[k' v'] d IH]; simpl; [reflexivity|].
  now destruct (String.eqb k k').
Qed.

Lemma dfind_In k v d : dfind k d = Some v -> In (k, v) d.
Proof.
  induction d as [|[k' v'] d IH]; simpl; [discriminate|].
  destruct (String.eqb_spec k k') as [->|Hne].
  - intros [= ->]. now left.
  - intros H. right. auto.
Qed.

Lemma dset_not_nil k v d : dset k v d <> [].
Proof. destruct d as [|[k' v'] d]; simpl; [|destruct (String.eqb k k')]; discriminate. Qed.

Lemma dset_keys_NoDup k v d : NoDup (fst <$> d) -> NoDup (fst <$> dset k v d).
Proof.
  induction d as [|[k' v'] d IH]; simpl; intros Hd.
  - repeat constructor. intros Hin. inversion Hin.
  - inversion Hd as [|? ? Hnotin Hd']; subst.
    destruct (String.eqb_spec k k') as [->|Hne]; simpl.
    + now constructor.
    + constructor; [|auto].
      intros Hin. apply Hnotin. clear -Hin Hne.
      induction d as [|[k0 v0] d IH]; simpl in *.
      * apply list_elem_of_singleton in Hin. congruence.
      * destruct (String.eqb_spec k k0) as [->|Hk0]; simpl in *.
        -- exact Hin.
        -- apply elem_of_cons in Hin as [->|Hin]; [left | right; auto].
Qed.

(** ** The frame *)

Lemma get_loc_lookup col cols j : get_loc col cols = Some j -> cols !! j = Some col.
Proof.
  revert j. induction cols as [|c cols IH]; simpl; intros j; [discriminate|].
  destruct (String.eqb_spec col c) as [->|Hne].
  - now intros [= <-].
  - destruct (get_loc col cols) as [i|]; simpl; [|discriminate].
    intros [= <-]. simpl. now apply IH.
Qed.

Lemma get_loc_lt col cols j : get_loc col cols = Some j -> j < length cols.
Proof. intros H. apply get_loc_lookup in H. now apply lookup_lt_Some in H. Qed.

Lemma get_loc_distinct col col' cols j j' :
  col <> col' -> get_loc col cols = Some j -> get_loc col' cols = Some j' -> j <> j'.
Proof.
  intros Hne H H' ->. apply get_loc_lookup in H, H'. congruence.
Qed.

Lemma get_loc_None col cols : get_loc col cols = None <-> col ∉ cols.
Proof.
  induction cols as [|c cols IH]; simpl.
  - split; [intros _ Hin; inversion Hin | reflexivity].
  - destruct (String.eqb_spec col c) as [->|Hne].
    + split; [discriminate | intros Hn; exfalso; apply Hn; left].
    + destruct (get_loc col cols) as [i|] eqn:Hi; simpl.
      * split; [discriminate|]. intros Hn. exfalso.
        assert (Hin : col ∈ cols) by (apply list_elem_of_lookup; eauto using get_loc_lookup).
        apply Hn. now right.
      * split; [|reflexivity]. intros _ Hin.
        apply elem_of_cons in Hin as [?|Hin]; [congruence|]. now apply IH in Hin.
Qed.

Lemma get_loc_app_Some col cols l j :
  get_loc col cols = Some j -> get_loc col (cols ++ l) = Some j.
Proof.
  revert j. induction cols as [|c cols IH]; simpl; intros j; [discriminate|].
  destruct (String.eqb col c); [trivial|].
  destruct (get_loc col cols) as [i|]; simpl; [|discriminate].
  intros [= <-]. now rewrite (IH i).
Qed.

Lemma get_loc_snoc_new col cols : get_loc col cols = None ->
  get_loc col (cols ++ [col]) = Some (length cols).
Proof.
  induction cols as [|c cols IH]; simpl.
  - now rewrite String.eqb_refl.
  - destruct (String.eqb col c); [discriminate|].
    destruct (get_loc col cols); simpl; [discriminate|].
    intros _. now rewrite IH.
Qed.

Lemma get_loc_snoc_other col c cols : col <> c -> get_loc col cols = None ->
  get_loc col (cols ++ [c]) = None.
Proof.
  intros Hne. induction cols as [|c' cols IH]; simpl.
  - now destruct (String.eqb_spec col c).
  - destruct (String.eqb col c'); [discriminate|].
    destruct (get_loc col cols); simpl; [discriminate|].
    intros _. now rewrite IH.
Qed.

Lemma columns_set_cell r col c df : columns (set_cell r col c df) = columns df.
Proof. unfold set_cell. now destruct (get_loc col (columns df)). Qed.

Lemma length_rows_set_cell r col c df :
  length (rows (set_cell r col c df)) = length (rows df).
Proof.
  unfold set_cell. destruct (get_loc col (columns df)); [|reflexivity].
  simpl. apply length_alter.
Qed.

Lemma rows_set_cell_ne r r' col c df :
  r <> r' -> rows (set_cell r col c df) !! r' = rows df !! r'.
Proof.
  intros Hne. unfold set_cell. destruct (get_loc col (columns df)); [|reflexivity].
  simpl. now apply list_lookup_alter_ne.
Qed.

Lemma wf_set_cell r col c df : wf_frame df -> wf_frame (set_cell r col c df).
Proof.
  intros [Hnd Hlen]. unfold set_cell.
  destruct (get_loc col (columns df)) as [j|]; [|now split].
  split; [exact Hnd|]. simpl. apply Forall_alter; [exact Hlen|].
  intros row _ Hrow. now rewrite length_insert.
Qed.

Lemma cell_at_set_cell_eq r col c df :
  wf_frame df -> r < length (rows df) -> is_Some (get_loc col (columns df)) ->
  cell_at (set_cell r col c df) r col = Some c.
Proof.
  intros [_ Hlen] Hr [j Hj]. unfold cell_at, set_cell. rewrite Hj. simpl. rewrite Hj. simpl.
  rewrite list_lookup_alter. destruct (decide (r = r)) as [_|]; [|congruence].
  destruct (lookup_lt_is_Some_2 _ _ Hr) as [row Hrow]. rewrite Hrow. simpl.
  apply list_lookup_insert_eq.
  rewrite Forall_lookup in Hlen. rewrite (Hlen _ _ Hrow). eauto using get_loc_lt.
Qed.

Lemma cell_at_set_cell_ne r r' col col' c df :
  r <> r' \/ col <> col' -> cell_at (set_cell r col c df) r' col' = cell_at df r' col'.
Proof.
  intros Hne. unfold cell_at, set_cell.
  destruct (get_loc col (columns df)) as [j|] eqn:Hj; [|reflexivity]. simpl.
  destruct (get_loc col' (columns df)) as [j'|] eqn:Hj'; [|reflexivity]. simpl.
  rewrite list_lookup_alter. destruct (decide (r = r')) as [->|Hr]; [|reflexivity].
  destruct Hne as [?|Hcol]; [congruence|].
  destruct (rows df !! r') as [row|]; [|reflexivity]. simpl.
  apply list_lookup_insert_ne. eauto using get_loc_distinct.
Qed.

Lemma ensure_column_present col d df :
  is_Some (get_loc col (columns df)) -> ensure_column col d df = df.
Proof. intros [j Hj]. unfold ensure_column. now rewrite Hj. Qed.

Lemma ensure_column_has col d df : is_Some (get_loc col (columns (ensure_column col d df))).
Proof.
  unfold ensure_column. destruct (get_loc col (columns df)) as [j|] eqn:Hj; [eauto|].
  simpl. rewrite get_loc_snoc_new; eauto.
Qed.

Lemma ensure_column_keeps col col' d df :
  is_Some (get_loc col' (columns df)) ->
  is_Some (get_loc col' (columns (ensure_column col d df))).
Proof.
  intros [j Hj]. unfold ensure_column. destruct (get_loc col (columns df)); [eauto|].
  simpl. rewrite (get_loc_app_Some _ _ _ _ Hj). eauto.
Qed.

Lemma length_rows_ensure_column col d df :
  length (rows (ensure_column col d df)) = length (rows df).
Proof.
  unfold ensure_column. destruct (get_loc col (columns df)); [reflexivity|].
  simpl. apply length_fmap.
Qed.

Lemma wf_ensure_column col d df : wf_frame df -> wf_frame (ensure_column col d df).
Proof.
  intros [Hnd Hlen]. unfold ensure_column.
  destruct (get_loc col (columns df)) as [j|] eqn:Hj; [now split|].
  split; simpl.
  - apply NoDup_app. split; [exact Hnd|]. split.
    + intros x Hx Hin. apply list_elem_of_singleton in Hin as ->.
      now apply get_loc_None in Hj.
    + apply NoDup_singleton.
  - apply Forall_fmap. eapply Forall_impl; [exact Hlen|].
    intros row Hrow. simpl. rewrite !length_app, Hrow. reflexivity.
Qed.

Lemma cell_at_ensure_column col col' d r df :
  wf_frame df -> is_Some (get_loc col' (columns df)) ->
  cell_at (ensure_column col d df) r col' = cell_at df r col'.
Proof.
  intros [_ Hlen] [j Hj]. unfold ensure_column.
  destruct (get_loc col (columns df)); [reflexivity|].
  unfold cell_at. simpl. rewrite (get_loc_app_Some _ _ _ _ Hj), Hj. simpl.
  rewrite list_lookup_fmap. destruct (rows df !! r) as [row|] eqn:Hrow; [|reflexivity].
  simpl. apply lookup_app_l.
  rewrite Forall_lookup in Hlen. rewrite (Hlen _ _ Hrow). eauto using get_loc_lt.
Qed.

Lemma cell_at_ensure_column_absent col col' d r df :
  col <> col' -> get_loc col' (columns df) = None ->
  cell_at (ensure_column col d df) r col' = None.
Proof.
  intros Hne Hj. unfold ensure_column.
  destruct (get_loc col (columns df)); unfold cell_at; simpl.
  - now rewrite Hj.
  - rewrite get_loc_snoc_other; [reflexivity | congruence | exact Hj].
Qed.

Lemma last_write_notin col updates :
  col ∉ (fst <$> updates) -> last_write col updates = None.
Proof.
  induction updates as [|[c v] rest IH]; simpl; [reflexivity|].
  intros Hn. rewrite IH.
  - destruct (String.eqb_spec c col) as [->|]; [|reflexivity].
    exfalso. apply Hn. left.
  - intros Hin. apply Hn. now right.
Qed.

Lemma last_write_unique col val updates :
  NoDup (fst <$> updates) -> In (col, val) updates ->
  last_write col updates = if truthy val then Some val else None.
Proof.
  induction updates as [|[c v] rest IH]; simpl; [intros _ []|].
  intros Hnd Hin. inversion Hnd as [|? ? Hnotin Hnd']; subst.
  destruct Hin as [[= -> ->]|Hin].
  - rewrite (last_write_notin _ _ Hnotin), String.eqb_refl. reflexivity.
  - rewrite (IH Hnd' Hin).
    destruct (truthy val); [reflexivity|].
    destruct (String.eqb_spec c col) as [->|]; [|reflexivity].
    exfalso. apply Hnotin. apply list_elem_of_In. apply in_map_iff. now exists (col, val).
Qed.

Section Frame.

Variable E : environment.

Lemma columns_apply_updates r updates df :
  columns (apply_updates r updates df) = columns df.
Proof.
  revert df. induction updates as [|[c v] rest IH]; intros df; simpl; [reflexivity|].
  rewrite IH. destruct (truthy v); [apply columns_set_cell | reflexivity].
Qed.

Lemma length_rows_apply_updates r updates df :
  length (rows (apply_updates r updates df)) = length (rows df).
Proof.
  revert df. induction updates as [|[c v] rest IH]; intros df; simpl; [reflexivity|].
  rewrite IH. destruct (truthy v); [apply length_rows_set_cell | reflexivity].
Qed.

Lemma wf_apply_updates r updates df :
  wf_frame df -> wf_frame (apply_updates r updates df).
Proof.
  revert df. induction updates as [|[c v] rest IH]; intros df Hwf; simpl; [exact Hwf|].
  apply IH. destruct (truthy v); [now apply wf_set_cell | exact Hwf].
Qed.

Lemma rows_apply_updates_ne r r' updates df :
  r <> r' -> rows (apply_updates r updates df) !! r' = rows df !! r'.
Proof.
  intros Hne. revert df. induction updates as [|[c v] rest IH]; intros df; simpl; [reflexivity|].
  rewrite IH. destruct (truthy v); [now apply rows_set_cell_ne | reflexivity].
Qed.

Lemma cell_at_apply_updates r col updates df :
  wf_frame df -> r < length (rows df) -> is_Some (get_loc col (columns df)) ->
  cell_at (apply_updates r updates df) r col =
    match last_write col updates with
    | Some v => Some (Val v)
    | None => cell_at df r col
    end.
Proof.
  revert df. induction updates as [|[c v] rest IH]; intros df Hwf Hr Hcol; simpl; [reflexivity|].
  rewrite IH.
  - destruct (last_write col rest); [reflexivity|].
    destruct (truthy v); [|now rewrite andb_false_r].
    rewrite andb_true_r. destruct (String.eqb_spec c col) as [->|Hne].
    + now apply cell_at_set_cell_eq.
    + apply cell_at_set_cell_ne. now right.
  - destruct (truthy v); [now apply wf_set_cell | exact Hwf].
  - destruct (truthy v); [now rewrite length_rows_set_cell | exact Hr].
  - destruct (truthy v); [now rewrite columns_set_cell | exact Hcol].
Qed.

Lemma cell_at_absent df r col : get_loc col (columns df) = None -> cell_at df r col = None.
Proof. intros H. unfold cell_at. now rewrite H. Qed.

Lemma columns_stamp_audit r reason confidence df :
  columns (stamp_audit E r reason confidence df) = columns df.
Proof. unfold stamp_audit. now rewrite !columns_set_cell. Qed.

Lemma length_rows_stamp_audit r reason confidence df :
  length (rows (stamp_audit E r reason confidence df)) = length (rows df).
Proof. unfold stamp_audit. now rewrite !length_rows_set_cell. Qed.

Lemma rows_stamp_audit_ne r r' reason confidence df :
  r <> r' -> rows (stamp_audit E r reason confidence df) !! r' = rows df !! r'.
Proof. intros Hne. unfold stamp_audit. now rewrite !rows_set_cell_ne. Qed.

Lemma wf_stamp_audit r reason confidence df :
  wf_frame df -> wf_frame (stamp_audit E r reason confidence df).
Proof. intros Hwf. unfold stamp_audit. now repeat apply wf_set_cell. Qed.

Lemma cell_at_stamp_audit_other r r' reason confidence col df :
  ~ In col audit_columns ->
  cell_at (stamp_audit E r reason confidence df) r' col = cell_at df r' col.
Proof.
  intros Hcol. unfold stamp_audit.
  rewrite !cell_at_set_cell_ne; [reflexivity|..];
    right; intros <-; apply Hcol; simpl; tauto.
Qed.

Lemma stamp_audit_cells r reason confidence df :
  wf_frame df -> r < length (rows df) ->
  is_Some (get_loc "Is_Processed" (columns df)) ->
  is_Some (get_loc "AI_Decision_Reason" (columns df)) ->
  is_Some (get_loc "Confidence_Score" (columns df)) ->
  is_Some (get_loc "Last_Processed_On" (columns df)) ->
  let df' := stamp_audit E r reason confidence df in
  cell_at df' r "Is_Processed" = Some (Val (VStr "Yes")) /\
  cell_at df' r "AI_Decision_Reason" = Some (Val (VStr reason)) /\
  cell_at df' r "Confidence_Score" = Some (Val (VFloat confidence)) /\
  cell_at df' r "Last_Processed_On" = Some (Timestamp (now E)).
Proof.
  intros Hwf Hr H1 H2 H3 H4. unfold stamp_audit. cbv zeta.
  repeat split.
  - rewrite !cell_at_set_cell_ne by (right; discriminate).
    now apply cell_at_set_cell_eq.
  - rewrite !cell_at_set_cell_ne by (right; discriminate).
    apply cell_at_set_cell_eq; rewrite ?length_rows_set_cell, ?columns_set_cell;
      auto using wf_set_cell.
  - rewrite !cell_at_set_cell_ne by (right; discriminate).
    apply cell_at_set_cell_eq; rewrite ?length_rows_set_cell, ?columns_set_cell;
      auto using wf_set_cell.
  - apply cell_at_set_cell_eq; rewrite ?length_rows_set_cell, ?columns_set_cell;
      auto using wf_set_cell.
Qed.

End Frame.

Lemma wf_ensure_required df : wf_frame df -> wf_frame (ensure_required_columns df).
Proof. intros Hwf. unfold ensure_required_columns. now repeat apply wf_ensure_column. Qed.

Lemma length_rows_ensure_required df :
  length (rows (ensure_required_columns df)) = length (rows df).
Proof. unfold ensure_required_columns. now rewrite !length_rows_ensure_column. Qed.

Lemma ensure_required_keeps col df :
  is_Some (get_loc col (columns df)) ->
  is_Some (get_loc col (columns (ensure_required_columns df))).
Proof. intros H. unfold ensure_required_columns. now repeat apply ensure_column_keeps. Qed.

Lemma ensure_required_has col df :
  In col required_audit_columns ->
  is_Some (get_loc col (columns (ensure_required_columns df))).
Proof.
  unfold ensure_required_columns. simpl.
  intros [<-|[<-|[<-|[<-|[<-|[<-|[]]]]]]];
    repeat first [ apply ensure_column_has | apply ensure_column_keeps ].
Qed.

Lemma ensure_required_present df :
  (forall col, In col required_audit_columns -> is_Some (get_loc col (columns df))) ->
  ensure_required_columns df = df.
Proof.
  intros H. unfold ensure_required_columns.
  rewrite (ensure_column_present "Is_Processed" _ df) by (apply H; simpl; tauto).
  rewrite (ensure_column_present "AI_Decision_Reason" _ df) by (apply H; simpl; tauto).
  rewrite (ensure_column_present "Confidence_Score" _ df) by (apply H; simpl; tauto).
  rewrite (ensure_column_present "Last_Processed_On" _ df) by (apply H; simpl; tauto).
  rewrite (ensure_column_present "Processing_Version" _ df) by (apply H; simpl; tauto).
  apply ensure_column_present. apply H; simpl; tauto.
Qed.

Lemma cell_at_ensure_required col r df :
  wf_frame df -> is_Some (get_loc col (columns df)) ->
  cell_at (ensure_required_columns df) r col = cell_at df r col.
Proof.
  intros Hwf Hcol. unfold ensure_required_columns.
  repeat (rewrite cell_at_ensure_column;
          [ | now repeat apply wf_ensure_column | now repeat apply ensure_column_keeps ]).
  reflexivity.
Qed.

Lemma ensure_required_absent col df :
  ~ In col required_audit_columns -> get_loc col (columns df) = None ->
  get_loc col (columns (ensure_required_columns df)) = None.
Proof.
  intros Hn Hcol. unfold ensure_required_columns.
  assert (Hstep : forall c d f, In c required_audit_columns ->
            get_loc col (columns f) = None ->
            get_loc col (columns (ensure_column c d f)) = None).
  { intros c d f Hc Hf. unfold ensure_column. destruct (get_loc c (columns f)); [exact Hf|].
    simpl. apply get_loc_snoc_other; [|exact Hf]. intros ->. now apply Hn. }
  repeat (apply Hstep; [simpl; tauto|]). exact Hcol.
Qed.

Section Store.

Variable R : runtime.
Variable E : environment.
Variable C : config.

Lemma file_backed_up w : file (backed_up E C w) = file w.
Proof. unfold backed_up. now destruct (_ && _). Qed.

Lemma count_backed_up (p : event -> bool) w :
  p EvBackup = false ->
  count_events p (trace (backed_up E C w)) = count_events p (trace w).
Proof. intros Hp. unfold backed_up. destruct (_ && _); [simpl; now rewrite Hp|reflexivity]. Qed.

Lemma update_employee_row_unfold row updates reason confidence w :
  update_employee_row R E C row updates reason confidence w =
    let w1 := backed_up E C w in
    match file w with
    | None => (Raise FileError, w1)
    | Some df =>
        if (row <? 0)%Z || (Z.of_nat (length (rows df)) <=? row)%Z
        then (Raise (InvalidRowId row), w1)
        else match validate_updates R updates with
             | Some e => (Raise e, w1)
             | None => to_excel E (updated_frame E row updates reason confidence df) w1
             end
    end.
Proof.
  cbv zeta. pose proof (file_backed_up w) as Hb.
  unfold update_employee_row, bind, create_backup, read_excel, raise, ret, backed_up in *.
  destruct (backup_enabled C); cbn [andb] in *;
    [destruct (backup_ok E _)|];
    rewrite ?Hb; destruct (file w) as [df|] eqn:Hf; try reflexivity;
    destruct ((row <? 0)%Z || (Z.of_nat (length (rows df)) <=? row)%Z); try reflexivity;
    destruct (validate_updates R updates); reflexivity.
Qed.

Lemma update_employee_row_Ok row updates reason confidence w w' u :
  update_employee_row R E C row updates reason confidence w = (Ok u, w') ->
  exists df, file w = Some df /\ (0 <= row < Z.of_nat (length (rows df)))%Z /\
    validate_updates R updates = None /\
    file w' = Some (updated_frame E row updates reason confidence df).
Proof.
  rewrite update_employee_row_unfold. cbv zeta.
  destruct (file w) as [df|]; [|discriminate].
  destruct (row <? 0)%Z eqn:Hlo; simpl; [discriminate|].
  destruct (Z.of_nat (length (rows df)) <=? row)%Z eqn:Hhi; simpl; [discriminate|].
  destruct (validate_updates R updates); [discriminate|].
  unfold to_excel. destruct (save_ok E _); [|discriminate].
  intros [= _ <-]. exists df. simpl. repeat split; try lia; reflexivity.
Qed.

Lemma update_employee_row_Raise row updates reason confidence w w' e :
  update_employee_row R E C row updates reason confidence w = (Raise e, w') ->
  file w' = file w.
Proof.
  rewrite update_employee_row_unfold. cbv zeta.
  pose proof (file_backed_up w) as Hb.
  destruct (file w) as [df|] eqn:Hf; [|intros [= _ <-]; exact Hb].
  destruct ((row <? 0)%Z || (Z.of_nat (length (rows df)) <=? row)%Z);
    [intros [= _ <-]; exact Hb|].
  destruct (validate_updates R updates); [intros [= _ <-]; exact Hb|].
  unfold to_excel. destruct (save_ok E _); [discriminate|].
  intros [= _ <-]. exact Hb.
Qed.


End Store.

(** ** The oracle client *)

Lemma oracle_only_refl w : oracle_only w w.
Proof. now repeat split. Qed.

Lemma oracle_only_trans w1 w2 w3 : oracle_only w1 w2 -> oracle_only w2 w3 -> oracle_only w1 w3.
Proof. intros (?&?&?) (?&?&?). repeat split; congruence. Qed.

Lemma oracle_only_request row w : oracle_only w (emit (EvRequest row) w).
Proof. now repeat split. Qed.

Lemma oracle_only_sleep secs w : oracle_only w (slept secs w).
Proof. now repeat split. Qed.

Section Oracle.

Variable R : runtime.
Variable E : environment.
Variable C : config.

Lemma request_decision_eq row w :
  request_decision R E row w = (nth_attempt R E (requests w), emit (EvRequest row) w).
Proof.
  unfold request_decision, nth_attempt, requests.
  destruct (completion E _) as [content|]; [|reflexivity].
  now destruct (json_loads R _).
Qed.

(** The equation of [llm_decide] for a delay [time.sleep] accepts, with
    the first request made explicit. *)
Lemma llm_decide_step row k w :
  (0 <= retry_delay C)%Z ->
  llm_decide R E C row k w =
    let w1 := emit (EvRequest row) w in
    let retry w2 := llm_decide R E C row (S k) (slept (retry_delay C) w2) in
    match nth_attempt R E (requests w) with
    | Parsed decision => (Ok decision, w1)
    | Unparseable =>
        if lt_dec k (max_retries C) then
          match retry w1 with
          | (Ok decision, w2) => (Ok decision, w2)
          | (Raise _, w2) => retry w2
          end
        else (Raise JSONDecodeError, w1)
    | RequestFailed =>
        if lt_dec k (max_retries C) then retry w1 else (Raise APIError, w1)
    end.
Proof.
  intros Hpos. apply Z.ltb_ge in Hpos.
  rewrite llm_decide_equation_1, request_decision_eq. cbv zeta.
  unfold sleep, slept. rewrite Hpos.
  destruct (nth_attempt R E (requests w)); try reflexivity;
    destruct (lt_dec k (max_retries C)); reflexivity.
Qed.

(** The equation of [llm_decide] for a negative delay: the first handler
    that wants to sleep raises, and so does the second. *)
Lemma llm_decide_negative_delay row k w :
  (retry_delay C < 0)%Z ->
  llm_decide R E C row k w =
    let w1 := emit (EvRequest row) w in
    match nth_attempt R E (requests w) with
    | Parsed decision => (Ok decision, w1)
    | Unparseable =>
        if lt_dec k (max_retries C) then (Raise SleepError, w1)
        else (Raise JSONDecodeError, w1)
    | RequestFailed =>
        if lt_dec k (max_retries C) then (Raise SleepError, w1) else (Raise APIError, w1)
    end.
Proof.
  intros Hneg. apply Z.ltb_lt in Hneg.
  rewrite llm_decide_equation_1, request_decision_eq. cbv zeta.
  unfold sleep. rewrite Hneg.
  destruct (nth_attempt R E (requests w)); try reflexivity;
    destruct (lt_dec k (max_retries C)); reflexivity.
Qed.

Lemma llm_decide_oracle_only row k w r w' :
  llm_decide R E C row k w = (r, w') -> oracle_only w w'.
Proof.
  destruct (Z.lt_ge_cases (retry_delay C) 0) as [Hneg|Hpos].
  { rewrite (llm_decide_negative_delay _ _ _ Hneg). cbv zeta.
    destruct (nth_attempt R E (requests w)); [|destruct (lt_dec k (max_retries C))..];
      intros [= _ <-]; apply oracle_only_request. }
  remember (max_retries C - k) as n eqn:Hn.
  revert k w r w' Hn. induction n as [n IH] using lt_wf_ind. intros k w r w' Hn.
  rewrite llm_decide_step by exact Hpos. cbv zeta.
  assert (Hretry : forall w2 r2 w3, k < max_retries C -> oracle_only w w2 ->
            llm_decide R E C row (S k) (slept (retry_delay C) w2) = (r2, w3) ->
            oracle_only w w3).
  { intros w2 r2 w3 Hk Hw2 H2. eapply oracle_only_trans; [exact Hw2|].
    eapply oracle_only_trans; [apply oracle_only_sleep|].
    eapply (IH (max_retries C - S k)); [lia | reflexivity | exact H2]. }
  destruct (nth_attempt R E (requests w)).
  - intros [= _ <-]. apply oracle_only_request.
  - destruct (lt_dec k (max_retries C)) as [Hk|Hk].
    + destruct (llm_decide R E C row (S k) _) as [[d|e] w2] eqn:H2.
      * intros [= _ <-]. eapply Hretry; [exact Hk | apply oracle_only_request | exact H2].
      * intros H3. eapply Hretry; [exact Hk | | exact H3].
        eapply Hretry; [exact Hk | apply oracle_only_request | exact H2].
    + intros [= _ <-]. apply oracle_only_request.
  - destruct (lt_dec k (max_retries C)) as [Hk|Hk].
    + intros H2. eapply Hretry; [exact Hk | apply oracle_only_request | exact H2].
    + intros [= _ <-]. apply oracle_only_request.
Qed.

Lemma requests_emit_request row w : requests (emit (EvRequest row) w) = S (requests w).
Proof. reflexivity. Qed.

Lemma requests_sleep secs w : requests (slept secs w) = requests w.
Proof. reflexivity. Qed.

Lemma sleeps_emit_request row w : sleeps (emit (EvRequest row) w) = sleeps w.
Proof. reflexivity. Qed.

Lemma sleeps_sleep secs w : sleeps (slept secs w) = S (sleeps w).
Proof. reflexivity. Qed.

Lemma llm_decide_post_retry w w2 r w3 :
  all_failed R E w w2 -> llm_decide_post R E (slept (retry_delay C) w2) r w3 ->
  llm_decide_post R E w r w3.
Proof.
  intros (Hlt & Hs & Hall). destruct r as [d|e]; cbn [llm_decide_post].
  - rewrite requests_sleep, sleeps_sleep. intros (Hlt' & Hs' & Hall' & Hlast).
    repeat split; [lia | lia | | exact Hlast].
    intros n d' Hn. destruct (Nat.lt_ge_cases n (requests w2)).
    + apply Hall. lia.
    + apply Hall'. lia.
  - unfold all_failed. rewrite requests_sleep, sleeps_sleep. intros (Hlt' & Hs' & Hall').
    repeat split; [lia | lia |].
    intros n d' Hn. destruct (Nat.lt_ge_cases n (requests w2)).
    + apply Hall. lia.
    + apply Hall'. lia.
Qed.

Lemma all_failed_first row w :
  (forall d, nth_attempt R E (requests w) <> Parsed d) ->
  all_failed R E w (emit (EvRequest row) w).
Proof.
  intros Hfail. unfold all_failed. rewrite requests_emit_request, sleeps_emit_request.
  repeat split; [lia | lia |].
  intros n d Hn. replace n with (requests w) by lia. apply Hfail.
Qed.

Lemma llm_decide_spec row k w r w' :
  llm_decide R E C row k w = (r, w') -> llm_decide_post R E w r w'.
Proof.
  assert (Hparsed : forall d, nth_attempt R E (requests w) = Parsed d ->
            llm_decide_post R E w (Ok d) (emit (EvRequest row) w)).
  { intros d Hatt. cbn [llm_decide_post].
    rewrite requests_emit_request, sleeps_emit_request. cbn [pred].
    repeat split; [lia | lia | | exact Hatt]. intros i d' Hlt. lia. }
  destruct (Z.lt_ge_cases (retry_delay C) 0) as [Hneg|Hpos].
  { rewrite (llm_decide_negative_delay _ _ _ Hneg). cbv zeta.
    destruct (nth_attempt R E (requests w)) as [d| |] eqn:Hatt;
      [|destruct (lt_dec k (max_retries C))..]; intros [= <- <-];
      [now apply Hparsed|..]; cbn [llm_decide_post];
      apply all_failed_first; intros d; rewrite Hatt; discriminate. }
  clear Hparsed.
  remember (max_retries C - k) as n eqn:Hn.
  revert k w r w' Hn. induction n as [n IH] using lt_wf_ind. intros k w r w' Hn.
  rewrite llm_decide_step by exact Hpos. cbv zeta.
  assert (Hretry : forall w2 r2 w3, k < max_retries C -> all_failed R E w w2 ->
            llm_decide R E C row (S k) (slept (retry_delay C) w2) = (r2, w3) ->
            llm_decide_post R E w r2 w3).
  { intros w2 r2 w3 Hk Hw2 H2. eapply llm_decide_post_retry; [exact Hw2|].
    eapply (IH (max_retries C - S k)); [lia | reflexivity | exact H2]. }
  destruct (nth_attempt R E (requests w)) as [d| |] eqn:Hatt.
  - intros [= <- <-]. cbn [llm_decide_post].
    rewrite requests_emit_request, sleeps_emit_request. cbn [pred].
    repeat split; [lia | lia | | exact Hatt]. intros i d' Hlt. lia.
  - assert (Hfirst : all_failed R E w (emit (EvRequest row) w))
      by (apply all_failed_first; intros d; rewrite Hatt; discriminate).
    destruct (lt_dec k (max_retries C)) as [Hk|Hk].
    + destruct (llm_decide R E C row (S k) _) as [[d|e] w2] eqn:H2.
      * intros [= <- <-]. eapply Hretry; eauto.
      * intros H3. eapply Hretry; [exact Hk | | exact H3].
        apply (Hretry _ _ _ Hk Hfirst H2).
    + intros [= <- <-]. exact Hfirst.
  - assert (Hfirst : all_failed R E w (emit (EvRequest row) w))
      by (apply all_failed_first; intros d; rewrite Hatt; discriminate).
    destruct (lt_dec k (max_retries C)) as [Hk|Hk].
    + intros H2. eapply Hretry; eauto.
    + intros [= <- <-]. exact Hfirst.
Qed.

(** A first request that parses ends the call. *)
Lemma llm_decide_first_parsed row k w decision :
  nth_attempt R E (requests w) = Parsed decision ->
  llm_decide R E C row k w = (Ok decision, emit (EvRequest row) w).
Proof.
  intros H. destruct (Z.lt_ge_cases (retry_delay C) 0) as [Hneg|Hpos].
  - rewrite (llm_decide_negative_delay _ _ _ Hneg). cbv zeta. now rewrite H.
  - rewrite llm_decide_step by exact Hpos. cbv zeta. now rewrite H.
Qed.



End Oracle.

(** ** Reconciliation *)

Section Reconciliation.

Variable R : runtime.
Variable E : environment.

Lemma is_blank_false_truthy v : is_blank R v = false -> truthy v = true.
Proof.
  unfold is_blank. destruct (truthy v); [reflexivity|]. simpl. discriminate.
Qed.

Lemma merge_field_stages col data decision st :
  merge_field R col data decision st =
    if stages R (dget col VNone data) decision
    then (dset col (VStr decision) (fst st), true) else st.
Proof.
  unfold merge_field, stages. cbv zeta.
  destruct (is_blank R (dget col VNone data)) eqn:Hb; simpl.
  - destruct (String.eqb decision ""); simpl; [|reflexivity].
    now rewrite andb_false_r.
  - rewrite (is_blank_false_truthy _ Hb). simpl.
    destruct (String.eqb decision ""); reflexivity.
Qed.

Lemma is_blank_cases v :
  is_blank R v = true <->
  v = VNone \/ v = VFloat NaN \/ strip (py_str R v) = "" \/ truthy v = false.
Proof.
  unfold is_blank. split.
  - intros H. apply orb_true_iff in H as [H|H].
    + apply orb_true_iff in H as [H|H].
      * right. right. right. now apply negb_true_iff.
      * destruct v as [| | |[|]|]; try discriminate; auto.
    + right. right. left. now apply String.eqb_eq.
  - intros [->|[->|[H|H]]]; try reflexivity.
    + apply String.eqb_eq in H. rewrite H. now rewrite orb_true_r.
    + now rewrite H.
Qed.

Lemma merge_field_other col col' data decision st :
  col <> col' ->
  dfind col' (fst (merge_field R col data decision st)) = dfind col' (fst st).
Proof.
  intros Hne. rewrite merge_field_stages.
  destruct (stages R _ _); [|reflexivity]. simpl. now apply dfind_dset_ne.
Qed.

Lemma merge_field_same col data decision st1 st2 :
  dfind col (fst st1) = dfind col (fst st2) ->
  dfind col (fst (merge_field R col data decision st1))
  = dfind col (fst (merge_field R col data decision st2)).
Proof.
  intros H. rewrite !merge_field_stages.
  destruct (stages R _ _); [|exact H]. simpl. now rewrite !dfind_dset_eq.
Qed.

Lemma merge_field_needs col data decision st :
  snd (merge_field R col data decision st)
  = snd st || stages R (dget col VNone data) decision.
Proof.
  rewrite merge_field_stages. destruct (stages R _ _); simpl.
  - now rewrite orb_true_r.
  - now rewrite orb_false_r.
Qed.

(** The code and the wording of the specification part ways only on a
    current value that is falsy without being null, NaN or blank text: a
    zero number or [False]. *)
Lemma merge_field_agrees_with_spec col data decision st :
  truthy (dget col VNone data) = true \/ spec_empty R (dget col VNone data) = true ->
  merge_field R col data decision st = spec_merge_field R col data decision st.
Proof.
  intros Hcur. unfold merge_field, spec_merge_field, is_blank, spec_empty in *. cbv zeta.
  destruct (truthy (dget col VNone data)) eqn:Ht; simpl.
  - destruct (isna (dget col VNone data) || _); simpl; [|reflexivity].
    destruct (String.eqb decision ""); reflexivity.
  - destruct Hcur as [?|Hb]; [discriminate|]. rewrite Hb. simpl.
    destruct (String.eqb decision ""); reflexivity.
Qed.

(** C1 (as amended). For each of Department, Designation and Salary_Band
    the block stages the decision's text when the current value is blank
    (null, NaN, whitespace-only after trimming, or otherwise falsy: a zero
    number, [False]) and the text is not empty; it stages it as well when
    the current value is not blank, the text is not empty and the trimmed
    texts differ; it leaves the update set alone when the current value is
    not blank and equal after trimming, or when the text is empty. A
    staged field sets [needs_update]. In [stage_classification] each of
    the three fields gets what its own block stages, and [needs_update] is
    the disjunction of the three. *)
Theorem merge_field_policy col data decision st :
  let current := dget col VNone data in
  let stage := (dset col (VStr decision) (fst st), true) in
  (is_blank R current = true -> decision <> "" ->
     merge_field R col data decision st = stage) /\
  (is_blank R current = false -> decision <> "" ->
     strip (py_str R current) <> strip decision ->
     merge_field R col data decision st = stage) /\
  (is_blank R current = false /\ strip (py_str R current) = strip decision
     \/ decision = "" ->
     merge_field R col data decision st = st) /\
  (is_blank R current = true <->
     current = VNone \/ current = VFloat NaN \/ strip (py_str R current) = ""
     \/ truthy current = false) /\
  (forall dept designation salary_band,
     let st' := stage_classification R data dept designation salary_band st in
     dfind "Department" (fst st')
       = dfind "Department" (fst (merge_field R "Department" data dept st)) /\
     dfind "Designation" (fst st')
       = dfind "Designation" (fst (merge_field R "Designation" data designation st)) /\
     dfind "Salary_Band" (fst st')
       = dfind "Salary_Band" (fst (merge_field R "Salary_Band" data salary_band st)) /\
     snd st' = snd (merge_field R "Department" data dept st)
               || snd (merge_field R "Designation" data designation st)
               || snd (merge_field R "Salary_Band" data salary_band st)).
Proof.
  cbv zeta. repeat apply conj.
  - intros Hb Hd. rewrite merge_field_stages. unfold stages. rewrite Hb.
    apply String.eqb_neq in Hd. now rewrite Hd.
  - intros Hb Hd Hne. rewrite merge_field_stages. unfold stages. rewrite Hb.
    apply String.eqb_neq in Hd, Hne. now rewrite Hd, Hne.
  - intros [[Hb Heq]| ->]; rewrite merge_field_stages; unfold stages.
    + apply String.eqb_eq in Heq. rewrite Hb, Heq. simpl. now rewrite andb_false_r.
    + reflexivity.
  - apply is_blank_cases.
  - apply is_blank_cases.
  - intros dept designation salary_band. unfold stage_classification.
    repeat apply conj.
    + now rewrite !merge_field_other by discriminate.
    + rewrite merge_field_other by discriminate. apply merge_field_same.
      now rewrite merge_field_other by discriminate.
    + apply merge_field_same. now rewrite !merge_field_other by discriminate.
    + rewrite !merge_field_needs. destruct (snd st); reflexivity.
Qed.

End Reconciliation.

(** ** Experience *)

Section Experience.

Variable R : runtime.
Variable E : environment.

Lemma dget_dset_eq k v default d : dget k default (dset k v d) = v.
Proof. now rewrite dget_dfind, dfind_dset_eq. Qed.

Lemma calculated_experience_Some doj x :
  calculated_experience R E doj = Some x ->
  exists s doj_date, doj = VStr s /\ s <> "" /\ to_datetime_date R s = Some doj_date /\
    x = Fin (py_round1 (Qdiv (inject_Z (today E - doj_date)) (36525 # 100))).
Proof.
  unfold calculated_experience. destruct (truthy doj) eqn:Ht; [|discriminate].
  destruct doj as [| | | |s]; try discriminate.
  destruct (to_datetime_date R s) as [doj_date|] eqn:Hp; [|discriminate].
  intros [= <-]. exists s, doj_date. repeat split; auto.
  intros ->. discriminate.
Qed.

Lemma staged_experience data d :
  dfind "Experience_Years" (fst (staged R E data d))
  = dfind "Experience_Years" (fst (stage_experience R E data)).
Proof.
  unfold staged, stage_classification. now rewrite !merge_field_other by discriminate.
Qed.

Lemma staged_needs data d :
  snd (stage_experience R E data) = true -> snd (staged R E data d) = true.
Proof.
  unfold staged, stage_classification. rewrite !merge_field_needs. now intros ->.
Qed.

Lemma calculated_experience_parsed s doj_date :
  s <> "" -> to_datetime_date R s = Some doj_date ->
  calculated_experience R E (VStr s)
  = Some (Fin (py_round1 (Qdiv (inject_Z (today E - doj_date)) (36525 # 100)))).
Proof.
  intros Hs Hp. unfold calculated_experience.
  assert (Ht : truthy (VStr s) = true) by (simpl; now apply negb_true_iff, String.eqb_neq).
  now rewrite Ht, Hp.
Qed.

Lemma staged_derived data x d :
  calculated_experience R E (dget "DOJ" VNone data) = Some x ->
  dfind "Experience_Years" (fst (staged R E data d)) = Some (VFloat x) /\
  snd (staged R E data d) = true.
Proof.
  intros Hx.
  assert (Hst : stage_experience R E data = ([("Experience_Years", VFloat x)], true))
    by (unfold stage_experience; now rewrite Hx).
  split.
  - rewrite staged_experience, Hst. reflexivity.
  - apply staged_needs. now rewrite Hst.
Qed.


End Experience.

(** The rounding never meets a tie: [days / 365.25] is [4 * days / 1461],
    and no multiple of a tenth plus a twentieth has that form. A float
    quotient that errs by less than 1/29220 therefore rounds to the same
    tenth as the exact quotient does. *)
Lemma experience_never_at_tie (days k : Z) :
  (20 * (4 * days) <> 1461 * (2 * k + 1))%Z.
Proof. lia. Qed.

(** ** One row *)

Section Row.

Variable R : runtime.
Variable E : environment.
Variable C : config.

Lemma apply_employee_update_unfold row updates reason confidence w :
  apply_employee_update R E C row updates reason confidence w =
    let w1 := emit (EvRoundTrip "apply_employee_update") w in
    if transport_ok E (round_trips w)
    then match update_employee_row R E C row updates reason confidence w1 with
         | (Ok a, w2) => (Ok (ToolOk a), w2)
         | (Raise e, w2) => (Ok (ToolError e), w2)
         end
    else (Raise McpError, w1).
Proof. reflexivity. Qed.

(** The body of the per-row [try], stage by stage. *)
Lemma process_row_unfold item w :
  process_row R E C item w =
    match llm_decide R E C (data_for_decision R E (data item)) 0 w with
    | (Raise e, w1) => (Raise e, w1)
    | (Ok JOther, w1) => (Raise AttributeError, w1)
    | (Ok (JObject d), w1) =>
        let st := staged R E (data item) d in
        if negb (snd st) && match fst st with [] => true | _ => false end
        then (Ok Skipped, w1)
        else
          match py_float R (dget "Confidence" (VFloat (Fin (inject_Z 0))) d) with
          | None => (Raise ConversionError, w1)
          | Some confidence =>
              match apply_employee_update R E C (row_id item) (fst st)
                      (py_str R (dget "Reason" (VStr "") d)) confidence w1 with
              | (Ok (ToolOk _), w2) => (Ok Updated, w2)
              | (Ok (ToolError _), w2) => (Ok Rejected, w2)
              | (Raise e, w2) => (Raise e, w2)
              end
          end
    end.
Proof.
  unfold process_row, bind.
  destruct (llm_decide R E C _ 0 w) as [[[d|]|e] w1]; try reflexivity.
  unfold decision_text, decision_get, bind, ret. cbv zeta. fold (decided R d "Department").
  fold (decided R d "Designation"). fold (decided R d "Salary_Band").
  fold (staged R E (data item) d).
  destruct (negb (snd (staged R E (data item) d)) && _); [reflexivity|].
  destruct (py_float R _); [|reflexivity].
  destruct (apply_employee_update R E C _ _ _ _ w1) as [[[u|e]|e] w2]; reflexivity.
Qed.

Lemma process_employee_eq item st w :
  process_employee R E C item (st, w) =
    match process_row R E C item w with
    | (Ok Updated, w') => (add_success st, w')
    | (Ok Skipped, w') => (add_skipped st, w')
    | (Ok Rejected, w') | (Raise _, w') => (add_failed st, w')
    end.
Proof.
  unfold process_employee. simpl.
  destruct (process_row R E C item w) as [[[]|e] w']; reflexivity.
Qed.

Lemma data_for_decision_other col default data :
  col <> "Experience_Years" ->
  dget col default (data_for_decision R E data) = dget col default data.
Proof.
  intros Hne. unfold data_for_decision.
  destruct (calculated_experience R E _); [now apply dget_dset_ne|].
  destruct (dget "Experience_Years" VNone data); auto using dget_dset_ne.
Qed.

Lemma decided_strip d key : strip (decided R d key) = decided R d key.
Proof. apply strip_idem. Qed.

(** A field that is not blank and equals the decision after trimming is
    not staged. *)
Lemma stages_stable current d key :
  is_blank R current = false -> strip (py_str R current) = decided R d key ->
  stages R current (decided R d key) = false.
Proof.
  intros Hb Heq. unfold stages. rewrite Hb, decided_strip, Heq, String.eqb_refl.
  simpl. apply andb_false_r.
Qed.


Lemma validate_updates_rejects updates col val allowed :
  In (col, val) updates -> dropdown col DROPDOWNS = Some allowed ->
  truthy val = true -> strip (py_str R val) <> "" -> value_in val allowed = false ->
  exists c v, validate_updates R updates = Some (InvalidValue c v).
Proof.
  intros Hin Hdrop Ht Hs Hv. induction updates as [|[c v] rest IH]; [destruct Hin|].
  cbn [validate_updates]. destruct Hin as [[= -> ->]|Hin].
  - rewrite Hdrop, Ht. apply String.eqb_neq in Hs. rewrite Hs, Hv. simpl. eauto.
  - destruct (IH Hin) as (c' & v' & Hrest).
    destruct (dropdown c DROPDOWNS) as [a|]; [|eauto].
    destruct (truthy v && _); [|eauto]. destruct (value_in v a); eauto.
Qed.

(** C4. An update set that stages, for Department, Designation or
    Salary_Band, a non-empty value outside the column's enumeration makes
    [update_employee_row] raise and leave the workbook as it was; for a
    readable workbook and a valid row the error is the validation error.
    In the agent such a row is counted as failed, and the workbook is the
    one the row started with. *)
Theorem invalid_dropdown_value_rejected col val allowed :
  In col classification_columns -> dropdown col DROPDOWNS = Some allowed ->
  truthy val = true -> strip (py_str R val) <> "" -> value_in val allowed = false ->
  (forall row updates reason confidence w, In (col, val) updates ->
     exists e w', update_employee_row R E C row updates reason confidence w = (Raise e, w') /\
       file w' = file w /\
       (forall df, file w = Some df -> (0 <= row < Z.of_nat (length (rows df)))%Z ->
          exists c v, e = InvalidValue c v)) /\
  (forall item st w d w1, In (col, val) (fst (staged R E (data item) d)) ->
     llm_decide R E C (data_for_decision R E (data item)) 0 w = (Ok (JObject d), w1) ->
     exists w', process_employee R E C item (st, w) = (add_failed st, w') /\
       file w' = file w).
Proof.
  intros _ Hdrop Ht Hs Hv.
  assert (Hserver : forall row updates reason confidence w, In (col, val) updates ->
     exists e w', update_employee_row R E C row updates reason confidence w = (Raise e, w') /\
       file w' = file w /\
       (forall df, file w = Some df -> (0 <= row < Z.of_nat (length (rows df)))%Z ->
          exists c v, e = InvalidValue c v)).
  { intros row updates reason confidence w Hin.
    destruct (validate_updates_rejects _ _ _ _ Hin Hdrop Ht Hs Hv) as (c & v & Hval).
    destruct (update_employee_row R E C row updates reason confidence w) as [[u|e] w'] eqn:Hup.
    - apply update_employee_row_Ok in Hup as (df & _ & _ & Hnone & _). congruence.
    - exists e, w'. split; [reflexivity|]. split; [eapply update_employee_row_Raise; eauto|].
      intros df Hf Hrow. rewrite update_employee_row_unfold, Hf in Hup. cbv zeta in Hup.
      replace ((row <? 0)%Z || (Z.of_nat (length (rows df)) <=? row)%Z) with false in Hup
        by (symmetry; apply orb_false_iff; split; [apply Z.ltb_ge | apply Z.leb_gt]; lia).
      rewrite Hval in Hup. injection Hup as <- _. eauto. }
  split; [exact Hserver|].
  intros item st w d w1 Hin Hllm.
  pose proof (llm_decide_oracle_only _ _ _ _ _ _ _ _ Hllm) as (Hfile & _ & _).
  rewrite process_employee_eq, process_row_unfold, Hllm. cbv zeta.
  destruct (fst (staged R E (data item) d)) as [|p updates] eqn:Hup; [destruct Hin|].
  rewrite andb_false_r.
  destruct (py_float R _) as [confidence|]; [|eauto].
  rewrite apply_employee_update_unfold. cbv zeta.
  destruct (transport_ok E (round_trips w1)); [|eexists; split; [reflexivity|exact Hfile]].
  destruct (Hserver (row_id item) (p :: updates) (py_str R (dget "Reason" (VStr "") d))
              confidence (emit (EvRoundTrip "apply_employee_update") w1) Hin)
    as (e & w' & -> & Hf & _).
  exists w'. split; [reflexivity|]. now rewrite Hf.
Qed.

End Row.

(** ** The run *)

Section Run.

Variable R : runtime.
Variable E : environment.
Variable C : config.

Lemma process_employee_counts item acc :
  total (fst (process_employee R E C item acc)) = total (fst acc) /\
  counted (fst (process_employee R E C item acc)) = S (counted (fst acc)).
Proof.
  unfold process_employee, counted.
  destruct (process_row R E C item (snd acc)) as [[[]|e] w']; simpl; lia.
Qed.

Lemma process_all_counts employees acc :
  total (fst (process_all R E C employees acc)) = total (fst acc) /\
  counted (fst (process_all R E C employees acc)) = counted (fst acc) + length employees.
Proof.
  revert acc. induction employees as [|item rest IH]; intros acc; simpl; [lia|].
  destruct (IH (process_employee R E C item acc)) as [Ht Hc].
  destruct (process_employee_counts item acc) as [Ht' Hc']. lia.
Qed.

Lemma process_all_app before rest acc :
  process_all R E C (before ++ rest) acc
  = process_all R E C rest (process_all R E C before acc).
Proof.
  revert acc. induction before as [|item before IH]; intros acc; simpl; [reflexivity|].
  apply IH.
Qed.

(** What [run_agent] makes of the three ways its body can end. *)
Lemma run_agent_unfold w :
  run_agent R E C w =
    let start_time := wall E (length (trace w)) in
    match agent_body R E C w with
    | (Ok u, st, w1) =>
        (Ok u, emit (EvSummary st (wall E (length (trace w1)) - start_time)) w1)
    | (Raise e, st, w1) =>
        (Raise e, emit (EvSummary st (wall E (S (length (trace w1))) - start_time))
                    (emit EvFatal w1))
    end.
Proof.
  unfold run_agent. destruct (agent_body R E C w) as [[[u|e] st] w1]; reflexivity.
Qed.

Lemma agent_body_counts w u st w1 :
  agent_body R E C w = (Ok u, st, w1) -> total st = counted st.
Proof.
  unfold agent_body.
  destruct (open_session E w) as [[?|?] w0]; [|discriminate].
  destruct (fetch_all_employees R E w0) as [[result|?] w2]; [|discriminate].
  set (employees := match result with ToolOk l => l | ToolError _ => [] end).
  destruct (total (set_total (length employees) initial_stats) =? 0)%nat eqn:Hz.
  - intros [= _ <- _]. apply Nat.eqb_eq in Hz. simpl in *. unfold counted. simpl. lia.
  - destruct (process_all R E C employees _) as [st' w'] eqn:Hall.
    intros [= _ <- _].
    destruct (process_all_counts employees
                (set_total (length employees) initial_stats, w2)) as [Ht Hc].
    rewrite Hall in Ht, Hc. simpl in Ht, Hc. unfold counted in *. simpl in Hc. lia.
Qed.

Lemma open_session_eq w :
  open_session E w =
    let w1 := emit (EvRoundTrip "initialize") w in
    let w2 := emit (EvRoundTrip "list_tools") w1 in
    if transport_ok E (round_trips w)
    then if transport_ok E (S (round_trips w)) then (Ok tt, w2) else (Raise McpError, w2)
    else (Raise McpError, w1).
Proof.
  unfold open_session, bind, round_trip, ret. cbv zeta. fold (round_trips w).
  destruct (transport_ok E (round_trips w)); [|reflexivity].
  change (count_events is_round_trip (trace (emit (EvRoundTrip "initialize") w)))
    with (S (round_trips w)).
  destruct (transport_ok E (S (round_trips w))); reflexivity.
Qed.

(** C7. A row whose oracle call raises, a row whose tool call comes back
    with an error (the server raised: validation or save), and any row
    whose body raises anything, adds one to [failed] and nothing else; the
    loop then goes on with the rows that follow, and counts every row of
    the list exactly once. Every run, whether it returns or raises, ends
    by printing the summary with the counts; a run that returns has
    counted as many rows as it fetched, and a run that raises has logged
    the fatal error just before the summary. When the workbook can be read
    and the session works, the run is that loop over all the rows of the
    workbook, whatever happens in them: it returns, and its summary shows
    the counts the loop has reached after the last row. *)
Theorem row_failures_never_abort_the_run :
  (forall item st w e w1,
     llm_decide R E C (data_for_decision R E (data item)) 0 w = (Raise e, w1) ->
     process_employee R E C item (st, w) = (add_failed st, w1)) /\
  (forall item st w d w1 confidence e w2,
     llm_decide R E C (data_for_decision R E (data item)) 0 w = (Ok (JObject d), w1) ->
     fst (staged R E (data item) d) <> [] ->
     py_float R (dget "Confidence" (VFloat (Fin (inject_Z 0))) d) = Some confidence ->
     transport_ok E (round_trips w1) = true ->
     update_employee_row R E C (row_id item) (fst (staged R E (data item) d))
       (py_str R (dget "Reason" (VStr "") d)) confidence
       (emit (EvRoundTrip "apply_employee_update") w1) = (Raise e, w2) ->
     process_employee R E C item (st, w) = (add_failed st, w2)) /\
  (forall item st w e w1,
     process_row R E C item w = (Raise e, w1) ->
     process_employee R E C item (st, w) = (add_failed st, w1)) /\
  (forall before item rest acc,
     process_all R E C (before ++ item :: rest) acc
     = process_all R E C rest (process_employee R E C item (process_all R E C before acc))) /\
  (forall employees acc,
     total (fst (process_all R E C employees acc)) = total (fst acc) /\
     counted (fst (process_all R E C employees acc)) = counted (fst acc) + length employees) /\
  (forall w, exists st elapsed t,
     trace (snd (run_agent R E C w)) = EvSummary st elapsed :: t /\
     (forall u, fst (run_agent R E C w) = Ok u -> total st = counted st) /\
     (forall e, fst (run_agent R E C w) = Raise e -> exists t', t = EvFatal :: t')) /\
  (forall w df,
     file w = Some df ->
     transport_ok E (round_trips w) = true ->
     transport_ok E (S (round_trips w)) = true ->
     transport_ok E (S (S (round_trips w))) = true ->
     let w3 := emit (EvRoundTrip "fetch_all_employees")
                 (emit (EvRoundTrip "list_tools") (emit (EvRoundTrip "initialize") w)) in
     let done := process_all R E C (employees_of R df)
                   (set_total (length (rows df)) initial_stats, w3) in
     exists elapsed,
       run_agent R E C w = (Ok tt, emit (EvSummary (fst done) elapsed) (snd done))).
Proof.
  repeat apply conj.
  - intros item st w e w1 Hllm.
    now rewrite process_employee_eq, process_row_unfold, Hllm.
  - intros item st w d w1 confidence e w2 Hllm Hne Hconf Htr Hup.
    rewrite process_employee_eq, process_row_unfold, Hllm. cbv zeta.
    destruct (fst (staged R E (data item) d)) as [|p updates] eqn:Hst; [congruence|].
    rewrite andb_false_r, Hconf, apply_employee_update_unfold. cbv zeta.
    now rewrite Htr, Hup.
  - intros item st w e w1 Hrow. now rewrite process_employee_eq, Hrow.
  - intros before item rest acc. now rewrite process_all_app.
  - apply process_all_counts.
  - intros w. rewrite run_agent_unfold. cbv zeta.
    destruct (agent_body R E C w) as [[[u|e] st] w1] eqn:Hbody; simpl.
    + eexists _, _, _. split; [reflexivity|]. split; [|discriminate].
      intros _ _. eapply agent_body_counts; eauto.
    + eexists _, _, _. split; [reflexivity|]. split; [discriminate|]. eauto.
  - intros w df Hfile H0 H1 H2. cbv zeta. rewrite run_agent_unfold. unfold agent_body.
    rewrite open_session_eq. cbv zeta. rewrite H0, H1.
    unfold fetch_all_employees, round_trip, get_all_employees, bind, read_excel, ret.
    change (count_events is_round_trip
              (trace (emit (EvRoundTrip "list_tools") (emit (EvRoundTrip "initialize") w))))
      with (S (S (round_trips w))).
    rewrite H2. cbn [file emit]. rewrite Hfile.
    assert (Hlen : length (employees_of R df) = length (rows df))
      by (unfold employees_of; apply length_imap).
    rewrite Hlen.
    destruct (total _ =? 0)%nat eqn:Hz.
    + apply Nat.eqb_eq in Hz. cbn [total set_total] in Hz.
      assert (Hnil : employees_of R df = [])
        by (apply length_zero_iff_nil; now rewrite Hlen).
      rewrite Hnil. cbn [process_all fst snd]. eexists. reflexivity.
    + destruct (process_all R E C (employees_of R df) _) as [st' w']. cbn [fst snd].
      eexists. reflexivity.
Qed.

(** C5 (as amended). When the workbook cannot be read and the session
    works, the fetch tool reports an error, the agent takes the list of
    employees to be empty and the run returns normally: three round trips,
    no request to the oracle, a summary of zeros, exit status 0. The run
    is aborted and the error reaches the process boundary (exit status 1,
    after the fatal log line and the summary) when the session itself
    fails while it is opened or during the fetch; no row is processed
    then either. *)
Theorem unreadable_store_is_an_empty_run w :
  (file w = None ->
   transport_ok E (round_trips w) = true ->
   transport_ok E (S (round_trips w)) = true ->
   transport_ok E (S (S (round_trips w))) = true ->
   exists elapsed,
     run_agent R E C w
     = (Ok tt, emit (EvSummary initial_stats elapsed)
                 (emit (EvRoundTrip "fetch_all_employees")
                    (emit (EvRoundTrip "list_tools") (emit (EvRoundTrip "initialize") w))))
     /\ fst (main R E C w) = 0%Z) /\
  (transport_ok E (round_trips w) = false \/
   transport_ok E (S (round_trips w)) = false \/
   transport_ok E (S (S (round_trips w))) = false ->
   exists w' elapsed t,
     run_agent R E C w = (Raise McpError, w') /\ fst (main R E C w) = 1%Z /\
     trace w' = EvSummary initial_stats elapsed :: EvFatal :: t /\
     file w' = file w /\ requests w' = requests w /\ saves w' = saves w).
Proof.
  split.
  - intros Hfile H0 H1 H2. unfold main. rewrite run_agent_unfold. unfold agent_body.
    rewrite open_session_eq. cbv zeta. rewrite H0, H1.
    unfold fetch_all_employees, round_trip, get_all_employees, bind, read_excel.
    change (count_events is_round_trip
              (trace (emit (EvRoundTrip "list_tools") (emit (EvRoundTrip "initialize") w))))
      with (S (S (round_trips w))).
    rewrite H2. simpl. rewrite Hfile. simpl. eexists. split; reflexivity.
  - intros Hbroken. unfold main. rewrite run_agent_unfold. unfold agent_body.
    rewrite open_session_eq. cbv zeta.
    destruct (transport_ok E (round_trips w)) eqn:H0;
      [|eexists _, _, _; repeat split; reflexivity].
    destruct (transport_ok E (S (round_trips w))) eqn:H1;
      [|eexists _, _, _; repeat split; reflexivity].
    destruct Hbroken as [?|[?|H2]]; try discriminate.
    unfold fetch_all_employees, round_trip.
    change (count_events is_round_trip
              (trace (emit (EvRoundTrip "list_tools") (emit (EvRoundTrip "initialize") w))))
      with (S (S (round_trips w))).
    rewrite H2. eexists _, _, _. repeat split; reflexivity.
Qed.

End Run.

(** ** The row write *)

Section Write.

Variable R : runtime.
Variable E : environment.
Variable C : config.

Lemma cell_at_rows_eq df1 df2 r col :
  columns df1 = columns df2 -> rows df1 !! r = rows df2 !! r ->
  cell_at df1 r col = cell_at df2 r col.
Proof. intros Hc Hr. unfold cell_at. now rewrite Hc, Hr. Qed.

Lemma wf_updated_frame row updates reason confidence df :
  wf_frame df -> wf_frame (updated_frame E row updates reason confidence df).
Proof.
  intros Hwf. unfold updated_frame.
  now apply wf_stamp_audit, wf_apply_updates, wf_ensure_required.
Qed.

Lemma length_rows_updated_frame row updates reason confidence df :
  length (rows (updated_frame E row updates reason confidence df)) = length (rows df).
Proof.
  unfold updated_frame.
  now rewrite length_rows_stamp_audit, length_rows_apply_updates, length_rows_ensure_required.
Qed.

(** The audit cells of the written row. *)
Lemma updated_frame_audit row updates reason confidence df :
  wf_frame df -> Z.to_nat row < length (rows df) ->
  let df' := updated_frame E row updates reason confidence df in
  cell_at df' (Z.to_nat row) "Is_Processed" = Some (Val (VStr "Yes")) /\
  cell_at df' (Z.to_nat row) "AI_Decision_Reason" = Some (Val (VStr reason)) /\
  cell_at df' (Z.to_nat row) "Confidence_Score" = Some (Val (VFloat confidence)) /\
  cell_at df' (Z.to_nat row) "Last_Processed_On" = Some (Timestamp (now E)).
Proof.
  intros Hwf Hr. apply stamp_audit_cells.
  - now apply wf_apply_updates, wf_ensure_required.
  - now rewrite length_rows_apply_updates, length_rows_ensure_required.
  - rewrite columns_apply_updates. apply ensure_required_has. simpl. tauto.
  - rewrite columns_apply_updates. apply ensure_required_has. simpl. tauto.
  - rewrite columns_apply_updates. apply ensure_required_has. simpl. tauto.
  - rewrite columns_apply_updates. apply ensure_required_has. simpl. tauto.
Qed.

(** A column of the workbook that is no audit column holds, in the
    written row, the last truthy value staged for it, and what it held
    before when there is none; in every other row it holds what it held. *)
Lemma updated_frame_cell row updates reason confidence df r col :
  wf_frame df -> Z.to_nat row < length (rows df) ->
  is_Some (get_loc col (columns df)) -> ~ In col audit_columns ->
  cell_at (updated_frame E row updates reason confidence df) r col =
    match last_write col updates with
    | Some v => if decide (r = Z.to_nat row) then Some (Val v) else cell_at df r col
    | None => cell_at df r col
    end.
Proof.
  intros Hwf Hr Hcol Haudit. unfold updated_frame.
  rewrite cell_at_stamp_audit_other by exact Haudit.
  destruct (decide (r = Z.to_nat row)) as [->|Hne].
  - rewrite cell_at_apply_updates.
    + destruct (last_write col updates); [reflexivity|]. now apply cell_at_ensure_required.
    + now apply wf_ensure_required.
    + now rewrite length_rows_ensure_required.
    + now apply ensure_required_keeps.
  - rewrite (cell_at_rows_eq _ (ensure_required_columns df)).
    + rewrite cell_at_ensure_required by assumption. now destruct (last_write col updates).
    + apply columns_apply_updates.
    + apply rows_apply_updates_ne. congruence.
Qed.

(** C9. A successful [update_employee_row] leaves in the target row
    Is_Processed = "Yes", the given reason and confidence and the current
    timestamp, next to the staged values it writes (the truthy ones, in
    columns the workbook has); and when the six audit columns already
    exist, the columns are the same and every other row is the row it
    was. *)
Theorem update_employee_row_postcondition row updates reason confidence w w' df u :
  file w = Some df -> wf_frame df ->
  update_employee_row R E C row updates reason confidence w = (Ok u, w') ->
  exists df', file w' = Some df' /\
    (0 <= row < Z.of_nat (length (rows df)))%Z /\
    cell_at df' (Z.to_nat row) "Is_Processed" = Some (Val (VStr "Yes")) /\
    cell_at df' (Z.to_nat row) "AI_Decision_Reason" = Some (Val (VStr reason)) /\
    cell_at df' (Z.to_nat row) "Confidence_Score" = Some (Val (VFloat confidence)) /\
    cell_at df' (Z.to_nat row) "Last_Processed_On" = Some (Timestamp (now E)) /\
    (forall col val, NoDup (fst <$> updates) -> In (col, val) updates -> truthy val = true ->
       is_Some (get_loc col (columns df)) -> ~ In col audit_columns ->
       cell_at df' (Z.to_nat row) col = Some (Val val)) /\
    ((forall col, In col required_audit_columns -> is_Some (get_loc col (columns df))) ->
       columns df' = columns df /\ length (rows df') = length (rows df) /\
       forall r, r <> Z.to_nat row -> rows df' !! r = rows df !! r).
Proof.
  intros Hfile Hwf Hup.
  apply update_employee_row_Ok in Hup as (df0 & Hfile0 & Hrow & _ & Hfile').
  assert (df0 = df) as -> by congruence.
  assert (Hr : Z.to_nat row < length (rows df)) by lia.
  exists (updated_frame E row updates reason confidence df).
  split; [exact Hfile'|]. split; [exact Hrow|].
  destruct (updated_frame_audit row updates reason confidence df Hwf Hr) as (H1 & H2 & H3 & H4).
  repeat apply conj; try assumption.
  - intros col val Hnd Hin Ht Hcol Haudit.
    rewrite updated_frame_cell by assumption.
    rewrite (last_write_unique _ _ _ Hnd Hin), Ht.
    now destruct (decide (Z.to_nat row = Z.to_nat row)).
  - intros Hall. unfold updated_frame. rewrite (ensure_required_present df Hall).
    repeat apply conj.
    + now rewrite columns_stamp_audit, columns_apply_updates.
    + now rewrite length_rows_stamp_audit, length_rows_apply_updates.
    + intros r Hne. rewrite rows_stamp_audit_ne, rows_apply_updates_ne; auto.
Qed.

Lemma updated_frame_absent row updates reason confidence df r col :
  ~ In col required_audit_columns -> get_loc col (columns df) = None ->
  cell_at (updated_frame E row updates reason confidence df) r col = None.
Proof.
  intros Hn Hcol. apply cell_at_absent. unfold updated_frame.
  rewrite columns_stamp_audit, columns_apply_updates. now apply ensure_required_absent.
Qed.

Lemma merge_field_keys col data decision st :
  NoDup (fst <$> fst st) -> NoDup (fst <$> fst (merge_field R col data decision st)).
Proof.
  intros Hnd. rewrite merge_field_stages. destruct (stages R _ _); [|exact Hnd].
  now apply dset_keys_NoDup.
Qed.

Lemma staged_keys data d : NoDup (fst <$> fst (staged R E data d)).
Proof.
  unfold staged, stage_classification. repeat apply merge_field_keys.
  unfold stage_experience. destruct (calculated_experience R E _); simpl.
  - apply NoDup_singleton.
  - apply NoDup_nil_2.
Qed.

Lemma validate_updates_truthy updates :
  validate_updates R (List.filter (fun p => truthy (snd p)) updates)
  = validate_updates R updates.
Proof.
  induction updates as [|[col val] rest IH]; [reflexivity|].
  cbn [List.filter validate_updates snd]. destruct (truthy val) eqn:Ht.
  - cbn [validate_updates]. rewrite Ht, IH. reflexivity.
  - rewrite IH. now destruct (dropdown col DROPDOWNS).
Qed.

Lemma apply_updates_truthy r updates df :
  apply_updates r (List.filter (fun p => truthy (snd p)) updates) df
  = apply_updates r updates df.
Proof.
  revert df. induction updates as [|[col val] rest IH]; intros df; [reflexivity|].
  cbn [List.filter apply_updates snd]. destruct (truthy val) eqn:Ht.
  - cbn [apply_updates]. now rewrite Ht, IH.
  - apply IH.
Qed.

(** C10. A pair of the update set whose value is falsy is skipped by the
    write loop. [update_employee_row] does with the update set what it
    does with its truthy pairs alone; so after a successful call the
    column of a falsy pair, when the workbook has it and it is no audit
    column, holds in every row what it held before. [None], the empty
    string, the integer 0, the float 0.0 and [False] are such values. In
    particular a join date equal to today gives the experience 0.0, which
    the agent stages with [needs_update] set and which the write then
    leaves out: the Experience_Years cells are what they were. *)
Theorem falsy_values_are_not_written :
  (forall row updates reason confidence w,
     update_employee_row R E C row updates reason confidence w
     = update_employee_row R E C row (List.filter (fun p => truthy (snd p)) updates)
         reason confidence w) /\
  (forall row updates reason confidence w w' df u col val,
     file w = Some df -> wf_frame df ->
     NoDup (fst <$> updates) -> In (col, val) updates -> truthy val = false ->
     is_Some (get_loc col (columns df)) -> ~ In col audit_columns ->
     update_employee_row R E C row updates reason confidence w = (Ok u, w') ->
     exists df', file w' = Some df' /\ forall r, cell_at df' r col = cell_at df r col) /\
  (truthy VNone = false /\ truthy (VStr "") = false /\ truthy (VInt 0) = false /\
   truthy (VFloat (Fin (0 # 1))) = false /\ truthy (VBool false) = false) /\
  (forall data s d,
     dget "DOJ" VNone data = VStr s -> s <> "" -> to_datetime_date R s = Some (today E) ->
     calculated_experience R E (dget "DOJ" VNone data) = Some (Fin (0 # 10)) /\
     truthy (VFloat (Fin (0 # 10))) = false /\
     dfind "Experience_Years" (fst (staged R E data d)) = Some (VFloat (Fin (0 # 10))) /\
     snd (staged R E data d) = true /\
     forall row reason confidence w w' df u,
       file w = Some df -> wf_frame df ->
       update_employee_row R E C row (fst (staged R E data d)) reason confidence w = (Ok u, w') ->
       exists df', file w' = Some df' /\
         forall r, cell_at df' r "Experience_Years" = cell_at df r "Experience_Years").
Proof.
  assert (Hskip : forall row updates reason confidence w w' df u col val,
     file w = Some df -> wf_frame df ->
     NoDup (fst <$> updates) -> In (col, val) updates -> truthy val = false ->
     is_Some (get_loc col (columns df)) -> ~ In col audit_columns ->
     update_employee_row R E C row updates reason confidence w = (Ok u, w') ->
     exists df', file w' = Some df' /\ forall r, cell_at df' r col = cell_at df r col).
  { intros row updates reason confidence w w' df u col val Hfile Hwf Hnd Hin Hf Hcol Haudit Hup.
    apply update_employee_row_Ok in Hup as (df0 & Hfile0 & Hrow & _ & Hfile').
    assert (df0 = df) as -> by congruence.
    eexists. split; [exact Hfile'|]. intros r.
    rewrite updated_frame_cell by (try assumption; lia).
    now rewrite (last_write_unique _ _ _ Hnd Hin), Hf. }
  split.
  { intros row updates reason confidence w. rewrite !update_employee_row_unfold.
    destruct (file w) as [df|]; [|reflexivity].
    unfold updated_frame. now rewrite validate_updates_truthy, apply_updates_truthy. }
  split; [exact Hskip|]. split; [repeat split|].
  intros data s d Hdoj Hs Hparse.
  pose proof (calculated_experience_parsed R E s (today E) Hs Hparse) as Hcalc.
  rewrite Z.sub_diag in Hcalc. change (py_round1 _) with (0 # 10) in Hcalc.
  rewrite <- Hdoj in Hcalc.
  destruct (staged_derived R E data _ d Hcalc) as [Hfind Hneeds].
  repeat apply conj; try assumption; try reflexivity.
  intros row reason confidence w w' df u Hfile Hwf Hup.
  destruct (get_loc "Experience_Years" (columns df)) as [j|] eqn:Hcol.
  - eapply Hskip; eauto using staged_keys, dfind_In.
    simpl. intros [H|[H|[H|[H|[]]]]]; discriminate.
  - apply update_employee_row_Ok in Hup as (df0 & Hfile0 & Hrow & _ & Hfile').
    assert (df0 = df) as -> by congruence.
    eexists. split; [exact Hfile'|]. intros r.
    rewrite updated_frame_absent, cell_at_absent; auto.
    simpl. intros [H|[H|[H|[H|[H|[H|[]]]]]]]; discriminate.
Qed.

End Write.

(** ** Two runs in a row *)

Section Twice.

Variable R : runtime.
Variable E : environment.
Variable C : config.

Lemma dfind_row_dict col cols row :
  dfind col (row_dict R cols row)
  = convert_to_json_serializable R <$> (j ← get_loc col cols; row !! j).
Proof.
  unfold row_dict. revert row. induction cols as [|c cols IH]; intros row; [reflexivity|].
  destruct row as [|x row]; simpl.
  - destruct (String.eqb col c); [reflexivity|]. now destruct (get_loc col cols).
  - destruct (String.eqb col c); [reflexivity|].
    rewrite IH. now destruct (get_loc col cols).
Qed.

Lemma employees_of_lookup df r item :
  employees_of R df !! r = Some item <->
  exists row, rows df !! r = Some row /\
    item = {| row_id := Z.of_nat r; data := row_dict R (columns df) row |}.
Proof.
  unfold employees_of. rewrite list_lookup_imap.
  destruct (rows df !! r) as [row|]; simpl; split.
  - intros [= <-]. eauto.
  - intros (row' & [= <-] & ->). reflexivity.
  - discriminate.
  - intros (row' & ? & _). discriminate.
Qed.

Lemma data_field df r item col :
  employees_of R df !! r = Some item -> dget col VNone (data item) = field R df r col.
Proof.
  intros (row & Hrow & ->)%employees_of_lookup. simpl.
  rewrite dget_dfind, dfind_row_dict. unfold field, cell_at. rewrite Hrow.
  destruct (get_loc col (columns df)) as [j|]; simpl; [|reflexivity].
  now destruct (row !! j).
Qed.

Lemma last_write_dfind col updates :
  NoDup (fst <$> updates) ->
  last_write col updates =
    match dfind col updates with
    | Some v => if truthy v then Some v else None
    | None => None
    end.
Proof.
  intros Hnd. destruct (dfind col updates) as [v|] eqn:Hfind.
  - apply last_write_unique; [exact Hnd | now apply dfind_In].
  - apply last_write_notin. intros Hin. apply list_elem_of_In, in_map_iff in Hin.
    destruct Hin as ([c v] & Hc & Hin). simpl in Hc. subst c.
    clear Hnd. induction updates as [|[c' v'] rest IH]; [destruct Hin|].
    simpl in Hfind. destruct (String.eqb_spec col c') as [->|Hne]; [discriminate|].
    destruct Hin as [[= -> ->]|Hin]; [congruence | auto].
Qed.

(** What the first run stages for a classification field, and for a
    column it never stages. *)
Lemma staged_classification_field data d col :
  In col classification_columns ->
  dfind col (fst (staged R E data d)) =
    if stages R (dget col VNone data) (decided R d col)
    then Some (VStr (decided R d col)) else None.
Proof.
  assert (Hexp : forall c, c <> "Experience_Years" ->
            dfind c (fst (stage_experience R E data)) = None).
  { intros c Hc. unfold stage_experience. destruct (calculated_experience R E _); simpl; auto.
    destruct (String.eqb_spec c "Experience_Years"); congruence. }
  unfold staged, stage_classification. simpl.
  intros [<-|[<-|[<-|[]]]];
    rewrite ?merge_field_other by discriminate;
    rewrite merge_field_stages, data_for_decision_other by discriminate;
    destruct (stages R _ _); simpl;
    rewrite ?dfind_dset_eq, ?merge_field_other by discriminate; auto.
Qed.

Lemma staged_other data d col :
  ~ In col classification_columns -> col <> "Experience_Years" ->
  dfind col (fst (staged R E data d)) = None.
Proof.
  intros Hn Hne. unfold staged, stage_classification.
  rewrite !merge_field_other by (intros <-; apply Hn; simpl; tauto).
  unfold stage_experience. destruct (calculated_experience R E _); simpl; auto.
  destruct (String.eqb_spec col "Experience_Years"); congruence.
Qed.

(** A field that holds the decision's own text is settled. *)
Lemma stages_settled d key :
  decided R d key <> "" -> stages R (VStr (decided R d key)) (decided R d key) = false.
Proof.
  intros Hne. apply stages_stable; [|apply decided_strip].
  unfold is_blank. simpl. rewrite decided_strip.
  apply String.eqb_neq in Hne. now rewrite Hne.
Qed.

Lemma stages_nonempty current decision : stages R current decision = true -> decision <> "".
Proof.
  unfold stages. intros H%andb_true_iff. destruct H as [H _].
  now apply negb_true_iff, String.eqb_neq in H.
Qed.

(** The workbook after [process_row] is the one before, or that one with
    this row written. *)
Lemma process_row_file item w o w' :
  process_row R E C item w = (o, w') ->
  file w' = file w \/
  exists df updates reason confidence, file w = Some df /\
    (0 <= row_id item < Z.of_nat (length (rows df)))%Z /\
    file w' = Some (updated_frame E (row_id item) updates reason confidence df).
Proof.
  rewrite process_row_unfold.
  destruct (llm_decide R E C _ 0 w) as [[[d|]|e] w1] eqn:Hllm;
    pose proof (llm_decide_oracle_only _ _ _ _ _ _ _ _ Hllm) as (Hfile & _ & _);
    try (intros [= _ <-]; now left).
  cbv zeta. destruct (negb _ && _); [intros [= _ <-]; now left|].
  destruct (py_float R _) as [confidence|]; [|intros [= _ <-]; now left].
  rewrite apply_employee_update_unfold. cbv zeta.
  destruct (transport_ok E _); [|intros [= _ <-]; now left].
  destruct (update_employee_row R E C _ _ _ _ _) as [[u|e] w2] eqn:Hup.
  - intros [= _ <-]. right.
    apply update_employee_row_Ok in Hup as (df & Hdf & Hrow & _ & Hfile').
    exists df, (fst (staged R E (data item) d)), (py_str R (dget "Reason" (VStr "") d)), confidence.
    simpl in Hdf. rewrite <- Hfile. auto.
  - intros [= _ <-]. left. apply update_employee_row_Raise in Hup. simpl in Hup. congruence.
Qed.

(** What [process_row] has done when it reports an updated row. *)
Lemma process_row_Updated item w d wa w1 :
  llm_decide R E C (data_for_decision R E (data item)) 0 w = (Ok (JObject d), wa) ->
  process_row R E C item w = (Ok Updated, w1) ->
  exists confidence u,
    update_employee_row R E C (row_id item) (fst (staged R E (data item) d))
      (py_str R (dget "Reason" (VStr "") d)) confidence
      (emit (EvRoundTrip "apply_employee_update") wa) = (Ok u, w1).
Proof.
  intros Hllm. rewrite process_row_unfold, Hllm. cbv zeta.
  destruct (negb _ && _); [discriminate|].
  destruct (py_float R _) as [confidence|]; [|discriminate].
  rewrite apply_employee_update_unfold. cbv zeta.
  destruct (transport_ok E _); [|discriminate].
  destruct (update_employee_row R E C _ _ _ _ _) as [[u|e] w2] eqn:Hup; [|discriminate].
  intros [= <-]. eauto.
Qed.

(** The same join date gives the same staged experience. *)
Lemma staged_experience_same_doj data1 data2 d :
  dget "DOJ" VNone data1 = dget "DOJ" VNone data2 ->
  dfind "Experience_Years" (fst (staged R E data1 d))
  = dfind "Experience_Years" (fst (staged R E data2 d)).
Proof.
  intros Hdoj. rewrite !staged_experience. unfold stage_experience. now rewrite Hdoj.
Qed.

(** C8 (as amended). Take a record of a workbook that has the three
    classification columns, and a first run that writes the row. Run the
    reconciliation again on the record as the workbook now holds it, with
    the same today and the same decision: no classification field is
    staged, Experience_Years is staged exactly as in the first run, and
    Is_Processed is "Yes" after the first run and after the second,
    whatever the second run's outcome. (A first run that skips the row or
    fails writes nothing, and then Is_Processed is not set.) *)
Theorem second_run_stages_no_classification df r item d w wa w1 :
  file w = Some df -> wf_frame df ->
  (forall col, In col classification_columns -> is_Some (get_loc col (columns df))) ->
  employees_of R df !! r = Some item ->
  llm_decide R E C (data_for_decision R E (data item)) 0 w = (Ok (JObject d), wa) ->
  process_row R E C item w = (Ok Updated, w1) ->
  exists df1 item1,
    file w1 = Some df1 /\ employees_of R df1 !! r = Some item1 /\
    row_id item1 = row_id item /\
    (forall col, In col classification_columns ->
       dfind col (fst (staged R E (data item1) d)) = None) /\
    dfind "Experience_Years" (fst (staged R E (data item1) d))
    = dfind "Experience_Years" (fst (staged R E (data item) d)) /\
    cell_at df1 r "Is_Processed" = Some (Val (VStr "Yes")) /\
    (forall w1' o w2, file w1' = Some df1 -> process_row R E C item1 w1' = (o, w2) ->
       exists df2, file w2 = Some df2 /\
         cell_at df2 r "Is_Processed" = Some (Val (VStr "Yes"))).
Proof.
  intros Hfile Hwf Hcols Hitem Hllm Hrow.
  pose proof (llm_decide_oracle_only _ _ _ _ _ _ _ _ Hllm) as (Hfa & _ & _).
  destruct (process_row_Updated _ _ _ _ _ Hllm Hrow) as (confidence & u & Hup).
  apply update_employee_row_Ok in Hup as (df0 & Hfile0 & Hrange & _ & Hfile1).
  simpl in Hfile0. assert (df0 = df) as -> by congruence.
  pose proof Hitem as (row & Hrowr & Hitem_eq)%employees_of_lookup.
  assert (Hid : row_id item = Z.of_nat r) by (now subst item).
  rewrite Hid in Hfile1, Hrange.
  set (updates := fst (staged R E (data item) d)) in *.
  set (reason := py_str R (dget "Reason" (VStr "") d)) in *.
  set (df1 := updated_frame E (Z.of_nat r) updates reason confidence df) in *.
  assert (Hr : Z.to_nat (Z.of_nat r) < length (rows df)) by lia.
  assert (Hwf1 : wf_frame df1) by now apply wf_updated_frame.
  assert (Hlen1 : length (rows df1) = length (rows df))
    by apply length_rows_updated_frame.
  destruct (lookup_lt_is_Some_2 (rows df1) r) as [row1 Hrow1]; [lia|].
  set (item1 := {| row_id := Z.of_nat r; data := row_dict R (columns df1) row1 |}).
  assert (Hitem1 : employees_of R df1 !! r = Some item1)
    by (apply employees_of_lookup; eauto).
  destruct (updated_frame_audit E (Z.of_nat r) updates reason confidence df Hwf Hr)
    as (Hyes & _).
  rewrite Nat2Z.id in Hyes. fold df1 in Hyes.
  exists df1, item1. repeat apply conj; try assumption.
  - simpl. congruence.
  - intros col Hcol. rewrite (staged_classification_field _ _ _ Hcol).
    rewrite (data_field _ _ _ _ Hitem1).
    assert (Haudit : ~ In col audit_columns)
      by (simpl in Hcol |- *; intros [<-|[<-|[<-|[<-|[]]]]];
          destruct Hcol as [?|[?|[?|[]]]]; discriminate).
    unfold field, df1.
    rewrite updated_frame_cell by auto.
    rewrite (last_write_dfind col updates (staged_keys R E _ _)).
    unfold updates. rewrite (staged_classification_field _ _ _ Hcol).
    destruct (stages R (dget col VNone (data item)) (decided R d col)) eqn:Hst.
    + pose proof (stages_nonempty _ _ Hst) as Hne.
      assert (Ht : truthy (VStr (decided R d col)) = true)
        by (simpl; now apply negb_true_iff, String.eqb_neq).
      rewrite Ht, Nat2Z.id. destruct (decide (r = r)) as [_|]; [|congruence]. simpl.
      now rewrite stages_settled.
    + fold (field R df r col). rewrite <- (data_field _ _ _ _ Hitem). now rewrite Hst.
  - apply staged_experience_same_doj.
    rewrite (data_field _ _ _ _ Hitem1), (data_field _ _ _ _ Hitem). unfold field, df1.
    destruct (get_loc "DOJ" (columns df)) as [j|] eqn:Hdoj.
    + rewrite updated_frame_cell;
        [ | assumption | assumption | eauto
          | simpl; intros [H|[H|[H|[H|[]]]]]; discriminate ].
      rewrite (last_write_dfind "DOJ" updates (staged_keys R E _ _)).
      unfold updates. rewrite staged_other;
        [reflexivity | simpl; intros [H|[H|[H|[]]]]; discriminate | discriminate].
    + rewrite updated_frame_absent, cell_at_absent; auto.
      simpl. intros [H|[H|[H|[H|[H|[H|[]]]]]]]; discriminate.
  - intros w1' o w2 Hf1 Hsecond.
    destruct (process_row_file _ _ _ _ Hsecond)
      as [Hsame|(df' & updates' & reason' & confidence' & Hdf' & Hrange' & Hfile2)].
    + exists df1. split; [congruence | exact Hyes].
    + assert (df' = df1) as -> by congruence.
      simpl in Hrange', Hfile2.
      eexists. split; [exact Hfile2|].
      destruct (updated_frame_audit E (Z.of_nat r) updates' reason' confidence' df1 Hwf1)
        as (Hyes2 & _); [lia|].
      now rewrite Nat2Z.id in Hyes2.
Qed.

End Twice.

(** * Further properties *)

(** ** Lists and frames *)

Lemma filter_sublist {A} (p : A -> bool) (l : list A) : sublist (List.filter p l) l.
Proof.
  induction l as [|x l IH]; simpl; [constructor|].
  destruct (p x); now constructor.
Qed.

Lemma elem_of_imap_pair {A} (l : list A) i x : (i, x) ∈ imap pair l <-> l !! i = Some x.
Proof.
  rewrite elem_of_lookup_imap. split.
  - intros (j & y & [= -> ->] & H). exact H.
  - intros H. eauto.
Qed.

Lemma cell_at_ensure_column_new col d r df :
  wf_frame df -> get_loc col (columns df) = None -> r < length (rows df) ->
  cell_at (ensure_column col d df) r col = Some d.
Proof.
  intros [_ Hlen] Hcol Hr. unfold ensure_column, cell_at. rewrite Hcol. simpl.
  rewrite (get_loc_snoc_new _ _ Hcol). simpl. rewrite list_lookup_fmap.
  destruct (lookup_lt_is_Some_2 _ _ Hr) as [row Hrow]. rewrite Hrow. simpl.
  rewrite Forall_lookup in Hlen. rewrite <- (Hlen _ _ Hrow).
  rewrite lookup_app_r by lia. now rewrite Nat.sub_diag.
Qed.

Lemma columns_set_column col c df :
  columns (set_column col c (ensure_column col c df)) = columns (ensure_column col c df).
Proof.
  unfold set_column. destruct (ensure_column_has col c df) as [j ->]. reflexivity.
Qed.

Lemma length_rows_set_column col c df :
  length (rows (set_column col c df)) = length (rows df).
Proof. unfold set_column. destruct (get_loc col (columns df)); simpl; apply length_fmap. Qed.

Lemma wf_set_column col c df : wf_frame df -> wf_frame (set_column col c df).
Proof.
  intros Hwf. unfold set_column. destruct (get_loc col (columns df)) as [j|] eqn:Hj.
  - destruct Hwf as [Hnd Hlen]. split; [exact Hnd|]. simpl.
    apply Forall_fmap. eapply Forall_impl; [exact Hlen|].
    intros row Hrow. simpl. now rewrite length_insert.
  - pose proof (wf_ensure_column col c df Hwf) as H. unfold ensure_column in H.
    now rewrite Hj in H.
Qed.

Lemma cell_at_set_column_eq col c r df :
  wf_frame df -> r < length (rows df) -> cell_at (set_column col c df) r col = Some c.
Proof.
  intros Hwf Hr. unfold set_column. destruct (get_loc col (columns df)) as [j|] eqn:Hj.
  - destruct Hwf as [_ Hlen]. unfold cell_at. simpl. rewrite Hj. simpl.
    rewrite list_lookup_fmap.
    destruct (lookup_lt_is_Some_2 _ _ Hr) as [row Hrow]. rewrite Hrow. simpl.
    apply list_lookup_insert_eq.
    rewrite Forall_lookup in Hlen. rewrite (Hlen _ _ Hrow). eauto using get_loc_lt.
  - pose proof (cell_at_ensure_column_new col c r df Hwf Hj Hr) as H.
    unfold ensure_column in H. now rewrite Hj in H.
Qed.

Lemma cell_at_set_column_ne col col' c r df :
  wf_frame df -> col <> col' -> cell_at (set_column col c df) r col' = cell_at df r col'.
Proof.
  intros Hwf Hne. unfold set_column. destruct (get_loc col (columns df)) as [j|] eqn:Hj.
  - unfold cell_at. simpl.
    destruct (get_loc col' (columns df)) as [j'|] eqn:Hj'; [|reflexivity]. simpl.
    rewrite list_lookup_fmap. destruct (rows df !! r) as [row|]; [|reflexivity]. simpl.
    apply list_lookup_insert_ne. eauto using get_loc_distinct.
  - destruct (get_loc col' (columns df)) as [j'|] eqn:Hj'.
    + pose proof (cell_at_ensure_column col col' c r df Hwf (ltac:(eauto))) as H.
      unfold ensure_column in H. now rewrite Hj in H.
    + pose proof (cell_at_ensure_column_absent col col' c r df Hne Hj') as H.
      unfold ensure_column in H. rewrite Hj in H. rewrite H.
      symmetry. now apply cell_at_absent.
Qed.

(** ** The unprocessed rows *)

Section Unprocessed.

Variable R : runtime.
Variable E : environment.
Variable C : config.

Lemma unprocessed_rows_elem df r row :
  (r, row) ∈ unprocessed_rows df <->
  rows df !! r = Some row /\ cell_at df r "Is_Processed" <> Some (Val (VStr "Yes")).
Proof.
  unfold unprocessed_rows, cell_at.
  destruct (get_loc "Is_Processed" (columns df)) as [j|]; simpl.
  - rewrite list_elem_of_In, filter_In, <- list_elem_of_In, elem_of_imap_pair. simpl.
    split; intros [Hrow Hc]; (split; [exact Hrow|]); rewrite Hrow in *; simpl in *.
    + intros Hyes. rewrite Hyes in Hc. discriminate.
    + destruct (row !! j) as [[[| b | n | [|q] | s]|t]|]; try reflexivity. simpl.
      destruct (String.eqb_spec s "Yes") as [->|]; [congruence | reflexivity].
  - rewrite elem_of_imap_pair. split; [intros H; split; [exact H | discriminate] | tauto].
Qed.

Lemma unprocessed_sublist df :
  sublist ((fun ir => {| row_id := Z.of_nat (fst ir); data := row_dict R (columns df) (snd ir) |})
             <$> unprocessed_rows df)
          (employees_of R df).
Proof.
  unfold employees_of.
  replace (imap _ (rows df)) with
    ((fun ir => {| row_id := Z.of_nat (fst ir); data := row_dict R (columns df) (snd ir) |})
       <$> imap pair (rows df)).
  - apply fmap_sublist. unfold unprocessed_rows.
    destruct (get_loc "Is_Processed" (columns df)); [apply filter_sublist | reflexivity].
  - rewrite fmap_imap. reflexivity.
Qed.

Lemma get_unprocessed_employees_eq w df :
  file w = Some df ->
  get_unprocessed_employees R w =
    (Ok ((fun ir => {| row_id := Z.of_nat (fst ir); data := row_dict R (columns df) (snd ir) |})
           <$> unprocessed_rows df), w).
Proof. intros Hf. unfold get_unprocessed_employees, bind, read_excel, ret. now rewrite Hf. Qed.

Lemma unprocessed_listed df r :
  (exists item,
     item ∈ ((fun ir => {| row_id := Z.of_nat (fst ir); data := row_dict R (columns df) (snd ir) |})
               <$> unprocessed_rows df) /\ row_id item = Z.of_nat r) <->
  r < length (rows df) /\ cell_at df r "Is_Processed" <> Some (Val (VStr "Yes")).
Proof.
  split.
  - intros (item & Hin & Hid). apply list_elem_of_fmap in Hin as ([r' row] & -> & Hin).
    simpl in Hid. apply Nat2Z.inj in Hid as ->.
    apply unprocessed_rows_elem in Hin as [Hrow Hc]. split; [|exact Hc].
    now apply lookup_lt_Some in Hrow.
  - intros [Hr Hc]. destruct (lookup_lt_is_Some_2 _ _ Hr) as [row Hrow].
    exists {| row_id := Z.of_nat r; data := row_dict R (columns df) row |}.
    split; [|reflexivity]. apply list_elem_of_fmap. exists (r, row). split; [reflexivity|].
    apply unprocessed_rows_elem. now split.
Qed.

(** X1. [get_unprocessed_employees] returns, in the order of the workbook
    and with the [row_id] and the data [get_all_employees] gives them, the
    rows whose Is_Processed cell is not the string "Yes": an empty cell, NaN
    and any other value count as unprocessed, and without an Is_Processed
    column every row does. *)
Theorem unprocessed_are_the_rows_not_marked_yes w df :
  file w = Some df ->
  exists l, get_unprocessed_employees R w = (Ok l, w) /\
    sublist l (employees_of R df) /\
    (forall r item, employees_of R df !! r = Some item ->
       (item ∈ l <-> cell_at df r "Is_Processed" <> Some (Val (VStr "Yes")))) /\
    (get_loc "Is_Processed" (columns df) = None -> l = employees_of R df).
Proof.
  intros Hf. eexists. split; [exact (get_unprocessed_employees_eq w df Hf)|].
  split; [apply unprocessed_sublist|]. split.
  - intros r item (row & Hrow & ->)%employees_of_lookup. rewrite list_elem_of_fmap. split.
    + intros ([r' row'] & Heq & Hin). simpl in Heq. injection Heq as Hid Hdata.
      apply Nat2Z.inj in Hid as <-. now apply unprocessed_rows_elem in Hin as [_ Hc].
    + intros Hc. exists (r, row). split; [reflexivity|]. now apply unprocessed_rows_elem.
  - intros Hcol. unfold unprocessed_rows, employees_of. rewrite Hcol, fmap_imap. reflexivity.
Qed.

End Unprocessed.

(** ** Creating the audit columns *)

Lemma ensure_required_foldl df :
  ensure_required_columns df = foldl (fun f cd => ensure_column (fst cd) (snd cd) f) df required_defaults.
Proof. reflexivity. Qed.

Lemma get_loc_ensure_column_other col c d df :
  col <> c -> get_loc col (columns df) = None ->
  get_loc col (columns (ensure_column c d df)) = None.
Proof.
  intros Hne Hcol. unfold ensure_column. destruct (get_loc c (columns df)); [exact Hcol|].
  simpl. now apply get_loc_snoc_other.
Qed.

Lemma foldl_ensure_wf l df :
  wf_frame df -> wf_frame (foldl (fun f cd => ensure_column (fst cd) (snd cd) f) df l).
Proof.
  revert df. induction l as [|[c d] l IH]; intros df Hwf; simpl; [exact Hwf|].
  now apply IH, wf_ensure_column.
Qed.

Lemma foldl_ensure_keep l df r col :
  wf_frame df -> is_Some (get_loc col (columns df)) ->
  cell_at (foldl (fun f cd => ensure_column (fst cd) (snd cd) f) df l) r col = cell_at df r col.
Proof.
  revert df. induction l as [|[c d] l IH]; intros df Hwf Hcol; simpl; [reflexivity|].
  rewrite IH; [now apply cell_at_ensure_column | now apply wf_ensure_column |
               now apply ensure_column_keeps].
Qed.

Lemma foldl_ensure_new l df r col d :
  NoDup (fst <$> l) -> In (col, d) l ->
  wf_frame df -> get_loc col (columns df) = None -> r < length (rows df) ->
  cell_at (foldl (fun f cd => ensure_column (fst cd) (snd cd) f) df l) r col = Some d.
Proof.
  revert df. induction l as [|[c d0] l IH]; intros df Hnd Hin Hwf Hcol Hr; [destruct Hin|].
  simpl in *. inversion Hnd as [|? ? Hnotin Hnd']; subst.
  destruct Hin as [[= -> ->]|Hin].
  - rewrite foldl_ensure_keep; [now apply cell_at_ensure_column_new |
                                now apply wf_ensure_column | apply ensure_column_has].
  - apply IH; [exact Hnd' | exact Hin | now apply wf_ensure_column | |
               now rewrite length_rows_ensure_column].
    apply get_loc_ensure_column_other; [|exact Hcol].
    intros ->. apply Hnotin. apply list_elem_of_In, in_map_iff. now exists (c, d).
Qed.

Lemma filter_notin_snoc (cols : list string) c (l : list string) :
  c ∉ l -> filter (fun x => x ∉ cols ++ [c]) l = filter (fun x => x ∉ cols) l.
Proof.
  induction l as [|x l IH]; intros Hc; [reflexivity|].
  rewrite !filter_cons. rewrite IH by (intros H; apply Hc; now right).
  assert (Hx : x <> c) by (intros ->; apply Hc; left).
  destruct (decide (x ∉ cols ++ [c])) as [H1|H1]; destruct (decide (x ∉ cols)) as [H2|H2];
    try reflexivity; exfalso.
  - apply H2. intros Hin. apply H1. apply elem_of_app. now left.
  - apply H1. intros Hin. apply elem_of_app in Hin as [Hin|Hin]; [now apply H2|].
    apply list_elem_of_singleton in Hin. congruence.
Qed.

Lemma foldl_ensure_columns l df :
  NoDup (fst <$> l) ->
  columns (foldl (fun f cd => ensure_column (fst cd) (snd cd) f) df l)
  = columns df ++ filter (fun c => c ∉ columns df) (fst <$> l).
Proof.
  revert df. induction l as [|[c d] l IH]; intros df Hnd; simpl.
  - now rewrite app_nil_r.
  - inversion Hnd as [|? ? Hnotin Hnd']; subst. rewrite (IH _ Hnd'). rewrite filter_cons. simpl.
    unfold ensure_column. destruct (get_loc c (columns df)) as [j|] eqn:Hj.
    + assert (Hin : c ∈ columns df)
        by (apply list_elem_of_lookup; eauto using get_loc_lookup).
      destruct (decide (c ∉ columns df)) as [Hn|_]; [contradiction|]. reflexivity.
    + apply get_loc_None in Hj.
      destruct (decide (c ∉ columns df)) as [_|Hn]; [|contradiction].
      simpl. rewrite <- app_assoc. simpl. now rewrite filter_notin_snoc.
Qed.

(** ** More on [update_employee_row] *)

Section Store_more.

Variable R : runtime.
Variable E : environment.
Variable C : config.

Lemma updated_frame_other_row row updates reason confidence df r col :
  r <> Z.to_nat row ->
  cell_at (updated_frame E row updates reason confidence df) r col
  = cell_at (ensure_required_columns df) r col.
Proof.
  intros Hne. unfold updated_frame. apply cell_at_rows_eq.
  - now rewrite columns_stamp_audit, columns_apply_updates.
  - rewrite rows_stamp_audit_ne, rows_apply_updates_ne; auto.
Qed.

Lemma columns_updated_frame row updates reason confidence df :
  columns (updated_frame E row updates reason confidence df)
  = columns df ++ filter (fun c => c ∉ columns df) required_audit_columns.
Proof.
  unfold updated_frame. rewrite columns_stamp_audit, columns_apply_updates.
  rewrite ensure_required_foldl, foldl_ensure_columns; [reflexivity|].
  apply (bool_decide_unpack _). vm_compute. exact I.
Qed.

Lemma not_marked_ensure_required df r :
  wf_frame df -> r < length (rows df) ->
  cell_at (ensure_required_columns df) r "Is_Processed" = Some (Val (VStr "Yes")) <->
  cell_at df r "Is_Processed" = Some (Val (VStr "Yes")).
Proof.
  intros Hwf Hr. destruct (get_loc "Is_Processed" (columns df)) as [j|] eqn:Hj.
  - rewrite cell_at_ensure_required; [reflexivity | exact Hwf | eauto].
  - rewrite ensure_required_foldl.
    rewrite (foldl_ensure_new required_defaults df r "Is_Processed" (Val (VStr "No")));
      try assumption.
    + rewrite (cell_at_absent df r _ Hj). split; discriminate.
    + apply (bool_decide_unpack _). vm_compute. exact I.
    + simpl. tauto.
Qed.

(** X2. A row that [update_employee_row] has written is no longer among
    the rows [get_unprocessed_employees] returns, and the write changes
    nothing for any other row: it is returned afterwards exactly when
    its Is_Processed cell was not "Yes" before, whether or not the write
    had to create the Is_Processed column. *)
Theorem written_row_leaves_the_unprocessed_list row updates reason confidence w w' u df :
  file w = Some df -> wf_frame df ->
  update_employee_row R E C row updates reason confidence w = (Ok u, w') ->
  exists l, get_unprocessed_employees R w' = (Ok l, w') /\
    (forall item, item ∈ l -> row_id item <> row) /\
    (forall r, Z.of_nat r <> row ->
       ((exists item, item ∈ l /\ row_id item = Z.of_nat r) <->
        r < length (rows df) /\ cell_at df r "Is_Processed" <> Some (Val (VStr "Yes")))).
Proof.
  intros Hfile Hwf Hup.
  apply update_employee_row_Ok in Hup as (df0 & Hfile0 & Hrow & _ & Hfile').
  assert (df0 = df) as -> by congruence.
  assert (Hr : Z.to_nat row < length (rows df)) by lia.
  eexists. split; [exact (get_unprocessed_employees_eq R w' _ Hfile')|]. split.
  - intros item Hin Hid.
    destruct (proj1 (unprocessed_listed R (updated_frame E row updates reason confidence df)
                       (Z.to_nat row))) as [_ Hc].
    + exists item. split; [exact Hin|]. rewrite Hid. lia.
    + apply Hc. now apply updated_frame_audit.
  - intros r Hne. rewrite unprocessed_listed, length_rows_updated_frame.
    assert (Hr' : r <> Z.to_nat row) by lia.
    rewrite updated_frame_other_row by exact Hr'.
    split; intros [Hlt Hc]; (split; [exact Hlt|]); intros Hyes; apply Hc;
      now apply (not_marked_ensure_required df r Hwf Hlt).
Qed.

End Store_more.

(** ** Validation, errors and the shape of the workbook *)

Section Store_errors.

Variable R : runtime.
Variable E : environment.
Variable C : config.

Lemma validate_updates_Some updates e :
  validate_updates R updates = Some e ->
  exists col val allowed, e = InvalidValue col val /\ In (col, val) updates /\
    dropdown col DROPDOWNS = Some allowed /\ truthy val = true /\
    strip (py_str R val) <> "" /\ value_in val allowed = false.
Proof.
  induction updates as [|[c v] rest IH]; [discriminate|]. cbn [validate_updates].
  assert (Hrest : validate_updates R rest = Some e ->
            exists col val allowed, e = InvalidValue col val /\ In (col, val) ((c, v) :: rest) /\
              dropdown col DROPDOWNS = Some allowed /\ truthy val = true /\
              strip (py_str R val) <> "" /\ value_in val allowed = false).
  { intros H. destruct (IH H) as (col & val & allowed & ? & ? & ?).
    exists col, val, allowed. repeat split; try tauto. now right. }
  destruct (dropdown c DROPDOWNS) as [allowed|] eqn:Hdrop; [|exact Hrest].
  destruct (truthy v) eqn:Ht; [|exact Hrest]. cbn [andb].
  destruct (String.eqb_spec (strip (py_str R v)) "") as [Hs|Hs]; [exact Hrest|]. cbn [negb].
  destruct (value_in v allowed) eqn:Hv; [exact Hrest|].
  intros [= <-]. exists c, v, allowed. repeat split; auto. now left.
Qed.

(** X3. The validation loop accepts an update set exactly when every
    pair for a dropdown column whose value is truthy and not blank after
    trimming holds a string of the column's list; and what it raises names
    a pair of the set that fails this test. Pairs for other columns, falsy
    values and blank strings are not looked at. *)
Theorem validate_updates_accepts_exactly updates :
  (validate_updates R updates = None <->
   forall col val allowed, In (col, val) updates -> dropdown col DROPDOWNS = Some allowed ->
     truthy val = true -> strip (py_str R val) <> "" -> value_in val allowed = true) /\
  (forall e, validate_updates R updates = Some e ->
     exists col val allowed, e = InvalidValue col val /\ In (col, val) updates /\
       dropdown col DROPDOWNS = Some allowed /\ value_in val allowed = false).
Proof.
  split; [split|].
  - intros Hnone col val allowed Hin Hdrop Ht Hs.
    destruct (value_in val allowed) eqn:Hv; [reflexivity|].
    destruct (validate_updates_rejects R _ _ _ _ Hin Hdrop Ht Hs Hv) as (c & v & H).
    congruence.
  - intros Hall. destruct (validate_updates R updates) as [e|] eqn:Hval; [|reflexivity].
    apply validate_updates_Some in Hval as (col & val & allowed & _ & Hin & Hdrop & Ht & Hs & Hv).
    rewrite (Hall _ _ _ Hin Hdrop Ht Hs) in Hv. discriminate.
  - intros e Hval.
    apply validate_updates_Some in Hval as (col & val & allowed & ? & ? & ? & _ & _ & ?).
    exists col, val, allowed. auto.
Qed.

Lemma backups_backed_up w :
  backups (backed_up E C w)
  = backups w + (if backup_enabled C && backup_ok E (length (trace w)) then 1 else 0).
Proof. unfold backed_up. destruct (_ && _); [simpl|]; unfold backups; simpl; lia. Qed.

(** X4. [update_employee_row] writes all or nothing. When it raises, the
    workbook is what it was; it has tried to save only if the error is the
    failure of that save, so an unreadable workbook, a [row_id] out of range
    and a rejected value are found before anything is written. When it
    returns, it has saved exactly once. With backups enabled every call
    tries one backup first, also a call that then fails, and the trace
    holds one more backup exactly when the copy succeeded; a copy that
    fails stops nothing: what the call returns or raises and what it
    leaves in the workbook are what they are with backups disabled. *)
Theorem update_employee_row_writes_all_or_nothing row updates reason confidence w :
  match update_employee_row R E C row updates reason confidence w with
  | (Ok _, w') =>
      save_ok E (saves w) = true /\ saves w' = S (saves w) /\
      exists df, file w = Some df /\
        file w' = Some (updated_frame E row updates reason confidence df)
  | (Raise e, w') =>
      file w' = file w /\
      (e = SaveError /\ save_ok E (saves w) = false /\ saves w' = S (saves w) \/
       e <> SaveError /\ saves w' = saves w)
  end /\
  backups (snd (update_employee_row R E C row updates reason confidence w))
  = backups w + (if backup_enabled C && backup_ok E (length (trace w)) then 1 else 0) /\
  (let off := {| max_retries := max_retries C; retry_delay := retry_delay C;
                 backup_enabled := false |} in
   fst (update_employee_row R E C row updates reason confidence w)
   = fst (update_employee_row R E off row updates reason confidence w) /\
   file (snd (update_employee_row R E C row updates reason confidence w))
   = file (snd (update_employee_row R E off row updates reason confidence w))).
Proof.
  cbv zeta. rewrite !update_employee_row_unfold. cbv zeta.
  pose proof (file_backed_up E C w) as Hf1. assert (Hs1 : saves (backed_up E C w) = saves w) by now apply count_backed_up.
  pose proof (backups_backed_up w) as Hb1.
  set (w1 := backed_up E C w) in *.
  set (off := {| max_retries := max_retries C; retry_delay := retry_delay C;
                 backup_enabled := false |}).
  assert (Hoff : backed_up E off w = w) by reflexivity. rewrite Hoff.
  destruct (file w) as [df|] eqn:Hf.
  2:{ cbn [fst snd]. repeat apply conj; try congruence; try exact Hb1.
      right. split; [discriminate | exact Hs1]. }
  destruct ((row <? 0)%Z || (Z.of_nat (length (rows df)) <=? row)%Z).
  { cbn [fst snd]. repeat apply conj; try congruence; try exact Hb1.
    right. split; [discriminate | exact Hs1]. }
  destruct (validate_updates R updates) as [e|] eqn:Hval.
  { cbn [fst snd]. repeat apply conj; try congruence; try exact Hb1.
    right. split; [|exact Hs1].
    apply validate_updates_Some in Hval as (col & val & _ & -> & _). discriminate. }
  unfold to_excel. fold (saves w1). fold (saves w). rewrite Hs1.
  destruct (save_ok E (saves w)) eqn:Hok; cbn [fst snd file write_file emit].
  - repeat apply conj; try reflexivity; try exact Hb1.
    + unfold saves in *. simpl. now rewrite Hs1.
    + exists df. split; reflexivity.
  - repeat apply conj; try congruence; try exact Hb1. left.
    split; [reflexivity|]. split; [reflexivity|]. unfold saves in *. simpl. now rewrite Hs1.
Qed.

(** X5. A successful [update_employee_row] keeps the shape of the
    workbook: the frame is well formed again, it has the rows it had, and
    its columns are the old ones, in their order, followed by those of the
    six audit columns that were missing. A staged column the workbook does
    not have is therefore dropped, not created. *)
Theorem update_employee_row_keeps_the_shape row updates reason confidence w w' u df :
  file w = Some df -> wf_frame df ->
  update_employee_row R E C row updates reason confidence w = (Ok u, w') ->
  exists df', file w' = Some df' /\ wf_frame df' /\
    length (rows df') = length (rows df) /\
    columns df' = columns df ++ filter (fun c => c ∉ columns df) required_audit_columns /\
    (forall col, col ∈ columns df' -> col ∈ columns df \/ In col required_audit_columns).
Proof.
  intros Hfile Hwf Hup.
  apply update_employee_row_Ok in Hup as (df0 & Hfile0 & Hrow & _ & Hfile').
  assert (df0 = df) as -> by congruence.
  eexists. split; [exact Hfile'|]. split; [now apply wf_updated_frame|].
  split; [apply length_rows_updated_frame|]. split; [apply columns_updated_frame|].
  intros col. rewrite columns_updated_frame, elem_of_app, list_elem_of_filter.
  intros [H|[_ H]]; [now left | right; now apply list_elem_of_In].
Qed.

(** X6. A successful [update_employee_row] touches one row. In every
    other row each cell of the old workbook holds what it held, and an
    Is_Processed column the call had to create holds "No"; in the written
    row a column of the old workbook that is no audit column and has no
    truthy staged value holds what it held. *)
Theorem update_employee_row_touches_one_row row updates reason confidence w w' u df :
  file w = Some df -> wf_frame df ->
  update_employee_row R E C row updates reason confidence w = (Ok u, w') ->
  exists df', file w' = Some df' /\
    (forall r col, r <> Z.to_nat row -> is_Some (get_loc col (columns df)) ->
       cell_at df' r col = cell_at df r col) /\
    (forall r, r <> Z.to_nat row -> r < length (rows df) ->
       get_loc "Is_Processed" (columns df) = None ->
       cell_at df' r "Is_Processed" = Some (Val (VStr "No"))) /\
    (forall col, is_Some (get_loc col (columns df)) -> ~ In col audit_columns ->
       last_write col updates = None ->
       cell_at df' (Z.to_nat row) col = cell_at df (Z.to_nat row) col).
Proof.
  intros Hfile Hwf Hup.
  apply update_employee_row_Ok in Hup as (df0 & Hfile0 & Hrow & _ & Hfile').
  assert (df0 = df) as -> by congruence.
  eexists. split; [exact Hfile'|]. repeat apply conj.
  - intros r col Hne Hcol. rewrite updated_frame_other_row by exact Hne.
    now apply cell_at_ensure_required.
  - intros r Hne Hr Hcol. rewrite updated_frame_other_row by exact Hne.
    rewrite ensure_required_foldl. apply foldl_ensure_new; try assumption.
    + apply (bool_decide_unpack _). vm_compute. exact I.
    + simpl. tauto.
  - intros col Hcol Haudit Hlast.
    rewrite updated_frame_cell by (try assumption; lia). now rewrite Hlast.
Qed.

Lemma allowed_values_are_trimmed col allowed a :
  dropdown col DROPDOWNS = Some allowed -> In a allowed -> strip a <> "".
Proof.
  unfold DROPDOWNS. cbn [dropdown].
  repeat (destruct (String.eqb col _);
          [intros [= <-]; simpl;
           intros H; repeat (destruct H as [<-|H]; [vm_compute; discriminate|]); destruct H|]).
  discriminate.
Qed.

(** X7. A string of blanks gets past the validation. For a dropdown
    column, a value that is not empty but is empty after trimming is not
    in the column's list, yet the validation loop does not look at it,
    and the write loop, which tests the value itself, writes it: after a
    successful call the cell holds the blanks. *)
Theorem blank_string_gets_past_validation col allowed s rest :
  dropdown col DROPDOWNS = Some allowed -> s <> "" -> strip s = "" ->
  value_in (VStr s) allowed = false /\
  validate_updates R ((col, VStr s) :: rest) = validate_updates R rest /\
  (forall row reason confidence w w' df u,
     file w = Some df -> wf_frame df -> NoDup (fst <$> (col, VStr s) :: rest) ->
     is_Some (get_loc col (columns df)) -> col <> "Is_Processed" ->
     update_employee_row R E C row ((col, VStr s) :: rest) reason confidence w = (Ok u, w') ->
     exists df', file w' = Some df' /\ cell_at df' (Z.to_nat row) col = Some (Val (VStr s))).
Proof.
  intros Hdrop Hs Hblank. repeat apply conj.
  - simpl. destruct (existsb (String.eqb s) allowed) eqn:Hex; [|reflexivity].
    apply existsb_exists in Hex as (a & Hin & Heq). apply String.eqb_eq in Heq as <-.
    now destruct (allowed_values_are_trimmed _ _ _ Hdrop Hin).
  - cbn [validate_updates]. rewrite Hdrop. cbn [py_str]. rewrite Hblank.
    now rewrite andb_false_r.
  - intros row reason confidence w w' df u Hfile Hwf Hnd Hcol Hne Hup.
    apply update_employee_row_Ok in Hup as (df0 & Hfile0 & Hrow & _ & Hfile').
    assert (df0 = df) as -> by congruence.
    eexists. split; [exact Hfile'|].
    rewrite updated_frame_cell; try assumption; [|lia|].
    + rewrite (last_write_unique col (VStr s)); [|exact Hnd | now left].
      assert (Ht : truthy (VStr s) = true)
        by (simpl; now apply negb_true_iff, String.eqb_neq).
      rewrite Ht. now destruct (decide (Z.to_nat row = Z.to_nat row)).
    + intros Hin. unfold DROPDOWNS in Hdrop. cbn [dropdown] in Hdrop.
      simpl in Hin. destruct Hin as [<-|[<-|[<-|[<-|[]]]]]; try congruence; discriminate.
Qed.

End Store_errors.

(** ** Fetching *)

Section Fetch.

Variable R : runtime.
Variable E : environment.
Variable C : config.

Lemma convert_not_nan c : convert_to_json_serializable R c <> VFloat NaN.
Proof.
  destruct c as [v|t]; simpl; [|discriminate].
  destruct v as [| | |[|]|]; simpl; discriminate.
Qed.

Lemma get_all_employees_eq w df :
  file w = Some df -> get_all_employees R w = (Ok (employees_of R df), w).
Proof. intros Hf. unfold get_all_employees, bind, read_excel, ret. now rewrite Hf. Qed.

(** X8. [get_all_employees] lists every row of the workbook once, in
    order: the entry at position [r] has [row_id] [r], so every [row_id]
    it hands out is in the range [update_employee_row] accepts; its data has
    the columns of the workbook as keys, in their order; the value of a
    cell that is not an integer is the converted cell, and no value is NaN
    (a missing cell arrives as [None]). *)
Theorem get_all_employees_lists_every_row w df :
  file w = Some df -> wf_frame df ->
  exists l, get_all_employees R w = (Ok l, w) /\
    length l = length (rows df) /\
    forall r item, l !! r = Some item ->
      row_id item = Z.of_nat r /\
      (0 <= row_id item < Z.of_nat (length (rows df)))%Z /\
      fst <$> data item = columns df /\
      (forall col, (forall n, cell_at df r col <> Some (Val (VInt n))) ->
         dget col VNone (data item) = field R df r col) /\
      (forall col v, In (col, v) (data item) -> v <> VFloat NaN).
Proof.
  intros Hfile [_ Hlen]. exists (employees_of R df).
  split; [now apply get_all_employees_eq|].
  split; [unfold employees_of; apply length_imap|].
  intros r item Hitem. pose proof (data_field R df r item) as Hfield.
  apply employees_of_lookup in Hitem as Hrow. destruct Hrow as (row & Hrow & ->). simpl.
  pose proof (lookup_lt_Some _ _ _ Hrow) as Hr.
  repeat apply conj; [reflexivity | lia | lia | | |].
  - unfold row_dict. apply fst_zip. rewrite length_fmap.
    rewrite Forall_lookup in Hlen. now rewrite (Hlen _ _ Hrow).
  - intros col _. now apply Hfield.
  - intros col v Hin. unfold row_dict in Hin. apply list_elem_of_In, elem_of_zip_r in Hin.
    apply list_elem_of_fmap in Hin as (c & -> & _). apply convert_not_nan.
Qed.

Lemma value_in_str val allowed :
  value_in val allowed = true -> exists s, val = VStr s /\ In s allowed.
Proof.
  destruct val as [| | | |s]; try discriminate. simpl. intros H.
  apply existsb_exists in H as (a & Ha & Heq). apply String.eqb_eq in Heq as <-. eauto.
Qed.

(** X9. What [update_employee_row] has written, [get_all_employees]
    reads back, for the cells whose text a saved workbook returns as it
    was written: after a successful call the entry of the written row
    shows Is_Processed "Yes" and, in a column the workbook had, each staged
    value for a dropdown column that is truthy and not blank, which the
    validation has found in the column's list. *)
Theorem fetch_after_update_reads_the_written_values
    row updates reason confidence w w' u df :
  file w = Some df -> wf_frame df -> NoDup (fst <$> updates) ->
  update_employee_row R E C row updates reason confidence w = (Ok u, w') ->
  exists l item, get_all_employees R w' = (Ok l, w') /\
    l !! Z.to_nat row = Some item /\ row_id item = row /\
    dget "Is_Processed" VNone (data item) = VStr "Yes" /\
    (forall col val allowed, In (col, val) updates ->
       dropdown col DROPDOWNS = Some allowed ->
       truthy val = true -> strip (py_str R val) <> "" ->
       is_Some (get_loc col (columns df)) -> col <> "Is_Processed" ->
       dget col VNone (data item) = val /\ exists s, val = VStr s /\ In s allowed).
Proof.
  intros Hfile Hwf Hnd Hup.
  apply update_employee_row_Ok in Hup as (df0 & Hfile0 & Hrow & Hval & Hfile').
  assert (df0 = df) as -> by congruence.
  assert (Hr : Z.to_nat row < length (rows df)) by lia.
  set (df' := updated_frame E row updates reason confidence df) in *.
  assert (Hr' : Z.to_nat row < length (rows df'))
    by (unfold df'; now rewrite length_rows_updated_frame).
  destruct (lookup_lt_is_Some_2 _ _ Hr') as [cells Hcells].
  assert (Hitem : employees_of R df' !! Z.to_nat row
                  = Some {| row_id := Z.of_nat (Z.to_nat row);
                            data := row_dict R (columns df') cells |})
    by (apply employees_of_lookup; eauto).
  eexists _, _. split; [exact (get_all_employees_eq w' df' Hfile')|].
  split; [exact Hitem|]. split; [simpl; lia|].
  destruct (updated_frame_audit E row updates reason confidence df Hwf Hr) as (H1 & _).
  fold df' in H1.
  rewrite !(data_field R df' _ _ _ Hitem). unfold field. rewrite H1.
  split; [reflexivity|].
  intros col val allowed Hin Hdrop Ht Hs Hcol Hne.
  assert (Hmember : value_in val allowed = true).
  { destruct (value_in val allowed) eqn:Hv; [reflexivity|].
    destruct (validate_updates_rejects R _ _ _ _ Hin Hdrop Ht Hs Hv) as (c & v & H).
    congruence. }
  destruct (value_in_str _ _ Hmember) as (s & -> & Hs').
  split; [|eauto].
  assert (Haudit : ~ In col audit_columns).
  { intros [<-|[<-|[<-|[<-|[]]]]]; [congruence|discriminate..]. }
  rewrite (data_field R df' _ _ _ Hitem). unfold field, df'.
  rewrite updated_frame_cell by assumption.
  rewrite (last_write_unique _ _ _ Hnd Hin), Ht.
  destruct (decide (Z.to_nat row = Z.to_nat row)); [|congruence]. reflexivity.
Qed.

End Fetch.

(** ** The maintenance tools *)

Lemma filter_all {A} (p : A -> bool) (l : list A) :
  (forall x, In x l -> p x = true) -> List.filter p l = l.
Proof.
  induction l as [|x l IH]; intros H; simpl; [reflexivity|].
  rewrite (H x) by now left. rewrite IH; [reflexivity|]. intros y Hy. apply H. now right.
Qed.

Section Maintenance_properties.

Variable R : runtime.
Variable E : environment.
Variable C : config.
Variable timestamp_date : Z -> Z.

Lemma saves_backup w :
  saves (backed_up E C w) = saves w.
Proof. now apply count_backed_up. Qed.

Lemma file_backup w :
  file (backed_up E C w) = file w.
Proof. apply file_backed_up. Qed.

(** [reset_processed_flag_for_reprocessing], step by step. *)
Lemma reset_processed_flag_unfold w :
  reset_processed_flag_for_reprocessing E C w =
    let w1 := backed_up E C w in
    match file w with
    | None => (StatusError, w1)
    | Some df =>
        let df' := set_column "Is_Processed" (Val (VStr "No"))
                     (ensure_column "Is_Processed" (Val (VStr "No")) df) in
        if save_ok E (saves w)
        then (StatusSuccess (length (rows df')), write_file df' (emit (EvSave true) w1))
        else (StatusError, emit (EvSave false) w1)
    end.
Proof.
  cbv zeta.
  unfold reset_processed_flag_for_reprocessing, caught, bind, create_backup, read_excel, ret,
    to_excel, backed_up, saves.
  destruct (backup_enabled C); cbn [andb]; [destruct (backup_ok E _)|];
    cbn [file emit trace count_events is_save Nat.add];
    (destruct (file w) as [df|]; [|reflexivity]);
    destruct (save_ok E _); reflexivity.
Qed.

(** X10. After a successful [reset_processed_flag_for_reprocessing]
    every row is unprocessed again: the Is_Processed cell of each row is
    "No" (the column is created when it was missing), every other cell is
    what it was, the count reported is the number of rows, and
    [get_unprocessed_employees] then returns every row of the workbook. *)
Theorem reset_makes_every_row_unprocessed w df :
  file w = Some df -> wf_frame df -> save_ok E (saves w) = true ->
  exists df' w',
    reset_processed_flag_for_reprocessing E C w = (StatusSuccess (length (rows df)), w') /\
    file w' = Some df' /\ wf_frame df' /\ length (rows df') = length (rows df) /\
    (forall r, r < length (rows df) ->
       cell_at df' r "Is_Processed" = Some (Val (VStr "No"))) /\
    (forall r col, col <> "Is_Processed" -> cell_at df' r col = cell_at df r col) /\
    get_unprocessed_employees R w' = (Ok (employees_of R df'), w').
Proof.
  intros Hfile Hwf Hok. rewrite reset_processed_flag_unfold, Hfile, Hok. cbv zeta.
  set (df1 := ensure_column "Is_Processed" (Val (VStr "No")) df).
  set (df' := set_column "Is_Processed" (Val (VStr "No")) df1).
  assert (Hwf1 : wf_frame df1) by now apply wf_ensure_column.
  assert (Hlen1 : length (rows df1) = length (rows df)) by apply length_rows_ensure_column.
  assert (Hlen : length (rows df') = length (rows df))
    by (unfold df'; now rewrite length_rows_set_column).
  assert (Hno : forall r, r < length (rows df) ->
            cell_at df' r "Is_Processed" = Some (Val (VStr "No"))).
  { intros r Hr. apply cell_at_set_column_eq; [exact Hwf1 | lia]. }
  eexists df', _. split; [rewrite Hlen; reflexivity|]. split; [reflexivity|].
  split; [now apply wf_set_column|]. split; [exact Hlen|]. split; [exact Hno|]. split.
  - intros r col Hne. unfold df'. rewrite cell_at_set_column_ne by (try assumption; congruence).
    unfold df1. destruct (get_loc col (columns df)) as [j|] eqn:Hj.
    + apply cell_at_ensure_column; [exact Hwf | eauto].
    + rewrite cell_at_ensure_column_absent, cell_at_absent; auto.
  - rewrite (get_unprocessed_employees_eq R _ df') by reflexivity. f_equal. f_equal.
    unfold employees_of.
    transitivity ((fun ir => {| row_id := Z.of_nat (fst ir);
                                data := row_dict R (columns df') (snd ir) |})
                    <$> imap pair (rows df')); [|now rewrite fmap_imap].
    f_equal. unfold unprocessed_rows.
    destruct (get_loc "Is_Processed" (columns df')) as [j|] eqn:Hj; [|reflexivity].
    apply filter_all. intros [r row] Hin. apply list_elem_of_In, elem_of_imap_pair in Hin.
    pose proof (Hno r) as Hc. unfold cell_at in Hc. rewrite Hj in Hc. simpl in Hc.
    rewrite Hin in Hc. simpl in Hc. simpl. rewrite Hc; [reflexivity|].
    apply lookup_lt_Some in Hin. lia.
Qed.

(** The loop of [update_experience_from_doj] on the rows it has not
    reached yet. *)
Lemma refresh_loop cols j e done todo n :
  foldl (refresh_row R E timestamp_date j e)
        ({| columns := cols; rows := done ++ todo |}, n)
        (seq (length done) (length todo))
  = ({| columns := cols; rows := done ++ (refreshed_row R E timestamp_date j e <$> todo) |},
     n + length (List.filter (fun row => bool_decide (is_Some (row !! j ≫= doj_date R timestamp_date)))
                             todo)).
Proof.
  revert done n. induction todo as [|row todo IH]; intros done n.
  - simpl. now rewrite Nat.add_0_r.
  - cbn [length seq foldl].
    assert (Hstep :
      refresh_row R E timestamp_date j e
        ({| columns := cols; rows := done ++ row :: todo |}, n) (length done)
      = ({| columns := cols;
            rows := (done ++ [refreshed_row R E timestamp_date j e row]) ++ todo |},
         n + (if bool_decide (is_Some (row !! j ≫= doj_date R timestamp_date))
              then 1 else 0))).
    { unfold refresh_row, refreshed_row. cbn [fst snd rows].
      rewrite list_lookup_middle by reflexivity. cbn [mbind option_bind].
      destruct (row !! j ≫= doj_date R timestamp_date) as [d|] eqn:Hd.
      - rewrite bool_decide_eq_true_2 by eauto. unfold iloc_set. cbn [columns rows].
        f_equal; [f_equal | lia].
        rewrite alter_app_r_alt by lia. rewrite Nat.sub_diag. simpl.
        now rewrite <- app_assoc.
      - rewrite bool_decide_eq_false_2 by (intros [? ?]; discriminate).
        rewrite Nat.add_0_r, <- app_assoc. reflexivity. }
    rewrite Hstep.
    replace (S (length done))
      with (length (done ++ [refreshed_row R E timestamp_date j e row]))
      by (rewrite length_app; simpl; lia).
    rewrite IH. f_equal.
    + f_equal. now rewrite <- app_assoc.
    + cbn [List.filter]. destruct (bool_decide _); simpl; lia.
Qed.

Lemma refresh_loop_whole j e df :
  foldl (refresh_row R E timestamp_date j e) (df, 0) (seq 0 (length (rows df)))
  = (refreshed R E timestamp_date j e df,
     length (List.filter (fun row => bool_decide (is_Some (row !! j ≫= doj_date R timestamp_date)))
                         (rows df))).
Proof. destruct df as [cols rws]. exact (refresh_loop cols j e [] rws 0). Qed.

Lemma get_loc_ensure_column_Some col c d df j :
  get_loc col (columns df) = Some j -> get_loc col (columns (ensure_column c d df)) = Some j.
Proof.
  intros Hj. unfold ensure_column. destruct (get_loc c (columns df)); [exact Hj|].
  simpl. now apply get_loc_app_Some.
Qed.

(** [update_experience_from_doj], step by step. *)
Lemma update_experience_unfold w :
  update_experience_from_doj R E C timestamp_date w =
    let w1 := backed_up E C w in
    match file w with
    | None => (StatusError, w1)
    | Some df =>
        let df1 := ensure_column "Experience_Years" (Val (VFloat (Fin (inject_Z 0)))) df in
        match get_loc "DOJ" (columns df), get_loc "Experience_Years" (columns df1) with
        | Some j, Some e =>
            if save_ok E (saves w)
            then (StatusSuccess
                    (length (List.filter
                               (fun row => bool_decide
                                  (is_Some (row !! j ≫= doj_date R timestamp_date)))
                               (rows df1))),
                  write_file (refreshed R E timestamp_date j e df1) (emit (EvSave true) w1))
            else (StatusError, emit (EvSave false) w1)
        | _, _ => (StatusError, w1)
        end
    end.
Proof.
  cbv zeta.
  unfold update_experience_from_doj, caught, bind, create_backup, read_excel, ret, to_excel,
    backed_up, saves.
  destruct (backup_enabled C); cbn [andb]; [destruct (backup_ok E _)|];
    cbn [file emit trace count_events is_save Nat.add];
    (destruct (file w) as [df|]; [|reflexivity]);
    (destruct (get_loc "DOJ" (columns df)) as [j|] eqn:Hj; [|reflexivity]);
    rewrite (get_loc_ensure_column_Some _ _ _ _ _ Hj);
    (destruct (get_loc "Experience_Years" _) as [e|]; [|reflexivity]);
    rewrite refresh_loop_whole; cbn [fst snd];
    destruct (save_ok E _); reflexivity.
Qed.

End Maintenance_properties.

Lemma cell_at_is_Some df r col :
  wf_frame df -> r < length (rows df) -> is_Some (get_loc col (columns df)) ->
  is_Some (cell_at df r col).
Proof.
  intros [_ Hlen] Hr [j Hj]. unfold cell_at. rewrite Hj. simpl.
  destruct (lookup_lt_is_Some_2 _ _ Hr) as [row Hrow]. rewrite Hrow. simpl.
  apply lookup_lt_is_Some_2. rewrite Forall_lookup in Hlen. rewrite (Hlen _ _ Hrow).
  eauto using get_loc_lt.
Qed.

Lemma filter_by_position {A} (p : A -> bool) (q : nat -> bool) (l : list A) a :
  (forall i x, l !! i = Some x -> p x = q (a + i)) ->
  length (List.filter p l) = length (List.filter q (seq a (length l))).
Proof.
  revert a. induction l as [|x l IH]; intros a H; [reflexivity|].
  cbn [List.filter length seq]. rewrite (H 0 x eq_refl), Nat.add_0_r.
  assert (Hrest : length (List.filter p l) = length (List.filter q (seq (S a) (length l)))).
  { apply IH. intros i y Hy. rewrite (H (S i) y Hy). f_equal. lia. }
  destruct (q a); simpl; now rewrite Hrest.
Qed.

Section Experience_tool.

Variable R : runtime.
Variable E : environment.
Variable C : config.
Variable timestamp_date : Z -> Z.

Lemma wf_refreshed j e df : wf_frame df -> wf_frame (refreshed R E timestamp_date j e df).
Proof.
  intros [Hnd Hlen]. split; [exact Hnd|]. simpl. apply Forall_fmap.
  eapply Forall_impl; [exact Hlen|]. intros row Hrow. simpl. unfold refreshed_row.
  destruct (row !! j ≫= doj_date R timestamp_date); [now rewrite length_insert | exact Hrow].
Qed.

Lemma length_rows_refreshed j e df :
  length (rows (refreshed R E timestamp_date j e df)) = length (rows df).
Proof. apply length_fmap. Qed.

Lemma cell_at_refreshed_other j e df r col :
  get_loc "Experience_Years" (columns df) = Some e -> col <> "Experience_Years" ->
  cell_at (refreshed R E timestamp_date j e df) r col = cell_at df r col.
Proof.
  intros He Hne. unfold cell_at. simpl.
  destruct (get_loc col (columns df)) as [j'|] eqn:Hj'; [|reflexivity]. simpl.
  rewrite list_lookup_fmap. destruct (rows df !! r) as [row|]; [|reflexivity]. simpl.
  unfold refreshed_row. destruct (row !! j ≫= doj_date R timestamp_date); [|reflexivity].
  apply list_lookup_insert_ne. intros <-.
  apply get_loc_lookup in He, Hj'. congruence.
Qed.

Lemma cell_at_refreshed_experience j e df r :
  wf_frame df -> get_loc "DOJ" (columns df) = Some j ->
  get_loc "Experience_Years" (columns df) = Some e ->
  cell_at (refreshed R E timestamp_date j e df) r "Experience_Years" =
    match joined_on R timestamp_date df r with
    | Some doj => Some (Val (VFloat (experience_years E doj)))
    | None => cell_at df r "Experience_Years"
    end.
Proof.
  intros [_ Hlen] Hj He. unfold joined_on, cell_at. simpl. rewrite Hj, He. simpl.
  rewrite list_lookup_fmap. destruct (rows df !! r) as [row|] eqn:Hrow; [|reflexivity]. simpl.
  unfold refreshed_row. destruct (row !! j ≫= doj_date R timestamp_date); [|reflexivity].
  apply list_lookup_insert_eq. rewrite Forall_lookup in Hlen. rewrite (Hlen _ _ Hrow).
  eauto using get_loc_lt.
Qed.

Lemma joined_on_ensure_column c d df r :
  wf_frame df -> is_Some (get_loc "DOJ" (columns df)) ->
  joined_on R timestamp_date (ensure_column c d df) r = joined_on R timestamp_date df r.
Proof. intros Hwf Hj. unfold joined_on. now rewrite cell_at_ensure_column. Qed.

Lemma dated_rows j df :
  get_loc "DOJ" (columns df) = Some j ->
  length (List.filter (fun row => bool_decide (is_Some (row !! j ≫= doj_date R timestamp_date)))
                      (rows df))
  = length (List.filter (fun r => bool_decide (is_Some (joined_on R timestamp_date df r)))
                        (seq 0 (length (rows df)))).
Proof.
  intros Hj. apply filter_by_position. intros i row Hrow. simpl.
  unfold joined_on, cell_at. rewrite Hj. simpl. now rewrite Hrow.
Qed.

(** What a successful [update_experience_from_doj] returns and writes. *)
Lemma update_experience_success w df :
  file w = Some df -> wf_frame df -> is_Some (get_loc "DOJ" (columns df)) ->
  save_ok E (saves w) = true ->
  let df1 := ensure_column "Experience_Years" (Val (VFloat (Fin (inject_Z 0)))) df in
  exists j e, get_loc "DOJ" (columns df1) = Some j /\
    get_loc "Experience_Years" (columns df1) = Some e /\
    update_experience_from_doj R E C timestamp_date w
    = (StatusSuccess
         (length (List.filter (fun r => bool_decide (is_Some (joined_on R timestamp_date df r)))
                              (seq 0 (length (rows df))))),
       write_file (refreshed R E timestamp_date j e df1)
         (emit (EvSave true) (backed_up E C w))).
Proof.
  intros Hf Hwf [j Hj] Hok df1. rewrite update_experience_unfold, Hf, Hj, Hok. cbv zeta.
  fold df1. destruct (ensure_column_has "Experience_Years" (Val (VFloat (Fin (inject_Z 0)))) df)
    as [e He]. fold df1 in He. rewrite He.
  assert (Hj1 : get_loc "DOJ" (columns df1) = Some j)
    by now apply get_loc_ensure_column_Some.
  exists j, e. split; [exact Hj1|]. split; [reflexivity|]. f_equal. f_equal.
  rewrite (dated_rows j df1 Hj1).
  replace (length (rows df1)) with (length (rows df))
    by (symmetry; apply length_rows_ensure_column).
  f_equal. apply filter_ext_in_iff. intros r _. unfold df1.
  rewrite joined_on_ensure_column; eauto.
Qed.

(** X11. A successful [update_experience_from_doj] recomputes the
    experience of every row that has a join date: the Experience_Years
    cell becomes [round((today - doj).days / 365.25, 1)] where the DOJ cell
    is a timestamp or a string the parser accepts, and stays what it was
    (0.0 in a column the tool had to create) where the DOJ cell is empty,
    unparseable or of another type. No other cell changes, and the number
    reported is the number of rows recomputed. *)
Theorem update_experience_recomputes_every_dated_row w df :
  file w = Some df -> wf_frame df -> is_Some (get_loc "DOJ" (columns df)) ->
  save_ok E (saves w) = true ->
  exists df' w',
    update_experience_from_doj R E C timestamp_date w
    = (StatusSuccess
         (length (List.filter (fun r => bool_decide (is_Some (joined_on R timestamp_date df r)))
                              (seq 0 (length (rows df))))), w') /\
    file w' = Some df' /\ wf_frame df' /\ length (rows df') = length (rows df) /\
    (forall r, r < length (rows df) ->
       cell_at df' r "Experience_Years" =
         match joined_on R timestamp_date df r with
         | Some doj => Some (Val (VFloat (experience_years E doj)))
         | None => Some (default (Val (VFloat (Fin (inject_Z 0))))
                                 (cell_at df r "Experience_Years"))
         end) /\
    (forall r col, col <> "Experience_Years" -> cell_at df' r col = cell_at df r col).
Proof.
  intros Hf Hwf Hdoj Hok.
  destruct (update_experience_success w df Hf Hwf Hdoj Hok) as (j & e & Hj & He & Hrun).
  set (df1 := ensure_column "Experience_Years" (Val (VFloat (Fin (inject_Z 0)))) df) in *.
  assert (Hwf1 : wf_frame df1) by now apply wf_ensure_column.
  eexists _, _. split; [exact Hrun|]. split; [reflexivity|].
  split; [now apply wf_refreshed|].
  split; [rewrite length_rows_refreshed; apply length_rows_ensure_column|]. split.
  - intros r Hr. rewrite cell_at_refreshed_experience by assumption.
    unfold df1 at 1. rewrite joined_on_ensure_column by assumption.
    destruct (joined_on R timestamp_date df r); [reflexivity|].
    destruct (get_loc "Experience_Years" (columns df)) as [e0|] eqn:He0.
    + unfold df1. rewrite cell_at_ensure_column by eauto.
      destruct (cell_at_is_Some df r "Experience_Years" Hwf Hr) as [c ->]; eauto.
    + unfold df1. rewrite cell_at_ensure_column_new by assumption.
      now rewrite (cell_at_absent df r _ He0).
  - intros r col Hne. rewrite cell_at_refreshed_other by assumption.
    unfold df1. destruct (get_loc col (columns df)) as [j'|] eqn:Hj'.
    + apply cell_at_ensure_column; eauto.
    + rewrite cell_at_ensure_column_absent, cell_at_absent; auto.
Qed.

Lemma refreshed_row_idem j e row :
  j <> e ->
  refreshed_row R E timestamp_date j e (refreshed_row R E timestamp_date j e row)
  = refreshed_row R E timestamp_date j e row.
Proof.
  intros Hne. unfold refreshed_row.
  destruct (row !! j ≫= doj_date R timestamp_date) as [d|] eqn:Hd; [|now rewrite Hd].
  rewrite list_lookup_insert_ne by congruence. rewrite Hd. apply list_insert_insert_eq.
Qed.

Lemma refreshed_row_date j e row :
  j <> e ->
  refreshed_row R E timestamp_date j e row !! j = row !! j.
Proof.
  intros Hne. unfold refreshed_row.
  destruct (row !! j ≫= doj_date R timestamp_date); [|reflexivity].
  apply list_lookup_insert_ne. congruence.
Qed.

(** X12. [update_experience_from_doj] is idempotent on a given day: a
    second run right after a successful one reports the same number of
    rows and leaves the workbook as the first run left it. *)
Theorem update_experience_twice_is_once w df n w' :
  file w = Some df -> wf_frame df ->
  update_experience_from_doj R E C timestamp_date w = (StatusSuccess n, w') ->
  save_ok E (saves w') = true ->
  exists w'', update_experience_from_doj R E C timestamp_date w' = (StatusSuccess n, w'') /\
    file w'' = file w'.
Proof.
  intros Hf Hwf Hrun Hok'.
  rewrite update_experience_unfold, Hf in Hrun. cbv zeta in Hrun.
  set (df1 := ensure_column "Experience_Years" (Val (VFloat (Fin (inject_Z 0)))) df) in *.
  destruct (get_loc "DOJ" (columns df)) as [j|] eqn:Hj; [|discriminate].
  destruct (get_loc "Experience_Years" (columns df1)) as [e|] eqn:He; [|discriminate].
  destruct (save_ok E (saves w)); [|discriminate].
  injection Hrun as <- <-.
  assert (Hj1 : get_loc "DOJ" (columns df1) = Some j)
    by now apply get_loc_ensure_column_Some.
  assert (Hne : j <> e) by (eapply get_loc_distinct; [|exact Hj1|exact He]; discriminate).
  rewrite update_experience_unfold. cbn [file write_file]. cbv zeta.
  rewrite (ensure_column_present "Experience_Years" _ (refreshed R E timestamp_date j e df1))
    by (simpl; eauto).
  cbn [columns refreshed]. rewrite Hj1, He, Hok'.
  match goal with |- exists w'', (_, ?wx) = _ /\ _ => exists wx end.
  split.
  - f_equal. f_equal. unfold refreshed. cbn [rows]. clear -Hne.
    induction (rows df1) as [|row l IH]; [reflexivity|].
    cbn [fmap list_fmap List.filter]. fold (fmap (refreshed_row R E timestamp_date j e) l).
    rewrite (refreshed_row_date j e row Hne).
    destruct (bool_decide _); simpl; now rewrite IH.
  - cbn [file write_file]. f_equal. unfold refreshed. cbn [columns rows].
    f_equal. rewrite <- list_fmap_compose. apply list_fmap_ext. intros i row _.
    simpl. now apply refreshed_row_idem.
Qed.

(** X13. The tool and the agent compute the same experience. Where the
    agent derives an experience from the join date of a fetched record,
    [update_experience_from_doj] writes that very number into the row,
    given that the printed form of a timestamp parses back to its date. The
    tool writes it also when it is 0.0, the value the write loop of
    [update_employee_row] passes over. *)
Theorem update_experience_agrees_with_the_agent w df r item x :
  file w = Some df -> wf_frame df -> save_ok E (saves w) = true ->
  (forall t, to_datetime_date R (isoformat R t) = Some (timestamp_date t)) ->
  employees_of R df !! r = Some item ->
  calculated_experience R E (dget "DOJ" VNone (data item)) = Some x ->
  exists n w' df',
    update_experience_from_doj R E C timestamp_date w = (StatusSuccess n, w') /\
    file w' = Some df' /\
    cell_at df' r "Experience_Years" = Some (Val (VFloat x)).
Proof.
  intros Hf Hwf Hok Hiso Hitem Hcalc.
  apply calculated_experience_Some in Hcalc as (s & d & Hdoj & Hs & Hparse & ->).
  rewrite (data_field R df r item "DOJ" Hitem) in Hdoj. unfold field in Hdoj.
  destruct (cell_at df r "DOJ") as [c|] eqn:Hc; [|discriminate].
  assert (Hcol : is_Some (get_loc "DOJ" (columns df))).
  { unfold cell_at in Hc. destruct (get_loc "DOJ" (columns df)); [eauto | discriminate]. }
  assert (Hjoined : joined_on R timestamp_date df r = Some d).
  { unfold joined_on. rewrite Hc. simpl. destruct c as [v|t]; simpl in Hdoj |- *.
    - destruct (isna v); [discriminate|]. subst v. exact Hparse.
    - injection Hdoj as <-. rewrite Hiso in Hparse. exact Hparse. }
  destruct (update_experience_success w df Hf Hwf Hcol Hok) as (j & e & Hj & He & Hrun).
  eexists _, _, _. split; [exact Hrun|]. split; [reflexivity|].
  rewrite cell_at_refreshed_experience;
    [| now apply wf_ensure_column | exact Hj | exact He].
  rewrite joined_on_ensure_column by assumption. now rewrite Hjoined.
Qed.

(** X14. The two maintenance tools report their failures instead of
    raising, and a reported failure means that the workbook is what it was.
    [reset_processed_flag_for_reprocessing] reports an error exactly when
    the workbook cannot be read or the save fails;
    [update_experience_from_doj] also when there is no DOJ column, and then
    it has not tried to save. *)
Theorem maintenance_tools_report_their_errors w :
  (fst (reset_processed_flag_for_reprocessing E C w) = StatusError <->
   file w = None \/ save_ok E (saves w) = false) /\
  (fst (update_experience_from_doj R E C timestamp_date w) = StatusError <->
   file w = None \/ (exists df, file w = Some df /\ get_loc "DOJ" (columns df) = None) \/
   save_ok E (saves w) = false) /\
  (fst (reset_processed_flag_for_reprocessing E C w) = StatusError ->
   file (snd (reset_processed_flag_for_reprocessing E C w)) = file w) /\
  (fst (update_experience_from_doj R E C timestamp_date w) = StatusError ->
   file (snd (update_experience_from_doj R E C timestamp_date w)) = file w) /\
  (forall df, file w = Some df -> get_loc "DOJ" (columns df) = None ->
   saves (snd (update_experience_from_doj R E C timestamp_date w)) = saves w).
Proof.
  rewrite reset_processed_flag_unfold, update_experience_unfold. cbv zeta.
  pose proof (file_backup E C w) as Hfb. pose proof (saves_backup E C w) as Hsb.
  set (w1 := backed_up E C w) in *.
  destruct (file w) as [df|] eqn:Hf.
  2:{ cbn [fst snd]. repeat apply conj; try tauto; try (intros; exact Hfb); intros; discriminate. }
  destruct (ensure_column_has "Experience_Years" (Val (VFloat (Fin (inject_Z 0)))) df)
    as [e He]. rewrite He.
  destruct (get_loc "DOJ" (columns df)) as [j|] eqn:Hj;
    destruct (save_ok E (saves w)) eqn:Hok; cbn [fst snd file emit write_file];
    rewrite ?Hfb, ?Hf; repeat apply conj;
    solve [ intros [?|?]; congruence
          | intros [?|[(?&?&?)|?]]; congruence
          | intros; congruence
          | intros; reflexivity
          | intros _; right; reflexivity
          | intros _; right; right; reflexivity
          | intros _; right; left; eauto ].
Qed.

End Experience_tool.

(** ** The code fence *)

Lemma list_ascii_of_string_app a b :
  list_ascii_of_string (a +:+ b) = list_ascii_of_string a ++ list_ascii_of_string b.
Proof. induction a as [|c a IH]; simpl; [reflexivity | now rewrite IH]. Qed.

Lemma string_of_list_ascii_app x y :
  string_of_list_ascii (x ++ y) = string_of_list_ascii x +:+ string_of_list_ascii y.
Proof. induction x as [|c x IH]; simpl; [reflexivity | now rewrite IH]. Qed.

Lemma str_rev_app a b : str_rev (a +:+ b) = str_rev b +:+ str_rev a.
Proof.
  unfold str_rev. now rewrite list_ascii_of_string_app, rev_app_distr, string_of_list_ascii_app.
Qed.

Lemma str_rev_involutive s : str_rev (str_rev s) = s.
Proof.
  unfold str_rev.
  now rewrite list_ascii_of_string_of_list_ascii, rev_involutive, string_of_list_ascii_of_string.
Qed.

Lemma endswith_fence body : endswith "```" (body +:+ "```") = true.
Proof. unfold endswith. rewrite str_rev_app. reflexivity. Qed.

Lemma str_drop_end_fence body : str_drop_end 3 (body +:+ "```") = body.
Proof. unfold str_drop_end. rewrite str_rev_app. simpl. apply str_rev_involutive. Qed.

Lemma startswith_json_fence body :
  startswith "json" body = false -> startswith "json" (body +:+ "```") = false.
Proof.
  destruct body as [|a [|b [|c [|d rest]]]]; simpl; auto.
Qed.

Lemma json_fence_open x :
  startswith "```json" ("```json" +:+ x) = true /\ str_drop 7 ("```json" +:+ x) = x.
Proof. split; reflexivity. Qed.

Lemma plain_fence_open x :
  startswith "```json" ("```" +:+ x) = startswith "json" x /\
  startswith "```" ("```" +:+ x) = true /\ str_drop 3 ("```" +:+ x) = x.
Proof. repeat split; reflexivity. Qed.

Lemma no_fence_no_json_fence s :
  startswith "```" s = false -> startswith "```json" s = false.
Proof.
  destruct s as [|a s]; [reflexivity|]. cbn [startswith].
  destruct (Ascii.eqb "`" a); [|reflexivity].
  destruct s as [|b s]; [reflexivity|]. destruct (Ascii.eqb "`" b); [|reflexivity].
  destruct s as [|c s]; [reflexivity|]. destruct (Ascii.eqb "`" c); [discriminate | reflexivity].
Qed.

(** X15. [strip_code_fence] removes one markdown fence around the answer.
    An answer that is, after trimming, [```json], a body and [```] gives
    the trimmed body, and so does one fenced with plain [```]; a fence that
    is opened and never closed is removed as well; an answer that neither
    starts nor ends with a fence is only trimmed. *)
Theorem strip_code_fence_removes_one_fence content body :
  (strip content = "```json" +:+ body +:+ "```" -> strip_code_fence content = strip body) /\
  (strip content = "```" +:+ body +:+ "```" -> startswith "json" body = false ->
   strip_code_fence content = strip body) /\
  (strip content = "```json" +:+ body -> endswith "```" body = false ->
   strip_code_fence content = strip body) /\
  (startswith "```" (strip content) = false -> endswith "```" (strip content) = false ->
   strip_code_fence content = strip content).
Proof.
  unfold strip_code_fence. repeat apply conj.
  - intros ->. destruct (json_fence_open (body +:+ "```")) as [-> ->].
    now rewrite endswith_fence, str_drop_end_fence.
  - intros -> Hjson. apply startswith_json_fence in Hjson.
    destruct (plain_fence_open (body +:+ "```")) as (-> & -> & ->).
    now rewrite Hjson, endswith_fence, str_drop_end_fence.
  - intros -> Hend. destruct (json_fence_open body) as [-> ->]. now rewrite Hend.
  - intros Hstart Hend.
    rewrite (no_fence_no_json_fence _ Hstart), Hstart, Hend. apply strip_idem.
Qed.

(** ** More on the oracle client *)

Section Oracle_more.

Variable R : runtime.
Variable E : environment.
Variable C : config.


Lemma pow2_ge_2 n : 2 <= 2 ^ S n.
Proof.
  rewrite Nat.pow_succ_r'. pose proof (Nat.pow_nonzero 2 n ltac:(lia)). lia.
Qed.

Lemma llm_decide_negative_delay_requests row k w :
  (retry_delay C < 0)%Z ->
  requests (snd (llm_decide R E C row k w)) = S (requests w) /\
  sleeps (snd (llm_decide R E C row k w)) = sleeps w.
Proof.
  intros Hneg. rewrite (llm_decide_negative_delay _ _ _ _ _ _ Hneg). cbv zeta.
  destruct (nth_attempt R E (requests w)); [|destruct (lt_dec k (max_retries C))..];
    split; reflexivity.
Qed.

Lemma llm_decide_bounds row k w r w' :
  llm_decide R E C row k w = (r, w') ->
  requests w' + 1 <= requests w + 2 ^ S (max_retries C - k) /\
  ((0 <= retry_delay C)%Z ->
   forall e, r = Raise e -> requests w + S (max_retries C - k) <= requests w').
Proof.
  destruct (Z.lt_ge_cases (retry_delay C) 0) as [Hneg|Hpos].
  { intros Hrun. destruct (llm_decide_negative_delay_requests row k w Hneg) as [Hr _].
    rewrite Hrun in Hr. cbn [snd] in Hr. pose proof (pow2_ge_2 (max_retries C - k)).
    split; lia. }
  remember (max_retries C - k) as n eqn:Hn.
  revert k w r w' Hn. induction n as [|n IH]; intros k w r w' Hn;
    rewrite llm_decide_step by exact Hpos; cbv zeta;
    destruct (lt_dec k (max_retries C)) as [Hk|Hk]; try lia.
  - destruct (nth_attempt R E (requests w)); intros [= <- <-];
      rewrite requests_emit_request; simpl; split; try lia; intros; lia.
  - assert (Hn' : n = max_retries C - S k) by lia.
    pose proof (pow2_ge_2 n) as Hp. rewrite (Nat.pow_succ_r' 2 (S n)).
    destruct (nth_attempt R E (requests w)).
    + intros [= <- <-]. rewrite requests_emit_request. split; [lia | discriminate].
    + destruct (llm_decide R E C row (S k) _) as [[d|e2] w2] eqn:H2;
        apply (IH _ _ _ _ Hn') in H2 as [Hup Hlow]; specialize (Hlow Hpos);
        rewrite requests_sleep, requests_emit_request in Hup, Hlow.
      * intros [= <- <-]. split; [lia | discriminate].
      * specialize (Hlow e2 eq_refl). intros H3.
        apply (IH _ _ _ _ Hn') in H3 as [Hup3 Hlow3]. specialize (Hlow3 Hpos).
        rewrite requests_sleep in Hup3, Hlow3.
        split; [lia|]. intros _ e ->. specialize (Hlow3 e eq_refl). lia.
    + intros H2. apply (IH _ _ _ _ Hn') in H2 as [Hup Hlow]. specialize (Hlow Hpos).
      rewrite requests_sleep, requests_emit_request in Hup, Hlow.
      split; [lia|]. intros _ e ->. specialize (Hlow e eq_refl). lia.
Qed.



End Oracle_more.

(** ** The configuration *)

Lemma yget_yset_eq k v d : yget k (yset k v d) = Some v.
Proof.
  induction d as [|[k' v'] d IH]; simpl.
  - now rewrite String.eqb_refl.
  - destruct (String.eqb_spec k k') as [->|Hne]; simpl.
    + now rewrite String.eqb_refl.
    + destruct (String.eqb_spec k k'); [contradiction | exact IH].
Qed.

Lemma yget_yset_ne k k' v d : k <> k' -> yget k' (yset k v d) = yget k' d.
Proof.
  intros Hne. induction d as [|[k0 v0] d IH]; simpl.
  - destruct (String.eqb_spec k' k); [congruence | reflexivity].
  - destruct (String.eqb_spec k k0) as [->|Hk]; simpl.
    + destruct (String.eqb_spec k' k0); [congruence | reflexivity].
    + destruct (String.eqb_spec k' k0); [reflexivity | exact IH].
Qed.

Lemma yget_notin k d : k ∉ (fst <$> d) -> yget k d = None.
Proof.
  induction d as [|[k' v] d IH]; simpl; [reflexivity|]. intros Hn.
  destruct (String.eqb_spec k k') as [->|Hne]; [exfalso; apply Hn; left|].
  apply IH. intros Hin. apply Hn. now right.
Qed.

(** The branch of [merged] for two mappings is [_merge_dicts]. *)
Lemma merged_dicts base override :
  merged (Some (YDict base)) (YDict override) = YDict (_merge_dicts base override).
Proof.
  unfold _merge_dicts. cbn [merged]. f_equal. revert base.
  induction override as [|[key value] items IH]; intros base; [reflexivity|].
  cbn [foldl fst snd]. apply IH.
Qed.

Lemma merge_dicts_lookup base override k :
  NoDup (fst <$> override) ->
  yget k (_merge_dicts base override) =
    match yget k override with
    | Some value => Some (merged (yget k base) value)
    | None => yget k base
    end.
Proof.
  unfold _merge_dicts. revert base.
  induction override as [|[key value] items IH]; intros base Hnd; [reflexivity|].
  cbn [foldl fst snd fmap list_fmap] in *. inversion Hnd as [|? ? Hnotin Hnd']; subst.
  rewrite (IH _ Hnd'). cbn [yget].
  destruct (String.eqb_spec k key) as [->|Hne].
  - rewrite (yget_notin _ _ Hnotin). apply yget_yset_eq.
  - rewrite yget_yset_ne by congruence. reflexivity.
Qed.

(** X18. Looking a key up in [_merge_dicts(base, override)]. A key the
    override does not have keeps the value of the base; a key it has holds
    the value of the override, except that two mappings under the same key
    are merged in the same way, one level down. *)
Theorem merge_dicts_prefers_the_override base override k :
  NoDup (fst <$> override) ->
  yget k (_merge_dicts base override) =
    match yget k override with
    | None => yget k base
    | Some (YDict o) =>
        match yget k base with
        | Some (YDict b) => Some (YDict (_merge_dicts b o))
        | _ => Some (YDict o)
        end
    | Some value => Some value
    end.
Proof.
  intros Hnd. rewrite (merge_dicts_lookup _ _ _ Hnd).
  destruct (yget k override) as [[v|items|o]|]; try reflexivity;
    destruct (yget k base) as [[v'|items'|b]|]; try reflexivity.
  now rewrite merged_dicts.
Qed.

Lemma setting_merge base override section key default entries :
  NoDup (fst <$> override) ->
  yget section base = Some (YDict entries) ->
  (yget section override = None \/
   exists o, yget section override = Some (YDict o) /\ NoDup (fst <$> o) /\ yget key o = None) ->
  setting section key default (_merge_dicts base override)
  = setting section key default base.
Proof.
  intros Hnd Hbase Hfile. unfold setting. rewrite (merge_dicts_lookup _ _ _ Hnd), Hbase.
  destruct Hfile as [->|(o & -> & Hndo & Hkey)]; [reflexivity|].
  rewrite merged_dicts, (merge_dicts_lookup _ _ _ Hndo), Hkey. reflexivity.
Qed.

(** X19. A configuration file that leaves a setting alone leaves its
    default in force. If the file is a mapping that does not have the
    section, or has it as a mapping without the key, then the
    configuration [load_config] returns holds the default value of
    [section.key], whatever else the file sets and whatever the
    environment overrides ([OPENAI_MODEL] replaces [openai.model] only). So
    a file that sets only the model keeps [max_retries] 3, [retry_delay] 2
    and [backup_before_update] True. *)
Theorem untouched_setting_keeps_its_default override env section key entries v default config :
  NoDup (fst <$> override) ->
  yget section default_config_dict = Some (YDict entries) -> yget key entries = Some v ->
  (yget section override = None \/
   exists o, yget section override = Some (YDict o) /\ NoDup (fst <$> o) /\ yget key o = None) ->
  (section = "openai" -> key <> "model") ->
  load_config (Loaded (YDict override)) env = Some config ->
  setting section key default config = Some v.
Proof.
  intros Hnd Hsec Hkey Hfile Hmodel Hload.
  assert (Hdefault : setting section key default default_config_dict = Some v)
    by (unfold setting; now rewrite Hsec, Hkey).
  assert (Hmerged : setting section key default
                      (if yaml_truthy (YDict override)
                       then _merge_dicts default_config_dict override
                       else _merge_dicts default_config_dict []) = Some v).
  { destruct (yaml_truthy (YDict override)); [|exact Hdefault].
    now rewrite (setting_merge _ _ _ _ _ entries Hnd Hsec Hfile). }
  assert (Hne : section <> "excel_path").
  { intros ->. unfold default_config_dict in Hsec. simpl in Hsec. discriminate. }
  unfold load_config in Hload. cbv zeta in Hload.
  set (config0 := match (if yaml_truthy (YDict override) then YDict override else YDict []) with
                  | YDict o => _merge_dicts default_config_dict o
                  | _ => default_config_dict
                  end) in Hload.
  assert (H0 : setting section key default config0 = Some v).
  { unfold config0. destruct (yaml_truthy (YDict override)); exact Hmerged. }
  set (config1 := match env_set (EXCEL_PATH env) with
                  | Some path => yset "excel_path" (YScalar (VStr path)) config0
                  | None => config0
                  end) in Hload.
  assert (H1 : setting section key default config1 = Some v).
  { unfold config1. destruct (env_set (EXCEL_PATH env)); [|exact H0].
    unfold setting. rewrite yget_yset_ne by congruence. exact H0. }
  destruct (env_set (OPENAI_MODEL env)) as [model|]; [|now injection Hload as <-].
  destruct (yget "openai" config1) as [[| |openai]|] eqn:Hopenai; try discriminate.
  injection Hload as <-. unfold setting in *.
  destruct (String.eqb_spec section "openai") as [->|Hs].
  - rewrite yget_yset_eq. rewrite Hopenai in H1.
    rewrite yget_yset_ne by (intros Heq; now apply (Hmodel eq_refl)). exact H1.
  - rewrite yget_yset_ne by congruence. exact H1.
Qed.

(** X20. When [load_config] falls back and when it raises. A file that
    is missing, cannot be loaded, or holds anything but a mapping with at
    least one key is ignored: the result is the one for no file at all, and
    without environment overrides that is the table of defaults.
    [load_config] raises only when [OPENAI_MODEL] is set and the file has
    put something that is no mapping under [openai]. *)
Theorem load_config_falls_back_to_the_defaults :
  (forall file env,
     match file with Loaded (YDict (_ :: _)) => False | _ => True end ->
     load_config file env = load_config NoFile env) /\
  load_config NoFile {| EXCEL_PATH := None; OPENAI_MODEL := None |} = Some default_config_dict /\
  (forall file env, env_set (OPENAI_MODEL env) = None -> load_config file env <> None) /\
  (forall override env, NoDup (fst <$> override) ->
     (load_config (Loaded (YDict override)) env = None <->
      env_set (OPENAI_MODEL env) <> None /\
      exists value, yget "openai" override = Some value /\ forall o, value <> YDict o)).
Proof.
  repeat apply conj.
  - intros file env Hfile. unfold load_config.
    destruct file as [| |[v|items|[|entry entries]]]; try reflexivity; try contradiction;
      cbn [yaml_truthy]; try (destruct (truthy v)); try (destruct items); reflexivity.
  - reflexivity.
  - intros file env Henv. unfold load_config. cbv zeta. now rewrite Henv.
  - intros override env Hnd. unfold load_config. cbv zeta.
    set (config0 := match (if yaml_truthy (YDict override) then YDict override else YDict []) with
                    | YDict o => _merge_dicts default_config_dict o
                    | _ => default_config_dict
                    end).
    assert (H0 : yget "openai" config0 =
                 match yget "openai" override with
                 | Some value => Some (merged (yget "openai" default_config_dict) value)
                 | None => yget "openai" default_config_dict
                 end).
    { unfold config0. destruct override as [|entry entries]; [reflexivity|].
      cbn [yaml_truthy]. now apply merge_dicts_lookup. }
    set (config1 := match env_set (EXCEL_PATH env) with
                    | Some path => yset "excel_path" (YScalar (VStr path)) config0
                    | None => config0
                    end).
    assert (H1 : yget "openai" config1 = yget "openai" config0).
    { unfold config1. destruct (env_set (EXCEL_PATH env)); [|reflexivity].
      now rewrite yget_yset_ne by discriminate. }
    rewrite H1, H0. clear H0 H1.
    destruct (env_set (OPENAI_MODEL env)) as [model|].
    + destruct (yget "openai" override) as [[v|items|o]|]; cbn [merged yget default_config_dict];
        simpl; split; try discriminate;
        try (intros _; split; [discriminate|]; eexists; split; [reflexivity | discriminate]);
        try (intros [_ (value & [= <-] & Hv)]; now destruct (Hv o));
        try (intros [_ (value & ? & _)]; discriminate); try reflexivity.
    + split; [discriminate | intros [H _]; congruence].
Qed.

(** ** The summary and the writes *)

Section Run_more.

Variable R : runtime.
Variable E : environment.
Variable C : config.

Lemma llm_decide_quiet (p : event -> bool) row k w r w' :
  (forall d, p (EvRequest d) = false) -> (forall s, p (EvSleep s) = false) ->
  llm_decide R E C row k w = (r, w') ->
  count_events p (trace w') = count_events p (trace w).
Proof.
  intros Hreq Hsleep. destruct (Z.lt_ge_cases (retry_delay C) 0) as [Hneg|Hpos].
  { rewrite (llm_decide_negative_delay _ _ _ _ _ _ Hneg). cbv zeta.
    destruct (nth_attempt R E (requests w)); [|destruct (lt_dec k (max_retries C))..];
      intros [= _ <-]; simpl; now rewrite Hreq. }
  remember (max_retries C - k) as n eqn:Hn.
  revert k w r w' Hn. induction n as [n IH] using lt_wf_ind. intros k w r w' Hn.
  rewrite llm_decide_step by exact Hpos. cbv zeta.
  assert (Hfirst : count_events p (trace (emit (EvRequest row) w)) = count_events p (trace w))
    by (simpl; now rewrite Hreq).
  assert (Hretry : forall w2 r2 w3, k < max_retries C ->
            count_events p (trace w2) = count_events p (trace w) ->
            llm_decide R E C row (S k) (slept (retry_delay C) w2) = (r2, w3) ->
            count_events p (trace w3) = count_events p (trace w)).
  { intros w2 r2 w3 Hk Hw2 H2.
    rewrite (IH (max_retries C - S k) ltac:(lia) _ _ _ _ eq_refl H2).
    simpl. now rewrite Hsleep. }
  destruct (nth_attempt R E (requests w)).
  - now intros [= _ <-].
  - destruct (lt_dec k (max_retries C)) as [Hk|Hk]; [|now intros [= _ <-]].
    destruct (llm_decide R E C row (S k) _) as [[d|e] w2] eqn:H2.
    + intros [= _ <-]. eauto.
    + intros H3. eapply Hretry; [exact Hk | | exact H3]. eauto.
  - destruct (lt_dec k (max_retries C)) as [Hk|Hk]; [|now intros [= _ <-]].
    intros H2. eauto.
Qed.

Lemma update_employee_row_written row updates reason confidence w r w' :
  update_employee_row R E C row updates reason confidence w = (r, w') ->
  match r with
  | Ok _ => written w' = S (written w)
  | Raise _ => written w' = written w /\ file w' = file w
  end.
Proof.
  rewrite update_employee_row_unfold. cbv zeta.
  set (w1 := backed_up E C w).
  assert (Hb : written w1 = written w /\ file w1 = file w)
    by (split; [now apply count_backed_up | apply file_backed_up]).
  destruct (file w) as [df|] eqn:Hf; [|intros [= <- <-]; exact Hb].
  destruct ((row <? 0)%Z || (Z.of_nat (length (rows df)) <=? row)%Z);
    [intros [= <- <-]; exact Hb|].
  destruct (validate_updates R updates); [intros [= <- <-]; exact Hb|].
  unfold to_excel. destruct Hb as [Hb Hfb].
  destruct (save_ok E _); intros [= <- <-]; unfold written in *; simpl.
  - now rewrite Hb.
  - now split.
Qed.

Lemma process_row_effect item w o w' :
  process_row R E C item w = (o, w') ->
  match o with
  | Ok Updated => written w' = S (written w)
  | _ => written w' = written w /\ file w' = file w
  end.
Proof.
  rewrite process_row_unfold.
  destruct (llm_decide R E C _ 0 w) as [r1 w1] eqn:Hllm.
  pose proof (llm_decide_oracle_only R E C _ _ _ _ _ Hllm) as (Hfile & _ & _).
  assert (Hw : written w1 = written w)
    by (apply (llm_decide_quiet is_written _ _ _ _ _ ltac:(reflexivity) ltac:(reflexivity) Hllm)).
  destruct r1 as [[d|]|e]; try (intros [= <- <-]; now split).
  cbv zeta. destruct (negb _ && _); [intros [= <- <-]; now split|].
  destruct (py_float R _) as [confidence|]; [|intros [= <- <-]; now split].
  rewrite apply_employee_update_unfold. cbv zeta.
  destruct (transport_ok E _); [|intros [= <- <-]; now split].
  destruct (update_employee_row R E C _ _ _ _ _) as [[u|e] w2] eqn:Hup;
    apply update_employee_row_written in Hup; intros [= <- <-].
  - rewrite Hup. unfold written. simpl. fold (written w1). now rewrite Hw.
  - destruct Hup as [Hw2 Hf2]. unfold written in *. simpl in *. split; congruence.
Qed.

Lemma success_count_row o st :
  success (count_row o st) = success st + match o with Ok Updated => 1 | _ => 0 end.
Proof. destruct o as [[]|e]; simpl; lia. Qed.

Lemma process_all_effect employees st w :
  let st' := fst (process_all R E C employees (st, w)) in
  let w' := snd (process_all R E C employees (st, w)) in
  written w' + success st = written w + success st' /\
  success st <= success st' /\
  (success st' = success st -> file w' = file w).
Proof.
  revert st w. induction employees as [|item rest IH]; intros st w; cbn [process_all]; [auto|].
  rewrite process_employee_eq.
  destruct (process_row R E C item w) as [o w1] eqn:Hrow.
  apply process_row_effect in Hrow.
  destruct (IH (count_row o st) w1) as (Hw & Hle & Hf). cbv zeta.
  pose proof (success_count_row o st) as Hs.
  destruct o as [[]|e]; cbn [count_row] in *.
  - split; [lia|]. split; [lia|]. intros Heq. exfalso. lia.
  - destruct Hrow as [Hw1 Hf1]. split; [lia|]. split; [lia|].
    intros Heq. rewrite <- Hf1. apply Hf. lia.
  - destruct Hrow as [Hw1 Hf1]. split; [lia|]. split; [lia|].
    intros Heq. rewrite <- Hf1. apply Hf. lia.
  - destruct Hrow as [Hw1 Hf1]. split; [lia|]. split; [lia|].
    intros Heq. rewrite <- Hf1. apply Hf. lia.
Qed.

Lemma agent_body_effect w :
  let '(_, st, w1) := agent_body R E C w in
  written w1 = written w + success st /\ (success st = 0 -> file w1 = file w).
Proof.
  unfold agent_body. rewrite open_session_eq. cbv zeta.
  destruct (transport_ok E (round_trips w)); [|simpl; split; [unfold written; simpl; lia | auto]].
  destruct (transport_ok E (S (round_trips w)));
    [|simpl; split; [unfold written; simpl; lia | auto]].
  set (w2 := emit (EvRoundTrip "list_tools") (emit (EvRoundTrip "initialize") w)).
  assert (H2 : written w2 = written w /\ file w2 = file w) by (split; reflexivity).
  unfold fetch_all_employees, round_trip. cbv zeta.
  destruct (transport_ok E _); [|simpl; split; [unfold written in *; simpl; lia | auto]].
  unfold get_all_employees, bind, read_excel, ret. cbn [file emit].
  set (w3 := emit (EvRoundTrip "fetch_all_employees") w2).
  assert (H3 : written w3 = written w /\ file w3 = file w) by (split; reflexivity).
  destruct (file w2) as [df|].
  - destruct (total _ =? 0)%nat; [simpl; split; [lia | tauto]|].
    destruct (process_all R E C (employees_of R df) _) as [st' w'] eqn:Hall.
    pose proof (process_all_effect (employees_of R df)
                  (set_total (length (employees_of R df)) initial_stats) w3) as (Hw & _ & Hf).
    rewrite Hall in Hw, Hf. simpl in Hw, Hf. destruct H3 as [Hw3 Hf3].
    split; [lia|]. intros Hz. rewrite <- Hf3. apply Hf. lia.
  - simpl. split; [lia | tauto].
Qed.

(** X21. The success count of the summary is the number of times the
    workbook was written. Whether [run_agent] returns or raises, the
    summary it prints last reports as [success] exactly the saves that
    succeeded during the run; and a run that reports no success leaves
    the workbook as it found it. *)
Theorem success_count_is_the_number_of_writes w :
  exists st elapsed t,
    trace (snd (run_agent R E C w)) = EvSummary st elapsed :: t /\
    written (snd (run_agent R E C w)) = written w + success st /\
    (success st = 0 -> file (snd (run_agent R E C w)) = file w).
Proof.
  rewrite run_agent_unfold. cbv zeta. pose proof (agent_body_effect w) as Hbody.
  destruct (agent_body R E C w) as [[[u|e] st] w1]; destruct Hbody as [Hw Hf];
    eexists st, _, _; (split; [reflexivity|]); split; auto.
Qed.

End Run_more.

(** ** What a run costs *)

Section Run_cost.

Variable R : runtime.
Variable E : environment.
Variable C : config.

Lemma update_employee_row_counts row updates reason confidence w :
  let w' := snd (update_employee_row R E C row updates reason confidence w) in
  requests w' = requests w /\ round_trips w' = round_trips w /\ saves w' <= S (saves w).
Proof.
  cbv zeta. rewrite update_employee_row_unfold. cbv zeta.
  set (w1 := backed_up E C w).
  assert (H1 : requests w1 = requests w /\ round_trips w1 = round_trips w /\ saves w1 = saves w)
    by (repeat split; now apply count_backed_up).
  destruct H1 as (Hr & Ht & Hs).
  destruct (file w) as [df|]; [|simpl; lia].
  destruct ((row <? 0)%Z || (Z.of_nat (length (rows df)) <=? row)%Z); [simpl; lia|].
  destruct (validate_updates R updates); [simpl; lia|].
  unfold to_excel. destruct (save_ok E _); unfold requests, round_trips, saves in *; simpl; lia.
Qed.

Lemma process_row_cost item w :
  let w' := snd (process_row R E C item w) in
  requests w + 1 <= requests w' /\ requests w' + 1 <= requests w + 2 ^ S (max_retries C) /\
  round_trips w' <= S (round_trips w) /\ saves w' <= S (saves w).
Proof.
  cbv zeta. rewrite process_row_unfold.
  destruct (llm_decide R E C _ 0 w) as [r1 w1] eqn:Hllm.
  pose proof (llm_decide_oracle_only R E C _ _ _ _ _ Hllm) as (_ & Ht & Hs).
  destruct (llm_decide_bounds R E C _ _ _ _ _ Hllm) as [Hup _].
  rewrite Nat.sub_0_r in Hup. set (P := 2 ^ S (max_retries C)) in *.
  pose proof (llm_decide_spec R E C _ _ _ _ _ Hllm) as Hpost.
  assert (Hlow : requests w + 1 <= requests w1).
  { destruct r1; cbn [llm_decide_post] in Hpost; [|unfold all_failed in Hpost]; lia. }
  destruct r1 as [[d|]|e]; cbn [snd]; try lia.
  cbv zeta. destruct (negb _ && _); cbn [snd]; [lia|].
  destruct (py_float R _) as [confidence|]; cbn [snd]; [|lia].
  rewrite apply_employee_update_unfold. cbv zeta.
  destruct (transport_ok E _); [|unfold requests, round_trips, saves in *; simpl; lia].
  pose proof (update_employee_row_counts (row_id item) (fst (staged R E (data item) d))
                (py_str R (dget "Reason" (VStr "") d)) confidence
                (emit (EvRoundTrip "apply_employee_update") w1)) as (Hr2 & Ht2 & Hs2).
  destruct (update_employee_row R E C _ _ _ _ _) as [[u|e] w2]; cbn [snd] in *;
    unfold requests, round_trips, saves in *; simpl in *; lia.
Qed.

Lemma process_all_cost employees st w :
  let w' := snd (process_all R E C employees (st, w)) in
  requests w + length employees <= requests w' /\
  requests w' + length employees <= requests w + length employees * 2 ^ S (max_retries C) /\
  round_trips w' <= round_trips w + length employees /\
  saves w' <= saves w + length employees.
Proof.
  revert st w. induction employees as [|item rest IH]; intros st w; cbn [process_all length].
  - simpl. lia.
  - rewrite process_employee_eq.
    pose proof (process_row_cost item w) as Hrow. cbv zeta in Hrow.
    destruct (process_row R E C item w) as [o w1]. cbn [snd] in Hrow.
    specialize (IH (count_row o st) w1). cbv zeta in IH.
    set (P := 2 ^ S (max_retries C)) in *.
    replace (S (length rest) * P) with (P + length rest * P) by reflexivity.
    destruct o as [[]|e]; cbn [count_row] in IH; lia.
Qed.

(** X22. What a run costs, in terms of the total the summary reports.
    Every fetched row costs at least one request to the oracle and at most
    [2 ^ (max_retries + 1) - 1], at most one tool call and at most one save;
    so between the start of [run_agent] and its end the requests number
    between [total] and [total * (2 ^ (max_retries + 1) - 1)], the MCP
    round trips at most [total + 3], and the saves at most [total]. *)
Theorem run_cost_is_bounded_by_the_total w :
  exists st elapsed t,
    trace (snd (run_agent R E C w)) = EvSummary st elapsed :: t /\
    requests w + total st <= requests (snd (run_agent R E C w)) /\
    requests (snd (run_agent R E C w)) + total st
      <= requests w + total st * 2 ^ S (max_retries C) /\
    round_trips (snd (run_agent R E C w)) <= round_trips w + 3 + total st /\
    saves (snd (run_agent R E C w)) <= saves w + total st.
Proof.
  rewrite run_agent_unfold. cbv zeta.
  assert (Hbody : let '(_, st, w1) := agent_body R E C w in
            requests w + total st <= requests w1 /\
            requests w1 + total st <= requests w + total st * 2 ^ S (max_retries C) /\
            round_trips w1 <= round_trips w + 3 + total st /\
            saves w1 <= saves w + total st).
  { set (P := 2 ^ S (max_retries C)).
    unfold agent_body. rewrite open_session_eq. cbv zeta.
    destruct (transport_ok E (round_trips w));
      [|unfold requests, round_trips, saves; simpl; lia].
    destruct (transport_ok E (S (round_trips w)));
      [|unfold requests, round_trips, saves; simpl; lia].
    unfold fetch_all_employees, round_trip. cbv zeta.
    destruct (transport_ok E _); [|unfold requests, round_trips, saves; simpl; lia].
    unfold get_all_employees, bind, read_excel, ret. cbn [file emit].
    set (w3 := emit (EvRoundTrip "fetch_all_employees")
                 (emit (EvRoundTrip "list_tools") (emit (EvRoundTrip "initialize") w))).
    assert (H3 : requests w3 = requests w /\ round_trips w3 = round_trips w + 3 /\
                 saves w3 = saves w)
      by (unfold requests, round_trips, saves; simpl; lia).
    destruct (file w) as [df|]; [|simpl; lia].
    destruct (total _ =? 0)%nat eqn:Hz.
    - apply Nat.eqb_eq in Hz. cbn [total set_total] in *. rewrite Hz. simpl. lia.
    - destruct (process_all R E C (employees_of R df) _) as [st' w'] eqn:Hall.
      pose proof (process_all_cost (employees_of R df)
                    (set_total (length (employees_of R df)) initial_stats) w3) as Hcost.
      destruct (process_all_counts R E C (employees_of R df)
                  (set_total (length (employees_of R df)) initial_stats, w3)) as [Ht _].
      rewrite Hall in Hcost, Ht. cbn [fst snd total set_total] in Hcost, Ht. cbv zeta in Hcost.
      rewrite Ht. lia. }
  set (P := 2 ^ S (max_retries C)) in *.
  destruct (agent_body R E C w) as [[[u|e] st] w1];
    eexists st, _, _; (split; [reflexivity|]);
    unfold requests, round_trips, saves in *; simpl; lia.
Qed.

End Run_cost.

(** ** What a row sends and leaves behind *)

Lemma grown_by_refl P w : grown_by P w w.
Proof. exists []. split; [reflexivity | constructor]. Qed.

Lemma grown_by_trans P w1 w2 w3 : grown_by P w1 w2 -> grown_by P w2 w3 -> grown_by P w1 w3.
Proof.
  intros (a1 & H1 & F1) (a2 & H2 & F2). exists (a2 ++ a1). split.
  - now rewrite H2, H1, app_assoc.
  - now apply Forall_app.
Qed.

Lemma grown_by_emit (P : event -> Prop) e w : P e -> grown_by P w (emit e w).
Proof. intros He. exists [e]. split; [reflexivity | now constructor]. Qed.

Lemma grown_by_write_file P df w w' : grown_by P w w' -> grown_by P w (write_file df w').
Proof. intros H. exact H. Qed.

Section Row_trace.

Variable R : runtime.
Variable E : environment.
Variable C : config.

Lemma llm_decide_trace (P : event -> Prop) row k w :
  P (EvRequest row) -> P (EvSleep (retry_delay C)) ->
  grown_by P w (snd (llm_decide R E C row k w)).
Proof.
  intros Hreq Hsleep. destruct (Z.lt_ge_cases (retry_delay C) 0) as [Hneg|Hpos].
  { rewrite (llm_decide_negative_delay _ _ _ _ _ _ Hneg). cbv zeta.
    destruct (nth_attempt R E (requests w)); [|destruct (lt_dec k (max_retries C))..];
      now apply grown_by_emit. }
  remember (max_retries C - k) as n eqn:Hn.
  revert k w Hn. induction n as [n IH] using lt_wf_ind. intros k w Hn.
  rewrite llm_decide_step by exact Hpos. cbv zeta.
  assert (Hfirst : grown_by P w (emit (EvRequest row) w)) by now apply grown_by_emit.
  assert (Hretry : forall w2, k < max_retries C -> grown_by P w w2 ->
            grown_by P w (snd (llm_decide R E C row (S k) (slept (retry_delay C) w2)))).
  { intros w2 Hk Hw2. eapply grown_by_trans; [exact Hw2|].
    eapply grown_by_trans; [apply grown_by_emit; exact Hsleep|].
    apply (IH (max_retries C - S k)); [lia | reflexivity]. }
  destruct (nth_attempt R E (requests w)).
  - exact Hfirst.
  - destruct (lt_dec k (max_retries C)) as [Hk|Hk]; [|exact Hfirst].
    pose proof (Hretry _ Hk Hfirst) as H2.
    destruct (llm_decide R E C row (S k) _) as [[d|e] w2]; [exact H2|].
    now apply Hretry.
  - destruct (lt_dec k (max_retries C)) as [Hk|Hk]; [|exact Hfirst].
    now apply Hretry.
Qed.

Lemma update_employee_row_trace (P : event -> Prop) row updates reason confidence w :
  (backup_enabled C = true -> P EvBackup) -> (forall ok, P (EvSave ok)) ->
  grown_by P w (snd (update_employee_row R E C row updates reason confidence w)).
Proof.
  intros Hbackup Hsave. rewrite update_employee_row_unfold. cbv zeta.
  assert (H1 : grown_by P w (backed_up E C w)).
  { unfold backed_up. destruct (backup_enabled C); cbn [andb]; [|apply grown_by_refl].
    destruct (backup_ok E _); [apply grown_by_emit; auto | apply grown_by_refl]. }
  destruct (file w) as [df|]; [|exact H1].
  destruct ((row <? 0)%Z || (Z.of_nat (length (rows df)) <=? row)%Z); [exact H1|].
  destruct (validate_updates R updates); [exact H1|].
  unfold to_excel. destruct (save_ok E _); cbn [snd].
  - apply grown_by_write_file. eapply grown_by_trans; [exact H1 | now apply grown_by_emit].
  - eapply grown_by_trans; [exact H1 | now apply grown_by_emit].
Qed.

Lemma dget_present k v default d :
  dget k VNone d = v -> v <> VNone -> dget k default d = v.
Proof.
  rewrite !dget_dfind. destruct (dfind k d); [trivial | congruence].
Qed.

Lemma update_employee_row_call row updates reason confidence w :
  let w' := snd (update_employee_row R E C row updates reason confidence w) in
  round_trips w' = round_trips w /\
  saves w <= saves w' /\ saves w' <= S (saves w) /\
  backups w <= backups w' /\ backups w' <= S (backups w).
Proof.
  cbv zeta. rewrite update_employee_row_unfold. cbv zeta.
  assert (H1 : round_trips (backed_up E C w) = round_trips w /\
               saves (backed_up E C w) = saves w /\
               backups w <= backups (backed_up E C w) /\
               backups (backed_up E C w) <= S (backups w)).
  { split; [now apply count_backed_up|]. split; [now apply count_backed_up|].
    rewrite backups_backed_up. destruct (_ && _); lia. }
  set (w1 := backed_up E C w) in *. destruct H1 as (Ht & Hs & Hb1 & Hb2).
  destruct (file w) as [df|]; [|cbn [snd]; lia].
  destruct ((row <? 0)%Z || (Z.of_nat (length (rows df)) <=? row)%Z); [cbn [snd]; lia|].
  destruct (validate_updates R updates); [cbn [snd]; lia|].
  unfold to_excel. destruct (save_ok E _); unfold round_trips, saves, backups in *; simpl; lia.
Qed.

Lemma process_row_call item w :
  let w' := snd (process_row R E C item w) in
  round_trips w <= round_trips w' /\ round_trips w' <= S (round_trips w) /\
  saves w <= saves w' /\ saves w' + round_trips w <= saves w + round_trips w' /\
  backups w <= backups w' /\ backups w' + round_trips w <= backups w + round_trips w'.
Proof.
  cbv zeta. rewrite process_row_unfold.
  destruct (llm_decide R E C _ 0 w) as [r1 w1] eqn:Hllm.
  pose proof (llm_decide_quiet R E C is_round_trip _ _ _ _ _ (fun _ => eq_refl) (fun _ => eq_refl) Hllm) as Ht.
  pose proof (llm_decide_quiet R E C is_save _ _ _ _ _ (fun _ => eq_refl) (fun _ => eq_refl) Hllm) as Hs.
  pose proof (llm_decide_quiet R E C is_backup _ _ _ _ _ (fun _ => eq_refl) (fun _ => eq_refl) Hllm) as Hb.
  fold (round_trips w1) (round_trips w) in Ht. fold (saves w1) (saves w) in Hs.
  fold (backups w1) (backups w) in Hb.
  destruct r1 as [[d|]|e]; cbn [snd]; try lia.
  cbv zeta. destruct (negb _ && _); cbn [snd]; [lia|].
  destruct (py_float R _) as [confidence|]; cbn [snd]; [|lia].
  rewrite apply_employee_update_unfold. cbv zeta.
  destruct (transport_ok E _); [|unfold round_trips, saves, backups in *; simpl; lia].
  pose proof (update_employee_row_call (row_id item) (fst (staged R E (data item) d))
                (py_str R (dget "Reason" (VStr "") d)) confidence
                (emit (EvRoundTrip "apply_employee_update") w1)) as (Ht2 & Hs2 & Hs3 & Hb2 & Hb3).
  destruct (update_employee_row R E C _ _ _ _ _) as [[u|e] w2]; cbn [snd] in *;
    unfold round_trips, saves, backups in *; simpl in *; lia.
Qed.

(** X23. What the body of the loop sends and leaves behind for one row.
    Every request it makes carries the record with the experience
    brought up to date: Experience_Years is the experience derived from
    the join date when there is one, and every other field (every field,
    when none can be derived) is the fetched one. Next to its requests
    the row adds to the trace only sleeps of [retry_delay] and what one
    call of [apply_employee_update] adds: at most one round trip, which is
    that call, and a save and a backup only with it, at most one of each,
    the backup only when backups are enabled. It never logs a fatal error
    or a summary. *)
Theorem every_request_carries_the_fresh_experience item w :
  grown_by (row_event R E C item) w (snd (process_row R E C item w)) /\
  (let w' := snd (process_row R E C item w) in
   round_trips w' <= S (round_trips w) /\
   saves w' + round_trips w <= saves w + round_trips w' /\
   backups w' + round_trips w <= backups w + round_trips w') /\
  (forall x, calculated_experience R E (dget "DOJ" VNone (data item)) = Some x ->
     dget "Experience_Years" VNone (data_for_decision R E (data item)) = VFloat x) /\
  (forall col default, col <> "Experience_Years" ->
     dget col default (data_for_decision R E (data item)) = dget col default (data item)) /\
  (calculated_experience R E (dget "DOJ" VNone (data item)) = None ->
   forall col default,
     dget col default (data_for_decision R E (data item)) = dget col default (data item)).
Proof.
  split; [|split]; [| |repeat apply conj].
  - rewrite process_row_unfold.
    pose proof (llm_decide_trace (row_event R E C item)
                  (data_for_decision R E (data item)) 0 w eq_refl eq_refl) as Hllm.
    destruct (llm_decide R E C _ 0 w) as [[[d|]|e] w1]; cbn [snd] in *; try exact Hllm.
    cbv zeta. destruct (negb _ && _); [exact Hllm|].
    destruct (py_float R _) as [confidence|]; [|exact Hllm].
    rewrite apply_employee_update_unfold. cbv zeta.
    assert (Hcall : grown_by (row_event R E C item) w
                      (emit (EvRoundTrip "apply_employee_update") w1))
      by (eapply grown_by_trans; [exact Hllm | now apply grown_by_emit]).
    destruct (transport_ok E _); [|exact Hcall].
    pose proof (update_employee_row_trace (row_event R E C item) (row_id item)
                  (fst (staged R E (data item) d)) (py_str R (dget "Reason" (VStr "") d))
                  confidence (emit (EvRoundTrip "apply_employee_update") w1)
                  (fun H => H) (fun _ => I)) as Hup.
    destruct (update_employee_row R E C _ _ _ _ _) as [[u|e] w2]; cbn [snd] in *;
      eapply grown_by_trans; eauto.
  - cbv zeta. pose proof (process_row_call item w) as H. cbv zeta in H. tauto.
  - intros x Hx. unfold data_for_decision. rewrite Hx. apply dget_dset_eq.
  - intros col default Hne. now apply data_for_decision_other.
  - intros Hnone col default. unfold data_for_decision. rewrite Hnone.
    destruct (dget "Experience_Years" VNone (data item)) eqn:Hcur; try reflexivity;
      (destruct (String.eqb_spec col "Experience_Years") as [->|Hne];
       [rewrite dget_dset_eq; symmetry; apply dget_present; [exact Hcur | discriminate]
       |apply dget_dset_ne; congruence]).
Qed.

(** X24. The agent takes up every row again, processed or not. When the
    workbook can be read and the session works, [run_agent] returns, and
    the total of its summary and the rows it has counted are all the rows
    of the workbook, whatever their Is_Processed cells hold; it has asked
    the oracle at least once for each of them. *)
Theorem processed_rows_are_processed_again w df :
  file w = Some df ->
  transport_ok E (round_trips w) = true ->
  transport_ok E (S (round_trips w)) = true ->
  transport_ok E (S (S (round_trips w))) = true ->
  exists st elapsed t,
    fst (run_agent R E C w) = Ok tt /\
    trace (snd (run_agent R E C w)) = EvSummary st elapsed :: t /\
    total st = length (rows df) /\ counted st = length (rows df) /\
    requests w + length (rows df) <= requests (snd (run_agent R E C w)).
Proof.
  intros Hfile H0 H1 H2. rewrite run_agent_unfold. unfold agent_body.
  rewrite open_session_eq. cbv zeta. rewrite H0, H1.
  unfold fetch_all_employees, round_trip, get_all_employees, bind, read_excel, ret.
  change (count_events is_round_trip
            (trace (emit (EvRoundTrip "list_tools") (emit (EvRoundTrip "initialize") w))))
    with (S (S (round_trips w))).
  rewrite H2. cbn [file emit]. rewrite Hfile.
  set (w3 := emit (EvRoundTrip "fetch_all_employees")
               (emit (EvRoundTrip "list_tools") (emit (EvRoundTrip "initialize") w))).
  assert (Hlen : length (employees_of R df) = length (rows df))
    by (unfold employees_of; apply length_imap).
  destruct (total _ =? 0)%nat eqn:Hz.
  - apply Nat.eqb_eq in Hz. cbn [total set_total] in Hz.
    eexists _, _, _. split; [reflexivity|]. split; [reflexivity|].
    cbn [total set_total]. unfold counted, requests. simpl. lia.
  - pose proof (process_all_counts R E C (employees_of R df)
                  (set_total (length (employees_of R df)) initial_stats, w3)) as [Ht Hc].
    pose proof (process_all_cost R E C (employees_of R df)
                  (set_total (length (employees_of R df)) initial_stats) w3) as (Hr & _).
    destruct (process_all R E C (employees_of R df) _) as [st' w'].
    cbn [fst snd] in *. eexists _, _, _. split; [reflexivity|]. split; [reflexivity|].
    cbn [total set_total] in Ht. unfold counted in *. simpl in Hc.
    unfold requests in *. simpl in *. lia.
Qed.

End Row_trace.

(** * Concrete runs *)

Lemma wf_frameb_ok df : wf_frameb df = true -> wf_frame df.
Proof.
  unfold wf_frameb, wf_frame. intros H. apply andb_true_iff in H as [Hnd Hlen].
  split; [now apply bool_decide_eq_true in Hnd|].
  apply Forall_forall. intros row Hin. apply list_elem_of_In in Hin.
  rewrite forallb_forall in Hlen. now apply Nat.eqb_eq, Hlen.
Qed.

(** ** Trimming *)

(** [str.strip] removes every character for which [str.isspace] holds,
    not the ASCII blanks alone. A department that ends in a no-break space
    equals the decision after trimming and is not staged; a staged value
    that is a no-break space counts as blank, so that the validation lets
    it through; and a no-break space in front of the oracle's answer is
    gone before the answer is parsed. *)
Example strip_removes_unicode_spaces :
  strip (no_break_space +:+ " Web" +:+ em_space +:+ no_break_space) = "Web" /\
  strip no_break_space = "" /\
  strip ("L2" +:+ no_break_space +:+ "x") = "L2" +:+ no_break_space +:+ "x" /\
  merge_field example_R "Department" [("Department", VStr ("Web" +:+ no_break_space))]
    "Web" ([], false) = ([], false) /\
  validate_updates example_R [("Department", VStr no_break_space)] = None /\
  strip_code_fence (no_break_space +:+ "web") = "web".
Proof. vm_compute. repeat split. Qed.

(** ** Field by field (C1) *)

(** An empty department is filled, a differing designation is overridden,
    an equal band is left alone. *)
Lemma merge_field_policy_witness :
  merge_field example_R "Department" [("Department", VStr " ")] "Web" ([], false)
  = ([("Department", VStr "Web")], true) /\
  merge_field example_R "Designation" [("Designation", VStr "Junior")] "Senior" ([], false)
  = ([("Designation", VStr "Senior")], true) /\
  merge_field example_R "Salary_Band" [("Salary_Band", VStr "L2 ")] "L2" ([], false)
  = ([], false).
Proof.
  repeat apply conj.
  - destruct (merge_field_policy example_R "Department" [("Department", VStr " ")] "Web"
                ([], false)) as (Hfill & _).
    apply Hfill; [reflexivity | discriminate].
  - destruct (merge_field_policy example_R "Designation" [("Designation", VStr "Junior")]
                "Senior" ([], false)) as (_ & Hoverride & _).
    apply Hoverride; [reflexivity | discriminate | vm_compute; discriminate].
  - destruct (merge_field_policy example_R "Salary_Band" [("Salary_Band", VStr "L2 ")]
                "L2" ([], false)) as (_ & _ & Hkeep & _).
    apply Hkeep. left. split; reflexivity.
Defined.

(** C1, counterexample. The Department cell holds the number 0 and the
    decision is the text "0". The cell is neither null nor NaN nor
    whitespace-only, and it equals the decision after trimming, so the
    policy as worded stages nothing; the code tests [not current_dept]
    first, takes the zero for an empty cell and stages the decision. *)
Lemma zero_cell_is_treated_as_empty :
  let data := [("Department", VInt 0)] in
  isna (VInt 0) = false /\
  strip (py_str example_R (VInt 0)) = "0" /\
  strip "0" = "0" /\
  spec_merge_field example_R "Department" data "0" ([], false) = ([], false) /\
  merge_field example_R "Department" data "0" ([], false)
  = ([("Department", VStr "0")], true).
Proof. vm_compute. repeat split. Qed.

(** ** Experience (C2) *)

(** The scenario of the specification: joined 2017-01-01, today
    2024-01-01, 2556 days, 7.0 years. *)
Example experience_2017_2024 :
  calculated_experience (example_runtime []) (steady None 19723) (VStr "2017-01-01")
  = Some (Fin (70 # 10)).
Proof. reflexivity. Qed.


(** ** Rows that need no write (C3) *)



(** ** Values outside the enumerations (C4) *)

Lemma invalid_dropdown_value_rejected_witness :
  (forall row updates reason confidence w, In ("Department", VStr "Marketing") updates ->
     exists e w', update_employee_row example_R (answering "marketing") default_config
                    row updates reason confidence w = (Raise e, w') /\
       file w' = file w /\
       (forall df, file w = Some df -> (0 <= row < Z.of_nat (length (rows df)))%Z ->
          exists c v, e = InvalidValue c v)) /\
  (forall item st w d w1,
     In ("Department", VStr "Marketing")
        (fst (staged example_R (answering "marketing") (data item) d)) ->
     llm_decide example_R (answering "marketing") default_config
       (data_for_decision example_R (answering "marketing") (data item)) 0 w
       = (Ok (JObject d), w1) ->
     exists w', process_employee example_R (answering "marketing") default_config item (st, w)
                = (add_failed st, w') /\
       file w' = file w).
Proof.
  apply (invalid_dropdown_value_rejected example_R (answering "marketing") default_config
           "Department" (VStr "Marketing") ["Web"; "AI"; "HR"; "Finance"; "Operations"]).
  - simpl. tauto.
  - reflexivity.
  - reflexivity.
  - vm_compute. discriminate.
  - reflexivity.
Defined.

(** The oracle answers Department = "Marketing" for a record without a
    department: the row fails and every cell is as before. *)
Example marketing_row_fails :
  let w := example_world [example_row (VStr "2017-01-01") VNone
                            (VStr "") (VStr "Junior") (VStr "") (VStr "No")] in
  let after := process_employee example_R (answering "marketing") default_config
                 (first_employee w) (initial_stats, w) in
  fst after = {| total := 0; success := 0; failed := 1; skipped := 0 |} /\
  file (snd after) = file w /\ saves (snd after) = 0.
Proof. vm_compute. repeat split. Qed.

(** ** A workbook that cannot be read (C5) *)

(** C5, counterexample. The workbook cannot be read, and the run ends
    normally: exit status 0, no fatal log line, a summary of zeros. *)
Lemma unreadable_store_exits_normally :
  main example_R (answering "web") default_config {| file := None; trace := [] |}
  = (0%Z, {| file := None;
             trace := [ EvSummary initial_stats 3;
                        EvRoundTrip "fetch_all_employees";
                        EvRoundTrip "list_tools";
                        EvRoundTrip "initialize" ] |}).
Proof. reflexivity. Qed.

(** The two ways a run can go when the workbook cannot be read. *)
Lemma unreadable_store_is_an_empty_run_witness :
  fst (run_agent example_R (answering "web") default_config {| file := None; trace := [] |})
  = Ok tt /\
  fst (main example_R (answering "web") default_config {| file := None; trace := [] |})
  = 0%Z.
Proof.
  destruct (unreadable_store_is_an_empty_run example_R (answering "web") default_config
              {| file := None; trace := [] |}) as (Hempty & _).
  destruct Hempty as (elapsed & Hrun & Hmain); try reflexivity.
  split; [now rewrite Hrun | exact Hmain].
Defined.

(** A session that cannot be opened is fatal, and the summary is printed
    all the same. *)
Example broken_session_is_fatal :
  run_agent example_R
    {| completion := fun _ => None; transport_ok := fun _ => false; save_ok := fun _ => true;
       backup_ok := fun _ => true;
       today := example_today; now := 0; wall := fun n => Z.of_nat n |}
    default_config settled_with_date
  = (Raise McpError,
     {| file := file settled_with_date;
        trace := [EvSummary initial_stats 2; EvFatal; EvRoundTrip "initialize"] |}).
Proof. reflexivity. Qed.

(** ** Retries (C6) *)

(** C6, the code at the failing input. With [max_retries = 3] and an
    oracle whose every answer is unparseable, [llm_decide] raises in the
    end, as claimed, but only after 15 requests and 14 sleeps of
    [retry_delay]: 14 attempts beyond the first, where the claim allows
    3. What the inner handler's retry raises is caught by the outer
    handler, which retries again. *)
Lemma llm_decide_unparseable_makes_15_requests :
  let after := llm_decide example_R babbling default_config [] 0
                 {| file := None; trace := [] |} in
  max_retries default_config = 3 /\
  fst after = Raise JSONDecodeError /\
  requests (snd after) = 15 /\
  sleeps (snd after) = 14 /\
  Forall (fun e => is_sleep e = true -> e = EvSleep (retry_delay default_config))
         (trace (snd after)).
Proof.
  vm_compute. repeat split.
  repeat (constructor; [intros H; first [reflexivity | discriminate H]|]). constructor.
Qed.

(** When the request itself fails every time, the bound holds: four
    requests, three sleeps. *)
Example llm_decide_failing_makes_4_requests :
  let after := llm_decide example_R (steady None example_today) default_config [] 0
                 {| file := None; trace := [] |} in
  fst after = Raise APIError /\ requests (snd after) = 4 /\ sleeps (snd after) = 3.
Proof. vm_compute. repeat split. Qed.

(** ** Failing rows (C7) *)

(** A row whose oracle call fails for good is counted as failed; and a
    run in which this happens to both rows of the workbook returns, with
    both rows counted as failed in its summary. *)
Lemma row_failures_never_abort_the_run_witness :
  (let item := first_employee unsettled in
   fst (process_employee example_R babbling default_config item (initial_stats, unsettled))
   = add_failed initial_stats) /\
  (exists elapsed w',
     run_agent example_R babbling default_config mixed
     = (Ok tt, emit (EvSummary {| total := 2; success := 0; failed := 2; skipped := 0 |}
                       elapsed) w')).
Proof.
  cbv zeta.
  destruct (row_failures_never_abort_the_run example_R babbling default_config)
    as (Horacle & _ & _ & _ & _ & _ & Hrun).
  split.
  - erewrite Horacle; [reflexivity|]. vm_compute. reflexivity.
  - destruct (Hrun mixed mixed_frame eq_refl eq_refl eq_refl eq_refl) as [elapsed Hmixed].
    match type of Hmixed with
    | context [EvSummary ?st _] =>
        assert (Hst : st = {| total := 2; success := 0; failed := 2; skipped := 0 |})
          by (vm_compute; reflexivity);
        rewrite Hst in Hmixed
    end.
    exists elapsed. eexists. exact Hmixed.
Defined.

(** ** Two runs in a row (C8) *)

Lemma second_run_stages_no_classification_witness :
  let item := first_employee unsettled in
  let w1 := snd (process_row example_R (answering "web") default_config item unsettled) in
  exists df1 item1,
    file w1 = Some df1 /\ employees_of example_R df1 !! 0 = Some item1 /\
    row_id item1 = row_id item /\
    (forall col, In col classification_columns ->
       dfind col (fst (staged example_R (answering "web") (data item1) senior_web)) = None) /\
    dfind "Experience_Years" (fst (staged example_R (answering "web") (data item1) senior_web))
    = dfind "Experience_Years" (fst (staged example_R (answering "web") (data item) senior_web)) /\
    cell_at df1 0 "Is_Processed" = Some (Val (VStr "Yes")) /\
    (forall w1' o w2, file w1' = Some df1 ->
       process_row example_R (answering "web") default_config item1 w1' = (o, w2) ->
       exists df2, file w2 = Some df2 /\
         cell_at df2 0 "Is_Processed" = Some (Val (VStr "Yes"))).
Proof.
  cbv zeta.
  apply (second_run_stages_no_classification example_R (answering "web") default_config
           {| columns := example_columns;
              rows := [example_row (VStr "2017-01-01") VNone
                         (VStr "") (VStr "Junior") (VStr "") (VStr "No")] |}
           0 (first_employee unsettled) senior_web unsettled
           (snd (llm_decide example_R (answering "web") default_config
                   (data_for_decision example_R (answering "web")
                      (data (first_employee unsettled))) 0 unsettled))).
  - reflexivity.
  - apply wf_frameb_ok. reflexivity.
  - intros col [<-|[<-|[<-|[]]]]; vm_compute; eauto.
  - reflexivity.
  - vm_compute. reflexivity.
  - vm_compute. reflexivity.
Defined.

(** C8, counterexample. The record already agrees with the decision and
    has no join date: the first run skips it, the second run skips it, and
    Is_Processed is "No" before, between and after. *)
Lemma skipped_row_is_not_marked_processed :
  let item := first_employee settled_without_date in
  let once := process_employee example_R (answering "web") default_config item
                (initial_stats, settled_without_date) in
  let twice := process_employee example_R (answering "web") default_config
                 (first_employee (snd once)) once in
  fst once = {| total := 0; success := 0; failed := 0; skipped := 1 |} /\
  fst twice = {| total := 0; success := 0; failed := 0; skipped := 2 |} /\
  file (snd once) = file settled_without_date /\
  file (snd twice) = file settled_without_date /\
  exists df, file (snd twice) = Some df /\
    cell_at df 0 "Is_Processed" = Some (Val (VStr "No")).
Proof. vm_compute. repeat split. eexists. split; reflexivity. Qed.

(** ** The row write (C9) *)

Lemma update_employee_row_postcondition_witness :
  let updates := [("Department", VStr "Web"); ("Experience_Years", VFloat (Fin (70 # 10)))] in
  let w' := snd (update_employee_row example_R (answering "web") default_config 0 updates
                   "8 yrs exp" (Fin (9 # 10)) unsettled) in
  exists df', file w' = Some df' /\
    cell_at df' 0 "Is_Processed" = Some (Val (VStr "Yes")) /\
    cell_at df' 0 "AI_Decision_Reason" = Some (Val (VStr "8 yrs exp")) /\
    cell_at df' 0 "Confidence_Score" = Some (Val (VFloat (Fin (9 # 10)))) /\
    cell_at df' 0 "Last_Processed_On" = Some (Timestamp 0) /\
    cell_at df' 0 "Department" = Some (Val (VStr "Web")).
Proof.
  cbv zeta.
  edestruct (update_employee_row_postcondition example_R (answering "web") default_config 0
               [("Department", VStr "Web"); ("Experience_Years", VFloat (Fin (70 # 10)))]
               "8 yrs exp" (Fin (9 # 10)) unsettled
               (snd (update_employee_row example_R (answering "web") default_config 0
                       [("Department", VStr "Web");
                        ("Experience_Years", VFloat (Fin (70 # 10)))]
                       "8 yrs exp" (Fin (9 # 10)) unsettled))
               {| columns := example_columns;
                  rows := [example_row (VStr "2017-01-01") VNone
                             (VStr "") (VStr "Junior") (VStr "") (VStr "No")] |} tt)
    as (df' & Hfile & _ & H1 & H2 & H3 & H4 & Hstaged & _).
  - reflexivity.
  - apply wf_frameb_ok. reflexivity.
  - vm_compute. reflexivity.
  - exists df'. repeat split; try assumption.
    apply Hstaged.
    + apply (bool_decide_unpack _). vm_compute. exact I.
    + simpl. tauto.
    + reflexivity.
    + vm_compute. eauto.
    + simpl. intros [H|[H|[H|[H|[]]]]]; discriminate.
Defined.

(** ** Falsy values (C10) *)

(** Joined today: 0.0 is staged and is falsy. *)
Lemma falsy_values_are_not_written_witness :
  let data := [("DOJ", VStr "2024-01-01")] in
  dfind "Experience_Years" (fst (staged example_R (answering "web") data senior_web))
  = Some (VFloat (Fin (0 # 10))) /\
  truthy (VFloat (Fin (0 # 10))) = false.
Proof.
  cbv zeta.
  destruct (falsy_values_are_not_written example_R (answering "web") default_config)
    as (_ & _ & _ & Hzero).
  destruct (Hzero [("DOJ", VStr "2024-01-01")] "2024-01-01" senior_web)
    as (_ & Hfalsy & Hstaged & _); try reflexivity; [discriminate|].
  split; assumption.
Defined.

(** Joined today: the experience 0.0 is staged and the row is written,
    but the Experience_Years cell stays empty. *)
Example zero_experience_is_not_persisted :
  let w := example_world [example_row (VStr "2024-01-01") VNone
                            (VStr "") (VStr "") (VStr "") (VStr "No")] in
  let item := first_employee w in
  let after := process_employee example_R (answering "web") default_config item
                 (initial_stats, w) in
  dfind "Experience_Years" (fst (staged example_R (answering "web") (data item) senior_web))
    = Some (VFloat (Fin (0 # 10))) /\
  fst after = {| total := 0; success := 1; failed := 0; skipped := 0 |} /\
  exists df, file (snd after) = Some df /\
    cell_at df 0 "Experience_Years" = Some (Val VNone) /\
    cell_at df 0 "Department" = Some (Val (VStr "Web")).
Proof. vm_compute. repeat split. eexists. repeat split. Qed.

(** ** The scenario of the specification *)

(** The end-to-end scenario of the specification. *)
Example end_to_end_scenario :
  let w := example_world [example_row (VStr "2017-01-01") VNone
                            (VStr "") (VStr "Junior") (VStr "") (VStr "No")] in
  let after := process_employee example_R (answering "web") default_config
                 (first_employee w) (initial_stats, w) in
  fst after = {| total := 0; success := 1; failed := 0; skipped := 0 |} /\
  exists df, file (snd after) = Some df /\
    cell_at df 0 "Experience_Years" = Some (Val (VFloat (Fin (70 # 10)))) /\
    cell_at df 0 "Department" = Some (Val (VStr "Web")) /\
    cell_at df 0 "Designation" = Some (Val (VStr "Senior")) /\
    cell_at df 0 "Salary_Band" = Some (Val (VStr "L2")) /\
    cell_at df 0 "Is_Processed" = Some (Val (VStr "Yes")).
Proof. vm_compute. split; [reflexivity|]. eexists. repeat split. Qed.

(** * Concrete runs of the further properties *)

Lemma unprocessed_are_the_rows_not_marked_yes_witness :
  let R := example_R in let w := mixed in let df := mixed_frame in
  exists l, get_unprocessed_employees R w = (Ok l, w) /\
    sublist l (employees_of R df) /\
    (forall r item, employees_of R df !! r = Some item ->
       (item ∈ l <-> cell_at df r "Is_Processed" <> Some (Val (VStr "Yes")))) /\
    (get_loc "Is_Processed" (columns df) = None -> l = employees_of R df).
Proof.
  cbv zeta. apply (unprocessed_are_the_rows_not_marked_yes example_R mixed mixed_frame).
  reflexivity.
Defined.

Lemma written_row_leaves_the_unprocessed_list_witness :
  let R := example_R in let E := answering "web" in let C := default_config in
  let row := 1%Z in let updates := [("Department", VStr "Web")] in
  let df := mixed_frame in
  let w' := snd (update_employee_row R E C row updates "filled" (Fin (9 # 10)) mixed) in
  exists l, get_unprocessed_employees R w' = (Ok l, w') /\
    (forall item, item ∈ l -> row_id item <> row) /\
    (forall r, Z.of_nat r <> row ->
       ((exists item, item ∈ l /\ row_id item = Z.of_nat r) <->
        r < length (rows df) /\ cell_at df r "Is_Processed" <> Some (Val (VStr "Yes")))).
Proof.
  cbv zeta.
  apply (written_row_leaves_the_unprocessed_list example_R (answering "web") default_config
           1 [("Department", VStr "Web")] "filled" (Fin (9 # 10)) mixed
           (snd (update_employee_row example_R (answering "web") default_config 1
                   [("Department", VStr "Web")] "filled" (Fin (9 # 10)) mixed))
           tt mixed_frame).
  - reflexivity.
  - apply wf_frameb_ok. reflexivity.
  - vm_compute. reflexivity.
Defined.

Lemma update_employee_row_keeps_the_shape_witness :
  let R := example_R in let E := answering "web" in let C := default_config in
  let updates := [("Department", VStr "Web"); ("Team", VStr "Core")] in
  let df := bare_frame in
  let w' := snd (update_employee_row R E C 0 updates "filled" (Fin (9 # 10)) bare) in
  exists df', file w' = Some df' /\ wf_frame df' /\
    length (rows df') = length (rows df) /\
    columns df' = columns df ++ filter (fun c => c ∉ columns df) required_audit_columns /\
    (forall col, col ∈ columns df' -> col ∈ columns df \/ In col required_audit_columns).
Proof.
  cbv zeta.
  apply (update_employee_row_keeps_the_shape example_R (answering "web") default_config
           0 [("Department", VStr "Web"); ("Team", VStr "Core")] "filled" (Fin (9 # 10)) bare
           (snd (update_employee_row example_R (answering "web") default_config 0
                   [("Department", VStr "Web"); ("Team", VStr "Core")] "filled"
                   (Fin (9 # 10)) bare))
           tt bare_frame).
  - reflexivity.
  - apply wf_frameb_ok. reflexivity.
  - vm_compute. reflexivity.
Defined.

Lemma update_employee_row_touches_one_row_witness :
  let R := example_R in let E := answering "web" in let C := default_config in
  let row := 0%Z in let updates := [("Department", VStr "Web"); ("Team", VStr "Core")] in
  let df := bare_frame in
  let w' := snd (update_employee_row R E C row updates "filled" (Fin (9 # 10)) bare) in
  exists df', file w' = Some df' /\
    (forall r col, r <> Z.to_nat row -> is_Some (get_loc col (columns df)) ->
       cell_at df' r col = cell_at df r col) /\
    (forall r, r <> Z.to_nat row -> r < length (rows df) ->
       get_loc "Is_Processed" (columns df) = None ->
       cell_at df' r "Is_Processed" = Some (Val (VStr "No"))) /\
    (forall col, is_Some (get_loc col (columns df)) -> ~ In col audit_columns ->
       last_write col updates = None ->
       cell_at df' (Z.to_nat row) col = cell_at df (Z.to_nat row) col).
Proof.
  cbv zeta.
  apply (update_employee_row_touches_one_row example_R (answering "web") default_config
           0 [("Department", VStr "Web"); ("Team", VStr "Core")] "filled" (Fin (9 # 10)) bare
           (snd (update_employee_row example_R (answering "web") default_config 0
                   [("Department", VStr "Web"); ("Team", VStr "Core")] "filled"
                   (Fin (9 # 10)) bare))
           tt bare_frame).
  - reflexivity.
  - apply wf_frameb_ok. reflexivity.
  - vm_compute. reflexivity.
Defined.

Lemma blank_string_gets_past_validation_witness :
  let R := example_R in let E := answering "web" in let C := default_config in
  let col := "Department" in let s := " " in let rest := @nil (string * value) in
  let allowed := ["Web"; "AI"; "HR"; "Finance"; "Operations"] in
  value_in (VStr s) allowed = false /\
  validate_updates R ((col, VStr s) :: rest) = validate_updates R rest /\
  (forall row reason confidence w w' df u,
     file w = Some df -> wf_frame df -> NoDup (fst <$> (col, VStr s) :: rest) ->
     is_Some (get_loc col (columns df)) -> col <> "Is_Processed" ->
     update_employee_row R E C row ((col, VStr s) :: rest) reason confidence w = (Ok u, w') ->
     exists df', file w' = Some df' /\ cell_at df' (Z.to_nat row) col = Some (Val (VStr s))).
Proof.
  cbv zeta.
  apply (blank_string_gets_past_validation example_R (answering "web") default_config
           "Department" ["Web"; "AI"; "HR"; "Finance"; "Operations"] " " []).
  - reflexivity.
  - discriminate.
  - vm_compute. reflexivity.
Defined.

Lemma get_all_employees_lists_every_row_witness :
  let R := example_R in let w := mixed in let df := mixed_frame in
  exists l, get_all_employees R w = (Ok l, w) /\
    length l = length (rows df) /\
    forall r item, l !! r = Some item ->
      row_id item = Z.of_nat r /\
      (0 <= row_id item < Z.of_nat (length (rows df)))%Z /\
      fst <$> data item = columns df /\
      (forall col, (forall n, cell_at df r col <> Some (Val (VInt n))) ->
         dget col VNone (data item) = field R df r col) /\
      (forall col v, In (col, v) (data item) -> v <> VFloat NaN).
Proof.
  cbv zeta. apply (get_all_employees_lists_every_row example_R mixed mixed_frame).
  - reflexivity.
  - apply wf_frameb_ok. reflexivity.
Defined.

Lemma fetch_after_update_reads_the_written_values_witness :
  let R := example_R in let E := answering "web" in let C := default_config in
  let row := 1%Z in let reason := "filled" in let confidence := Fin (9 # 10) in
  let updates := [("Department", VStr "Web"); ("Salary_Band", VStr "L1")] in
  let df := mixed_frame in
  let w' := snd (update_employee_row R E C row updates reason confidence mixed) in
  exists l item, get_all_employees R w' = (Ok l, w') /\
    l !! Z.to_nat row = Some item /\ row_id item = row /\
    dget "Is_Processed" VNone (data item) = VStr "Yes" /\
    (forall col val allowed, In (col, val) updates ->
       dropdown col DROPDOWNS = Some allowed ->
       truthy val = true -> strip (py_str R val) <> "" ->
       is_Some (get_loc col (columns df)) -> col <> "Is_Processed" ->
       dget col VNone (data item) = val /\ exists s, val = VStr s /\ In s allowed).
Proof.
  cbv zeta.
  apply (fetch_after_update_reads_the_written_values example_R (answering "web")
           default_config 1 [("Department", VStr "Web"); ("Salary_Band", VStr "L1")]
           "filled" (Fin (9 # 10)) mixed
           (snd (update_employee_row example_R (answering "web") default_config 1
                   [("Department", VStr "Web"); ("Salary_Band", VStr "L1")]
                   "filled" (Fin (9 # 10)) mixed))
           tt mixed_frame).
  - reflexivity.
  - apply wf_frameb_ok. reflexivity.
  - apply (bool_decide_unpack _). vm_compute. exact I.
  - vm_compute. reflexivity.
Defined.

Lemma reset_makes_every_row_unprocessed_witness :
  let R := example_R in let E := answering "web" in let C := default_config in
  let w := mixed in let df := mixed_frame in
  exists df' w',
    reset_processed_flag_for_reprocessing E C w = (StatusSuccess (length (rows df)), w') /\
    file w' = Some df' /\ wf_frame df' /\ length (rows df') = length (rows df) /\
    (forall r, r < length (rows df) ->
       cell_at df' r "Is_Processed" = Some (Val (VStr "No"))) /\
    (forall r col, col <> "Is_Processed" -> cell_at df' r col = cell_at df r col) /\
    get_unprocessed_employees R w' = (Ok (employees_of R df'), w').
Proof.
  cbv zeta.
  apply (reset_makes_every_row_unprocessed example_R (answering "web") default_config
           mixed mixed_frame).
  - reflexivity.
  - apply wf_frameb_ok. reflexivity.
  - reflexivity.
Defined.

Lemma update_experience_recomputes_every_dated_row_witness :
  let R := example_R in let E := answering "web" in let C := default_config in
  let timestamp_date := new_year_2017 in let w := bare in let df := bare_frame in
  exists df' w',
    update_experience_from_doj R E C timestamp_date w
    = (StatusSuccess
         (length (List.filter (fun r => bool_decide (is_Some (joined_on R timestamp_date df r)))
                              (seq 0 (length (rows df))))), w') /\
    file w' = Some df' /\ wf_frame df' /\ length (rows df') = length (rows df) /\
    (forall r, r < length (rows df) ->
       cell_at df' r "Experience_Years" =
         match joined_on R timestamp_date df r with
         | Some doj => Some (Val (VFloat (experience_years E doj)))
         | None => Some (default (Val (VFloat (Fin (inject_Z 0))))
                                 (cell_at df r "Experience_Years"))
         end) /\
    (forall r col, col <> "Experience_Years" -> cell_at df' r col = cell_at df r col).
Proof.
  cbv zeta.
  apply (update_experience_recomputes_every_dated_row example_R (answering "web")
           default_config new_year_2017 bare bare_frame).
  - reflexivity.
  - apply wf_frameb_ok. reflexivity.
  - vm_compute. eauto.
  - reflexivity.
Defined.

Lemma update_experience_twice_is_once_witness :
  let R := example_R in let E := answering "web" in let C := default_config in
  let timestamp_date := new_year_2017 in
  let w' := snd (update_experience_from_doj R E C timestamp_date bare) in
  exists w'', update_experience_from_doj R E C timestamp_date w' = (StatusSuccess 2, w'') /\
    file w'' = file w'.
Proof.
  cbv zeta.
  apply (update_experience_twice_is_once example_R (answering "web") default_config
           new_year_2017 bare bare_frame 2
           (snd (update_experience_from_doj example_R (answering "web") default_config
                   new_year_2017 bare))).
  - reflexivity.
  - apply wf_frameb_ok. reflexivity.
  - vm_compute. reflexivity.
  - reflexivity.
Defined.

Lemma update_experience_agrees_with_the_agent_witness :
  let R := new_year_runtime in let E := answering "web" in let C := default_config in
  let timestamp_date := new_year_2017 in
  exists n w' df',
    update_experience_from_doj R E C timestamp_date bare = (StatusSuccess n, w') /\
    file w' = Some df' /\
    cell_at df' 1 "Experience_Years" = Some (Val (VFloat (Fin (70 # 10)))).
Proof.
  cbv zeta.
  apply (update_experience_agrees_with_the_agent new_year_runtime (answering "web")
           default_config new_year_2017 bare bare_frame 1
           {| row_id := 1;
              data := row_dict new_year_runtime (columns bare_frame)
                        [Val (VStr "Ravi"); Timestamp 1483228800; Val (VStr "Web")] |}
           (Fin (70 # 10))).
  - reflexivity.
  - apply wf_frameb_ok. reflexivity.
  - reflexivity.
  - intros t. reflexivity.
  - reflexivity.
  - vm_compute. reflexivity.
Defined.


Example llm_decide_negative_delay_raises_at_once :
  fst (llm_decide example_R babbling negative_delay [] 0 unsettled) = Raise SleepError /\
  fst (llm_decide example_R (steady None example_today) negative_delay [] 0 unsettled)
  = Raise SleepError /\
  fst (llm_decide example_R (answering "web") negative_delay [] 0 unsettled)
  = Ok (JObject senior_web).
Proof. vm_compute. repeat split. Qed.

Lemma merge_dicts_prefers_the_override_witness :
  let base := default_config_dict in let override := model_only in let k := "openai" in
  yget k (_merge_dicts base override) =
    match yget k override with
    | None => yget k base
    | Some (YDict o) =>
        match yget k base with
        | Some (YDict b) => Some (YDict (_merge_dicts b o))
        | _ => Some (YDict o)
        end
    | Some value => Some value
    end.
Proof.
  cbv zeta. apply (merge_dicts_prefers_the_override default_config_dict model_only "openai").
  apply (bool_decide_unpack _). vm_compute. exact I.
Defined.

Lemma untouched_setting_keeps_its_default_witness :
  let config := default [] (load_config (Loaded (YDict model_only)) both_overrides) in
  setting "openai" "max_retries" (YScalar (VInt 3)) config = Some (YScalar (VInt 3)).
Proof.
  cbv zeta.
  apply (untouched_setting_keeps_its_default model_only both_overrides "openai" "max_retries"
           [ ("model", YScalar (VStr "gpt-4o-mini")); ("temperature", YScalar (VInt 0));
             ("max_retries", YScalar (VInt 3)); ("retry_delay", YScalar (VInt 2)) ]).
  - apply (bool_decide_unpack _). vm_compute. exact I.
  - reflexivity.
  - reflexivity.
  - right. exists [("model", YScalar (VStr "gpt-4o"))]. split; [reflexivity|]. split.
    + apply NoDup_singleton.
    + reflexivity.
  - intros _. discriminate.
  - vm_compute. reflexivity.
Defined.

Lemma processed_rows_are_processed_again_witness :
  let R := example_R in let E := answering "web" in let C := default_config in
  let w := mixed in let df := mixed_frame in
  exists st elapsed t,
    fst (run_agent R E C w) = Ok tt /\
    trace (snd (run_agent R E C w)) = EvSummary st elapsed :: t /\
    total st = length (rows df) /\ counted st = length (rows df) /\
    requests w + length (rows df) <= requests (snd (run_agent R E C w)).
Proof.
  cbv zeta.
  apply (processed_rows_are_processed_again example_R (answering "web") default_config
           mixed mixed_frame); reflexivity.
Defined.
